(** * pybkgmodel: event samples, loaders, run summaries and run neighbours

    A shallow embedding of [src/pybkgmodel/data.py], and what holds of it.

    - numpy's [float64] is the kernel's binary64 type [float]; a numpy array
      is a [list float]: every column is a float64 array. (numpy computes
      in single precision with a column that a file holds in single
      precision; such a column is outside this development.) The functions
      of numpy that the program calls are written out in [Module numpy].
    - An astropy [Quantity] is an array (or scalar) paired with its unit.
    - A Python exception is a constructor of [exn]; a function that can raise
      returns a [result]; a function that also prints returns an [io].
    - A file name is a [string] of ASCII characters; the three patterns of
      [get_obs_id] are run by a greedy backtracking matcher ([Module re]).
    - What is read from disk (uproot, pandas, astropy.io.fits) and astropy's
      time and sky-coordinate transformations are third-party code: they are
      the fields of the classes [FileSystem] and [Astropy], and every
      property holds for all of their instances. [Module Demo] is one
      instance, to run the program in.

    The definitions come first: the program, then ([Module Spec] and after)
    the words of the specification. The properties follow. *)

From Stdlib Require Import String Ascii List Bool ZArith Lia PeanoNat.
From Stdlib Require Import Floats Uint63.
From Stdlib Require Import Permutation Sorted.
Import ListNotations.

Set Warnings "-inexact-float".

Local Open Scope string_scope.
Local Open Scope list_scope.

(** ** Exceptions and results *)

Inductive exn : Type :=
| KeyError (key : string)
| RuntimeError (msg : string)
| UnboundLocalError (name : string)
| TypeError
| ValueError
| IndexError
| AttributeError
| UnitConversionError
| OSError.

Inductive result (A : Type) : Type :=
| Ok (a : A)
| Raise (e : exn).

Arguments Ok {A} a.
Arguments Raise {A} e.

Definition bind {A B : Type} (m : result A) (k : A -> result B) : result B :=
  match m with
  | Ok a => k a
  | Raise e => Raise e
  end.

Notation "x <- m ;; k" := (bind m (fun x => k))
  (at level 61, m at next level, right associativity).

Definition returns {A : Type} (m : result A) : Prop := exists a, m = Ok a.

Definition raises {A : Type} (m : result A) : Prop := exists e, m = Raise e.

(** What [print] wrote, oldest line first, and how the call ended. *)
Definition io (A : Type) : Type := (list string * result A)%type.

Definition io_ret {A : Type} (a : A) : io A := ([], Ok a).

Definition io_raise {A : Type} (e : exn) : io A := ([], Raise e).

Definition print (line : string) : io unit := ([line], Ok tt).

Definition lift {A : Type} (m : result A) : io A := ([], m).

Definition io_bind {A B : Type} (m : io A) (k : A -> io B) : io B :=
  match m with
  | (out, Ok a) => let (out', r) := k a in (out ++ out', r)
  | (out, Raise e) => (out, Raise e)
  end.

Notation "x <~ m ;; k" := (io_bind m (fun x => k))
  (at level 61, m at next level, right associativity).

(** ** Python dictionaries

    A [dict] keeps its keys in insertion order; assigning to a key that is
    present replaces the value where it stands. *)

Definition dict (V : Type) : Type := list (string * V).

Fixpoint dict_get {V : Type} (d : dict V) (k : string) : option V :=
  match d with
  | [] => None
  | (k', v) :: d' => if String.eqb k' k then Some v else dict_get d' k
  end.

Fixpoint dict_set {V : Type} (d : dict V) (k : string) (v : V) : dict V :=
  match d with
  | [] => [(k, v)]
  | (k', v') :: d' =>
      if String.eqb k' k then (k', v) :: d' else (k', v') :: dict_set d' k v
  end.

Definition dict_mem {V : Type} (d : dict V) (k : string) : bool :=
  match dict_get d k with Some _ => true | None => false end.

(** [d[k]], which raises [KeyError] on a missing key. *)
Definition getitem {V : Type} (d : dict V) (k : string) : result V :=
  match dict_get d k with
  | Some v => Ok v
  | None => Raise (KeyError k)
  end.

Definition dict_values {V : Type} (d : dict V) : list V := map snd d.

(** ** numpy *)

Module numpy.

Definition ndarray : Type := list float.

Definition isfinite (x : float) : bool :=
  negb (PrimFloat.is_nan x || PrimFloat.is_infinity x).

Definition zeros (n : nat) : ndarray := repeat 0%float n.

Definition of_nat (n : nat) : float :=
  PrimFloat.of_uint63 (Uint63.of_Z (Z.of_nat n)).

(** [a[mask]] for a boolean [mask]: the entries at the true positions; a mask
    of another length than [a] is an [IndexError]. *)
Fixpoint select {A : Type} (a : list A) (mask : list bool) : list A :=
  match a, mask with
  | x :: a', b :: mask' => if b then x :: select a' mask' else select a' mask'
  | _, _ => []
  end.

Definition getitem_mask {A : Type} (a : list A) (mask : list bool)
  : result (list A) :=
  if Nat.eqb (length a) (length mask) then Ok (select a mask)
  else Raise IndexError.

Fixpoint and_rows (r m : list bool) : list bool :=
  match r, m with
  | x :: r', y :: m' => (x && y)%bool :: and_rows r' m'
  | _, _ => []
  end.

(** [numpy.prod(rows, axis=0, dtype=bool)]: rows of equal length are stacked
    and multiplied column by column, which for booleans is conjunction; rows
    of unequal length cannot be stacked ([ValueError]). Of no row at all the
    product is the 0-d value [True]; no loader indexes with it (there is then
    no column left to index), and it stands here as the empty mask. *)
Fixpoint prod_axis0 (rows : list (list bool)) : result (list bool) :=
  match rows with
  | [] => Ok []
  | r :: rest =>
      match rest with
      | [] => Ok r
      | _ =>
          m <- prod_axis0 rest ;;
          if Nat.eqb (length r) (length m) then Ok (and_rows r m)
          else Raise ValueError
      end
  end.

(** The order of [numpy.sort] on floats: ascending, NaN last. *)
Definition sort_lt (a b : float) : bool :=
  (PrimFloat.ltb a b || (PrimFloat.is_nan b && negb (PrimFloat.is_nan a)))%bool.

Fixpoint sort_insert (x : float) (l : ndarray) : ndarray :=
  match l with
  | [] => [x]
  | y :: l' => if sort_lt y x then y :: sort_insert x l' else x :: y :: l'
  end.

Definition sort (a : ndarray) : ndarray := fold_right sort_insert [] a.

(** [numpy.diff]: [out[i] = a[i+1] - a[i]]. *)
Fixpoint diff (a : ndarray) : ndarray :=
  match a with
  | x :: (y :: _) as a' => (y - x)%float :: diff a'
  | _ => []
  end.

(** The loop of numpy's pairwise summation over the rest of a block, eight
    values at a time onto eight partial sums; these are added up two by two
    when fewer than eight values are left, and the left-over values are
    added one by one. *)
Fixpoint unrolled (r0 r1 r2 r3 r4 r5 r6 r7 : float) (a : ndarray) : float :=
  match a with
  | x0 :: x1 :: x2 :: x3 :: x4 :: x5 :: x6 :: x7 :: a' =>
      unrolled (r0 + x0) (r1 + x1) (r2 + x2) (r3 + x3)
               (r4 + x4) (r5 + x5) (r6 + x6) (r7 + x7) a'
  | _ =>
      fold_left PrimFloat.add a
                (((r0 + r1) + (r2 + r3)) + ((r4 + r5) + (r6 + r7)))%float
  end.

(** A block: fewer than eight values are added from left to right, and
    else the first eight start the partial sums. *)
Definition block (a : ndarray) : float :=
  match a with
  | x0 :: x1 :: x2 :: x3 :: x4 :: x5 :: x6 :: x7 :: a' =>
      unrolled x0 x1 x2 x3 x4 x5 x6 x7 a'
  | _ => fold_left PrimFloat.add a 0%float
  end.

Definition PW_BLOCKSIZE : nat := 128.

(** [pairwise_sum]: an array of up to 128 values is one block; a longer one
    is cut in two near its middle, at a multiple of eight, and the sums of
    the two parts are added. Each cut shortens both parts: a [fuel] of the
    length of the array is never used up. *)
Fixpoint pairwise_sum (fuel : nat) (a : ndarray) : float :=
  if Nat.leb (length a) PW_BLOCKSIZE then block a
  else match fuel with
       | O => block a
       | S fuel' =>
           let n2 := Nat.div (length a) 2 in
           let n2 := n2 - Nat.modulo n2 8 in
           (pairwise_sum fuel' (firstn n2 a)
            + pairwise_sum fuel' (skipn n2 a))%float
       end.

(** [numpy.sum] of a float64 array: [add.reduce] starts from zero and adds
    the pairwise sum of the array. *)
Definition sum (a : ndarray) : float :=
  (0 + pairwise_sum (length a) a)%float.

(** [numpy.mean]: the sum over the count (NaN for an empty array). *)
Definition mean (a : ndarray) : float := (sum a / of_nat (length a))%float.

Definition fmin (a b : float) : float :=
  if PrimFloat.is_nan a then a
  else if PrimFloat.is_nan b then b
  else if PrimFloat.ltb b a then b else a.

(** [numpy.amin]; the minimum of an empty array is a [ValueError]. *)
Definition amin (a : ndarray) : result float :=
  match a with
  | [] => Raise ValueError
  | x :: a' => Ok (fold_left fmin a' x)
  end.

(** The largest [j <= k] with [j <= v] as floats ([0] when there is none):
    [floor v] for [0 <= v] below the array length. *)
Fixpoint floor_upto (v : float) (k : nat) : nat :=
  match k with
  | O => O
  | S k' => if PrimFloat.leb (of_nat k) v then k else floor_upto v k'
  end.

Definition lerp (a b t : float) : float :=
  let diff_b_a := (b - a)%float in
  if PrimFloat.leb 0.5%float t then (b - diff_b_a * (1 - t))%float
  else (a + diff_b_a * t)%float.

(** [numpy.percentile(a, q)] with its default linear interpolation: on the
    sorted array, at the virtual index [(n - 1) * (q / 100)], between the two
    neighbours; NaN as soon as the array holds one. *)
Definition percentile (a : ndarray) (q : float) : float :=
  let s := sort a in
  let n := length s in
  let vi := (of_nat (n - 1) * (q / 100))%float in
  if existsb PrimFloat.is_nan s then nan
  else if PrimFloat.leb (of_nat (n - 1)) vi then
    lerp (last s nan) (last s nan) (vi + 1)%float
  else
    let i := floor_upto vi (n - 1) in
    lerp (nth i s nan) (nth (S i) s nan) (vi - of_nat i)%float.

(** The scan of [argmin] and [argmax]: the index of the best value so far
    moves to a value that is not [worse] than it is; a NaN is the extreme
    value, and the scan stops at the first one. *)
Fixpoint argbest (worse : float -> float -> bool)
  (best : nat) (bv : float) (i : nat) (a : ndarray) : nat :=
  if PrimFloat.is_nan bv then best
  else match a with
       | [] => best
       | x :: a' =>
           if worse x bv then argbest worse best bv (S i) a'
           else argbest worse i x (S i) a'
       end.

(** [a.argmin()], [a.argmax()]: the first index of an extreme value ([x] is
    worse than the minimum so far when [x >= it], than the maximum so far
    when [x <= it]); there is none in an empty array ([ValueError]). *)
Definition argmin (a : ndarray) : result nat :=
  match a with
  | [] => Raise ValueError
  | x :: a' => Ok (argbest (fun x bv => PrimFloat.leb bv x) 0 x 1 a')
  end.

Definition argmax (a : ndarray) : result nat :=
  match a with
  | [] => Raise ValueError
  | x :: a' => Ok (argbest (fun x bv => PrimFloat.leb x bv) 0 x 1 a')
  end.

(** [a[i]] for an index in range. *)
Definition item {A : Type} (a : list A) (i : nat) : result A :=
  match nth_error a i with
  | Some x => Ok x
  | None => Raise IndexError
  end.

(** [a[indices]] for a list of indices: the entries at these positions, in
    the order of the list. *)
Fixpoint take {A : Type} (a : list A) (indices : list nat) : result (list A) :=
  match indices with
  | [] => Ok []
  | i :: rest => x <- item a i ;; xs <- take a rest ;; Ok (x :: xs)
  end.

(** pi / 180 and 180 / pi as float64. *)
Definition deg2rad : float := 0.017453292519943295%float.

Definition rad2deg : float := 57.29577951308232%float.

Definition degrees (a : ndarray) : ndarray :=
  map (fun x => (x * rad2deg)%float) a.

Definition radians (x : float) : float := (x * deg2rad)%float.

Definition fmax (a b : float) : float :=
  if PrimFloat.is_nan a then a
  else if PrimFloat.is_nan b then b
  else if PrimFloat.ltb a b then b else a.

(** [numpy.amax]; the maximum of an empty array is a [ValueError]. *)
Definition amax (a : ndarray) : result float :=
  match a with
  | [] => Raise ValueError
  | x :: a' => Ok (fold_left fmax a' x)
  end.

End numpy.

(** ** astropy.units *)

Module u.

Inductive unit : Type :=
| hourangle | deg | rad | arcmin
| GeV | TeV
| d | h | min | s
| one.

Inductive physical_type : Type := angle | energy | time | dimensionless.

Definition physical (x : unit) : physical_type :=
  match x with
  | hourangle | deg | rad | arcmin => angle
  | GeV | TeV => energy
  | d | h | min | s => time
  | one => dimensionless
  end.

Definition physical_eqb (p q : physical_type) : bool :=
  match p, q with
  | angle, angle | energy, energy | time, time
  | dimensionless, dimensionless => true
  | _, _ => false
  end.

Definition eqb (x y : unit) : bool :=
  match x, y with
  | hourangle, hourangle | deg, deg | rad, rad | arcmin, arcmin
  | GeV, GeV | TeV, TeV | d, d | h, h | min, min | s, s | one, one => true
  | _, _ => false
  end.

(** The unit's size in radians, electronvolts or seconds. *)
Definition scale (x : unit) : float :=
  match x with
  | hourangle => 0.2617993877991494%float
  | deg => 0.017453292519943295%float
  | rad => 1%float
  | arcmin => 0.0002908882086657216%float
  | GeV => 1e9%float
  | TeV => 1e12%float
  | d => 86400%float
  | h => 3600%float
  | min => 60%float
  | s => 1%float
  | one => 1%float
  end.

(** The conversion from unit [from] to unit [to]: the identity between equal
    units, a scaling between units of one physical type, and a
    [UnitConversionError] otherwise. *)
Definition converter (from to : unit) : result (float -> float) :=
  if eqb from to then Ok (fun x => x)
  else if physical_eqb (physical from) (physical to)
       then Ok (fun x => (x * (scale from / scale to))%float)
       else Raise UnitConversionError.

Definition convert (from to : unit) (x : float) : result float :=
  f <- converter from to ;; Ok (f x).

End u.

(** ** astropy Quantity: an array, or a scalar, with its unit *)

Record Quantity : Type := mkQuantity { value : numpy.ndarray; unit : u.unit }.

Record Scalar : Type := mkScalar { sval : float; sunit : u.unit }.

Module quantity.

(** [a * unit] *)
Definition times (a : numpy.ndarray) (x : u.unit) : Quantity :=
  {| value := a; unit := x |}.

(** [q.to(unit).value] *)
Definition to_value (q : Quantity) (x : u.unit) : result numpy.ndarray :=
  f <- u.converter (unit q) x ;; Ok (map f (value q)).

(** [q.to(unit)] *)
Definition to (q : Quantity) (x : u.unit) : result Quantity :=
  v <- to_value q x ;; Ok {| value := v; unit := x |}.

Definition scalar_to (a : Scalar) (x : u.unit) : result Scalar :=
  v <- u.convert (sunit a) x (sval a) ;; Ok {| sval := v; sunit := x |}.

(** [q > a], element by element, [a] taken in the unit of [q]. *)
Definition gt (q : Quantity) (a : Scalar) : result (list bool) :=
  a' <- u.convert (sunit a) (unit q) (sval a) ;;
  Ok (map (fun x => PrimFloat.ltb a' x) (value q)).

(** [a < b] for two scalars, [b] taken in the unit of [a]. *)
Definition lt (a b : Scalar) : result bool :=
  b' <- u.convert (sunit b) (sunit a) (sval b) ;;
  Ok (PrimFloat.ltb (sval a) b').

(** [a - q] for a scalar [a]: [q] is taken in the unit of [a], which is the
    unit of the difference. *)
Definition rsub (a : Scalar) (q : Quantity) : result Quantity :=
  v <- to_value q (sunit a) ;;
  Ok {| value := map (fun x => (sval a - x)%float) v; unit := sunit a |}.

(** [q[i]] *)
Definition item (q : Quantity) (i : nat) : result Scalar :=
  x <- numpy.item (value q) i ;; Ok {| sval := x; sunit := unit q |}.

(** [q[indices]] for a list of indices *)
Definition take (q : Quantity) (indices : list nat) : result Quantity :=
  v <- numpy.take (value q) indices ;;
  Ok {| value := v; unit := unit q |}.

(** [q[mask]] *)
Definition getitem_mask (q : Quantity) (mask : list bool) : result Quantity :=
  v <- numpy.getitem_mask (value q) mask ;;
  Ok {| value := v; unit := unit q |}.

(** [q.min()], [q.max()] *)
Definition min (q : Quantity) : result Scalar :=
  x <- numpy.amin (value q) ;; Ok {| sval := x; sunit := unit q |}.

Definition max (q : Quantity) : result Scalar :=
  x <- numpy.amax (value q) ;; Ok {| sval := x; sunit := unit q |}.

End quantity.

(** ** EventSample *)

Module EventSample.

(** The attributes of an [EventSample]; [None] is Python's [None]. There is
    no attribute for the altitude. *)
Record t : Type := mk {
  event_ra : option Quantity;
  event_dec : option Quantity;
  event_energy : option Quantity;
  pointing_ra : option Quantity;
  pointing_dec : option Quantity;
  pointing_az : option Quantity;
  pointing_zd : option Quantity;
  mjd : option Quantity;
  delta_t : option Quantity;
  eff_obs_time : option Scalar
}.

(** The property [pointing_alt]: [90 * u.deg - self.pointing_zd]. *)
Definition pointing_alt (self : t) : result Quantity :=
  match pointing_zd self with
  | None => Raise TypeError
  | Some zd => quantity.rsub {| sval := 90%float; sunit := u.deg |} zd
  end.

(** [time_diff[time_diff < time_diff_max]] *)
Definition below (bound : float) (a : numpy.ndarray) : numpy.ndarray :=
  numpy.select a (map (fun x => PrimFloat.ltb x bound) a).

(** [calc_eff_obs_time]. [t_elapsed] is [None] when there is no time
    difference; dividing [None] is a [TypeError]. The result carries the unit
    of [mjd]: [rate * dead_time] has no dimension. *)
Definition calc_eff_obs_time (self : t) : result (option Scalar) :=
  mjd_q <- match mjd self with
           | Some q => Ok q
           | None => Raise ValueError
           end ;;
  let mjd_sorted := numpy.sort (value mjd_q) in
  let time_diff := numpy.diff mjd_sorted in
  let t_elapsed :=
    if Nat.ltb 0 (length time_diff) then
      let time_diff_max := numpy.percentile time_diff 99.99%float in
      let time_diff := below time_diff_max time_diff in
      Some (numpy.sum (below time_diff_max time_diff))
    else None in
  dt <- match delta_t self with
        | Some q => Ok q
        | None => Raise TypeError
        end ;;
  positive <- quantity.gt dt {| sval := 0%float; sunit := u.s |} ;;
  let delta_t := numpy.select (value dt) positive in
  if Nat.ltb 0 (length delta_t) then
    dead_time <- numpy.amin delta_t ;;
    let rate := (1 / (numpy.mean delta_t - dead_time))%float in
    match t_elapsed with
    | Some te =>
        Ok (Some {| sval := (te / (1 + rate * dead_time))%float;
                    sunit := unit mjd_q |})
    | None => Raise TypeError
    end
  else Ok None.

(** [EventSample(...)]: the tenth argument is the effective observation
    time, computed from the sample when it is [None]. *)
Definition init
  (event_ra event_dec event_energy
   pointing_ra pointing_dec pointing_az pointing_zd
   mjd delta_t : option Quantity) (eff_obs_time : option Scalar) : result t :=
  let self := mk event_ra event_dec event_energy
                 pointing_ra pointing_dec pointing_az pointing_zd
                 mjd delta_t None in
  match eff_obs_time with
  | None =>
      t_eff <- calc_eff_obs_time self ;;
      Ok (mk event_ra event_dec event_energy
             pointing_ra pointing_dec pointing_az pointing_zd
             mjd delta_t t_eff)
  | Some _ =>
      Ok (mk event_ra event_dec event_energy
             pointing_ra pointing_dec pointing_az pointing_zd
             mjd delta_t eff_obs_time)
  end.

End EventSample.

(** ** Strings, paths and regular expressions *)

Definition chars (x : string) : list ascii := list_ascii_of_string x.

Definition str (l : list ascii) : string := string_of_list_ascii l.

Definition code (c : ascii) : nat := nat_of_ascii c.

Definition is_digit (c : ascii) : bool :=
  (Nat.leb 48 (code c) && Nat.leb (code c) 57)%bool.

Definition is_upper (c : ascii) : bool :=
  (Nat.leb 65 (code c) && Nat.leb (code c) 90)%bool.

Definition is_lower (c : ascii) : bool :=
  (Nat.leb 97 (code c) && Nat.leb (code c) 122)%bool.

Definition lower_char (c : ascii) : ascii :=
  if is_upper c then ascii_of_nat (code c + 32) else c.

(** [x.lower()] *)
Definition lower (l : list ascii) : list ascii := map lower_char l.

(** [int(x)] for a string of decimal digits; anything else is taken as an
    invalid literal ([ValueError]). (The interpreter's bound on the number of
    digits of a literal, some thousands, is left out.) *)
Fixpoint int_digits (acc : Z) (l : list ascii) : result Z :=
  match l with
  | [] => Ok acc
  | c :: l' =>
      if is_digit c then int_digits (10 * acc + Z.of_nat (code c - 48))%Z l'
      else Raise ValueError
  end.

Definition int (l : list ascii) : result Z :=
  match l with
  | [] => Raise ValueError
  | _ => int_digits 0%Z l
  end.

(** [x.split(sep)] *)
Fixpoint split (sep : ascii) (l : list ascii) : list (list ascii) :=
  match l with
  | [] => [[]]
  | c :: l' =>
      if Ascii.eqb c sep then [] :: split sep l'
      else match split sep l' with
           | w :: ws => (c :: w) :: ws
           | [] => [[c]]
           end
  end.

Fixpoint lstrip (c : ascii) (l : list ascii) : list ascii :=
  match l with
  | x :: l' => if Ascii.eqb x c then lstrip c l' else l
  | [] => []
  end.

Module os_path.

(** The part of [p] after its last ["/"] ([p] itself when it has none). *)
Fixpoint after_last_sep (p : list ascii) : list ascii :=
  match p with
  | [] => []
  | c :: p' =>
      if existsb (Ascii.eqb "/") p' then after_last_sep p'
      else if Ascii.eqb c "/" then p' else p
  end.

(** [name] cut at its last ["."]: what stands before it, and the rest from
    the dot on. *)
Fixpoint cut_last_dot (name : list ascii)
  : option (list ascii * list ascii) :=
  match name with
  | [] => None
  | c :: name' =>
      match cut_last_dot name' with
      | Some (stem, ext) => Some (c :: stem, ext)
      | None => if Ascii.eqb c "." then Some ([], name) else None
      end
  end.

(** The extension that [os.path.splitext] returns (POSIX): from the last dot
    of the last path component on, unless only dots stand before it. *)
Definition splitext_ext (p : list ascii) : list ascii :=
  match cut_last_dot (after_last_sep p) with
  | Some (stem, ext) =>
      if existsb (fun c => negb (Ascii.eqb c ".")) stem then ext else []
  | None => []
  end.

End os_path.

Module pathlib.

(** [Path(p).name]: the last component of [p] that is neither empty nor
    ["."]. *)
Definition name (p : list ascii) : list ascii :=
  last (filter (fun c => negb (match c with
                               | [] => true
                               | [x] => Ascii.eqb x "."
                               | _ => false
                               end))
               (split "/" p)) [].

(** [Path(p).suffixes] *)
Definition suffixes (p : list ascii) : list (list ascii) :=
  let n := name p in
  if Ascii.eqb (last n "a"%char) "." then []
  else map (fun x => "."%char :: x) (tl (split "." (lstrip "." n))).

End pathlib.

Module re.

Inductive quantifier : Type := One | Star | Plus.

(** One element of a pattern: a character class, how often it repeats, and
    whether it is the pattern's group. The patterns of this program are
    sequences of such elements, with one group each. *)
Record atom : Type := mkAtom {
  accepts : ascii -> bool;
  quant : quantifier;
  group : bool
}.

Definition pattern : Type := list atom.

(** [.] (no newline), [\d], [\w] on ASCII text. *)
Definition dot (c : ascii) : bool := negb (Ascii.eqb c "010").

Definition digit : ascii -> bool := is_digit.

Definition word (c : ascii) : bool :=
  (is_digit c || is_upper c || is_lower c || Ascii.eqb c "_")%bool.

Definition lit (c : ascii) : atom := mkAtom (Ascii.eqb c) One false.

Definition lits (x : string) : pattern := map lit (chars x).

(** A greedy repetition: as many characters of the class as possible first,
    then one fewer, and so on, until the rest of the pattern (the
    continuation [k]) matches. *)
Fixpoint greedy {R : Type} (cls : ascii -> bool)
  (k : list ascii -> list ascii -> option R)
  (taken rest : list ascii) : option R :=
  match rest with
  | c :: rest' =>
      if cls c then
        match greedy cls k (taken ++ [c]) rest' with
        | Some r => Some r
        | None => k taken rest
        end
      else k taken rest
  | [] => k taken rest
  end.

(** The pattern matched at the start of the text: the group's text and what
    is left of the text after the match. *)
Fixpoint match_here (p : pattern) (g : list ascii) (text : list ascii)
  : option (list ascii * list ascii) :=
  match p with
  | [] => Some (g, text)
  | a :: p' =>
      let k := fun taken rest =>
                 match_here p' (if group a then taken else g) rest in
      match quant a with
      | One =>
          match text with
          | c :: rest => if accepts a c then k [c] rest else None
          | [] => None
          end
      | Star => greedy (accepts a) k [] text
      | Plus =>
          match text with
          | c :: rest => if accepts a c then greedy (accepts a) k [c] rest
                         else None
          | [] => None
          end
      end
  end.

(** The leftmost match, as [re.search] finds it. *)
Fixpoint search (p : pattern) (text : list ascii)
  : option (list ascii * list ascii) :=
  match match_here p [] text with
  | Some r => Some r
  | None =>
      match text with
      | [] => None
      | _ :: text' => search p text'
      end
  end.

(** [re.findall]: the group of each match, from left to right, the search
    resuming where the last match ended. (The patterns here consume at least
    one character; after an empty match the search moves on by one.) *)
Fixpoint findall_from (fuel : nat) (p : pattern) (text : list ascii)
  : list (list ascii) :=
  match fuel with
  | O => []
  | S fuel' =>
      match search p text with
      | None => []
      | Some (g, rest) =>
          g :: (if Nat.ltb (length rest) (length text)
                then findall_from fuel' p rest
                else findall_from fuel' p (tl text))
      end
  end.

Definition findall (p : pattern) (text : string) : list (list ascii) :=
  findall_from (S (length (chars text))) p (chars text).

End re.

(** ** Third-party code: astropy's times and sky coordinates, and the readers

    Angles handed to and returned by the coordinate functions are in degrees,
    astropy's unit for the components of its sky frames; the observatory is
    the fixed [EarthLocation] that every caller passes. [Longitude], which
    [SkyCoord] applies to an azimuth, works on a whole array in the unit of
    the array. *)

Class Astropy : Type := {
  (** [astropy.time.Time] *)
  Time : Type;
  (** [Time(x, format='unix')], [Time(x, format='mjd')], [t.unix], [t.mjd] *)
  Time_unix : float -> Time;
  Time_mjd : float -> Time;
  time_unix : Time -> float;
  time_mjd : Time -> float;
  (** [Time('2018-10-01T00:00:00', scale='utc')] *)
  LST_EPOCH : Time;
  (** [SkyCoord(az, alt, frame=AltAz(obstime, location)).icrs]: from
      (az, alt) at a time to (ra, dec). *)
  altaz_to_icrs : float -> float -> Time -> float * float;
  (** [SkyCoord(ra, dec, frame='icrs').transform_to(AltAz(obstime,
      location))]: from (ra, dec) at a time to (az, alt). *)
  icrs_to_altaz : float -> float -> Time -> float * float;
  (** [a.separation(b)] for two ICRS positions (ra, dec). *)
  separation : float * float -> float * float -> float;
  (** [Longitude(a * unit)]: the angles of [a], each wrapped into
      [0, 360 deg), in [unit]. *)
  Longitude : numpy.ndarray -> u.unit -> numpy.ndarray;
  Longitude_length :
    forall a unit, length (Longitude a unit) = length a
}.

(** A table: its columns by name (a pandas [DataFrame], the branches of a
    ROOT tree, the data of a FITS table). *)
Definition DataFrame : Type := dict numpy.ndarray.

Record HDU : Type := mkHDU { header : dict float; data : DataFrame }.

Class FileSystem : Type := {
  (** [uproot.open(file_name)]: the trees of the file by key. *)
  uproot_open : string -> result (dict DataFrame);
  (** The rows of a tree that pass a cut expression. *)
  uproot_cut : DataFrame -> string -> result DataFrame;
  (** [pandas.read_hdf(file_name, key=key)]; a [KeyError] when the file has
      no object under [key]. *)
  read_hdf : string -> string -> result DataFrame;
  (** [data.query(cuts)] *)
  query : DataFrame -> string -> result DataFrame;
  (** [fits.open(file_name)]: the HDUs of the file by name. *)
  fits_open : string -> result (dict HDU)
}.

(** ** Values held by a loader's [event_data] dictionary *)

Inductive pyvalue : Type :=
| PyNone
| Array (a : numpy.ndarray)
| Quant (q : Quantity).

Definition is_None (v : pyvalue) : bool :=
  match v with PyNone => true | _ => false end.

Definition as_array (v : pyvalue) : result numpy.ndarray :=
  match v with
  | Array a => Ok a
  | _ => Raise TypeError
  end.

(** An argument of [EventSample(...)]. In every loader each such column has
    a unit in [data_units], so it is a [Quantity] or [None]. *)
Definition as_attribute (v : pyvalue) : result (option Quantity) :=
  match v with
  | PyNone => Ok None
  | Quant q => Ok (Some q)
  | Array _ => Raise TypeError
  end.

Definition attribute (event_data : dict pyvalue) (name : string)
  : result (option Quantity) :=
  v <- getitem event_data name ;; as_attribute v.

(** [for key in mapping: event_data[mapping[key]] = data[key]] *)
Fixpoint rename_columns (mapping : dict string) (data : dict numpy.ndarray)
  (event_data : dict pyvalue) : result (dict pyvalue) :=
  match mapping with
  | [] => Ok event_data
  | (key, name) :: mapping' =>
      a <- getitem data key ;;
      rename_columns mapping' data (dict_set event_data name (Array a))
  end.

(** [for key in mapping: if key in data: event_data[mapping[key]] = data[key]] *)
Fixpoint rename_present (mapping : dict string) (data : dict numpy.ndarray)
  (event_data : dict pyvalue) : dict pyvalue :=
  match mapping with
  | [] => event_data
  | (key, name) :: mapping' =>
      rename_present mapping' data
        (match dict_get data key with
         | Some a => dict_set event_data name (Array a)
         | None => event_data
         end)
  end.

(** [for key in mapping: event_data[mapping[key]] = numpy.zeros(0)] *)
Fixpoint empty_columns (mapping : dict string) (event_data : dict pyvalue)
  : dict pyvalue :=
  match mapping with
  | [] => event_data
  | (_, name) :: mapping' =>
      empty_columns mapping' (dict_set event_data name (Array (numpy.zeros 0)))
  end.

(** [[numpy.isfinite(event_data[key]) for key in event_data
      if event_data[key] is not None]] *)
Fixpoint finite_rows (event_data : dict pyvalue) : result (list (list bool)) :=
  match event_data with
  | [] => Ok []
  | (_, PyNone) :: rest => finite_rows rest
  | (_, v) :: rest =>
      a <- as_array v ;;
      rows <- finite_rows rest ;;
      Ok (map numpy.isfinite a :: rows)
  end.

(** Element-wise arithmetic on two columns. The columns read from one table
    have one length; operands of different lengths are taken not to
    broadcast ([ValueError]). *)
Fixpoint zip_with {A B C : Type} (f : A -> B -> C) (a : list A) (b : list B)
  : result (list C) :=
  match a, b with
  | [], [] => Ok []
  | x :: a', y :: b' => r <- zip_with f a' b' ;; Ok (f x y :: r)
  | _, _ => Raise ValueError
  end.

(** ** EventFile: what the three loader classes share *)

Module EventFile.

Record t : Type := mk {
  file_name : string;
  obs_id : Z;
  events : EventSample.t
}.

(** The properties [mjd], [pointing_az] and [pointing_alt]; an attribute of
    [None] has no method [to]. *)
Definition mjd (self : t) : option Quantity := EventSample.mjd (events self).

Definition pointing_az (self : t) : result Quantity :=
  match EventSample.pointing_az (events self) with
  | Some q => quantity.to q u.deg
  | None => Raise AttributeError
  end.

Definition pointing_alt (self : t) : result Quantity :=
  EventSample.pointing_alt (events self).

End EventFile.

Definition missing_obs_id (file_name : string) : exn :=
  RuntimeError ("Can not find observations ID in " ++ file_name)%string.

(** ** MagicRootEventFile: the legacy ROOT loader *)

Module MagicRootEventFile.

Definition is_compatible (file_name : string) : bool :=
  String.eqb (str (lower (os_path.splitext_ext (chars file_name)))) ".root".

(** ['.*\d+_(\d+)_\w_[0-9\w]+\-W[\d\.\+]+\.root'] *)
Definition obs_id_pattern : re.pattern :=
  [ re.mkAtom re.dot re.Star false;
    re.mkAtom re.digit re.Plus false;
    re.lit "_";
    re.mkAtom re.digit re.Plus true;
    re.lit "_";
    re.mkAtom re.word re.One false;
    re.lit "_";
    re.mkAtom (fun c => (is_digit c || re.word c)%bool) re.Plus false;
    re.lit "-";
    re.lit "W";
    re.mkAtom (fun c => (re.digit c || Ascii.eqb c "." || Ascii.eqb c "+")%bool)
              re.Plus false ]
  ++ re.lits ".root".

Definition get_obs_id (file_name : string) : result Z :=
  match re.findall obs_id_pattern file_name with
  | parsed0 :: _ => int parsed0
  | [] => Raise (missing_obs_id file_name)
  end.

Definition array_list : list string :=
  [ "MRawEvtHeader_1.fDAQEvtNumber";
    "MRawEvtHeader_1.fTimeDiff";
    "MStereoParDisp.fDirectionRA";
    "MStereoParDisp.fDirectionDec";
    "MEnergyEst.fEnergy";
    "MPointingPos_1.fZd";
    "MPointingPos_1.fAz";
    "MPointingPos_1.fRa";
    "MPointingPos_1.fDec";
    "MHadronness.fHadronness" ].

Definition data_units : dict u.unit :=
  [ ("event_ra", u.hourangle);
    ("event_dec", u.deg);
    ("event_energy", u.GeV);
    ("pointing_ra", u.hourangle);
    ("pointing_dec", u.deg);
    ("pointing_az", u.deg);
    ("pointing_zd", u.deg);
    ("mjd", u.d);
    ("delta_t", u.s);
    ("gammaness", u.one) ].

Definition time_array_list : list string :=
  [ "MTime_1.fMjd"; "MTime_1.fTime.fMilliSec"; "MTime_1.fNanoSec" ].

Definition mc_array_list : list string :=
  [ "MMcEvt_1.fEnergy"; "MMcEvt_1.fTheta"; "MMcEvt_1.fPhi" ].

Definition data_names_mapping : dict string :=
  [ ("MRawEvtHeader_1.fDAQEvtNumber", "daq_event_number");
    ("MRawEvtHeader_1.fTimeDiff", "delta_t");
    ("MStereoParDisp.fDirectionRA", "event_ra");
    ("MStereoParDisp.fDirectionDec", "event_dec");
    ("MEnergyEst.fEnergy", "event_energy");
    ("MPointingPos_1.fZd", "pointing_zd");
    ("MPointingPos_1.fAz", "pointing_az");
    ("MPointingPos_1.fRa", "pointing_ra");
    ("MPointingPos_1.fDec", "pointing_dec") ].

Definition mc_names_mapping : dict string :=
  [ ("MMcEvt_1.fEnergy", "true_energy");
    ("MMcEvt_1.fTheta", "true_zd");
    ("MMcEvt_1.fPhi", "true_az") ].

(** [for key in data: event_data[mc_names_mapping[key]] = data[key]] *)
Fixpoint rename_mc (data : dict numpy.ndarray) (event_data : dict pyvalue)
  : result (dict pyvalue) :=
  match data with
  | [] => Ok event_data
  | (key, a) :: data' =>
      name <- getitem mc_names_mapping key ;;
      rename_mc data' (dict_set event_data name (Array a))
  end.

(** [[numpy.isfinite(event_data[key]) for key in event_data]] *)
Fixpoint finite_rows_all (event_data : dict pyvalue)
  : result (list (list bool)) :=
  match event_data with
  | [] => Ok []
  | (_, v) :: rest =>
      a <- as_array v ;;
      rows <- finite_rows_all rest ;;
      Ok (map numpy.isfinite a :: rows)
  end.

(** The closing loop: every column is cut down to the rows of [all_finite],
    and the cut column gets its unit when it has one. (A dictionary has each
    key once, so assigning to every key in turn rewrites every entry.) *)
Fixpoint apply_mask (all_finite : list bool) (event_data : dict pyvalue)
  : result (dict pyvalue) :=
  match event_data with
  | [] => Ok []
  | (key, v) :: rest =>
      a <- as_array v ;;
      masked <- numpy.getitem_mask a all_finite ;;
      rest' <- apply_mask all_finite rest ;;
      Ok ((key, match dict_get data_units key with
                | Some x => Quant (quantity.times masked x)
                | None => Array masked
                end) :: rest')
  end.

Section Loader.

Context {FS : FileSystem}.

(** [tree.arrays(names, cut=cuts, library='np')] *)
Fixpoint columns (rows : DataFrame) (names : list string)
  : result (dict numpy.ndarray) :=
  match names with
  | [] => Ok []
  | n :: names' =>
      a <- getitem rows n ;;
      rest <- columns rows names' ;;
      Ok ((n, a) :: rest)
  end.

Definition arrays (tree : DataFrame) (names : list string)
  (cuts : option string) : result (dict numpy.ndarray) :=
  rows <- match cuts with
          | Some c => uproot_cut tree c
          | None => Ok tree
          end ;;
  columns rows names.

(** The branch taken when the file has an [Events] tree. *)
Definition read_tree (tree : DataFrame) (cuts : option string)
  : result (dict pyvalue) :=
  data <- arrays tree array_list cuts ;;
  event_data <- rename_columns data_names_mapping data [] ;;
  hadronness <- getitem data "MHadronness.fHadronness" ;;
  let event_data :=
    dict_set event_data "gammaness"
             (Array (map (fun x => (1 - x)%float) hadronness)) in
  let is_mc := dict_mem tree "MMcEvt_1." in
  if is_mc then
    data <- arrays tree mc_array_list cuts ;;
    event_data <- rename_mc data event_data ;;
    true_zd <- bind (getitem event_data "true_zd") as_array ;;
    let event_data :=
      dict_set event_data "true_zd" (Array (numpy.degrees true_zd)) in
    true_az <- bind (getitem event_data "true_az") as_array ;;
    let event_data :=
      dict_set event_data "true_az" (Array (numpy.degrees true_az)) in
    true_az <- bind (getitem event_data "true_az") as_array ;;
    let event_data :=
      dict_set event_data "true_az"
               (Array (map (fun x => (-1 * (x - 180 + 7))%float) true_az)) in
    Ok (dict_set event_data "mjd" (Array (numpy.zeros 0)))
  else
    data <- arrays tree time_array_list cuts ;;
    mjd <- getitem data "MTime_1.fMjd" ;;
    millisec <- getitem data "MTime_1.fTime.fMilliSec" ;;
    nanosec <- getitem data "MTime_1.fNanoSec" ;;
    fraction <- zip_with (fun ms ns => ((ms / 1e3 + ns / 1e9) / 86400.0)%float)
                         millisec nanosec ;;
    mjd <- zip_with PrimFloat.add mjd fraction ;;
    Ok (dict_set event_data "mjd" (Array mjd)).

Definition load_events (file_name : string) (cuts : option string)
  : io EventSample.t :=
  input_file <~ lift (uproot_open file_name) ;;
  event_data <~
    match dict_get input_file "Events" with
    | Some tree => lift (read_tree tree cuts)
    | None =>
        _ <~ print ("File " ++ file_name ++
                    " corrupted or missing the event tree. Empty arrays will be returned.")%string ;;
        io_ret (dict_set (empty_columns data_names_mapping [])
                         "mjd" (Array (numpy.zeros 0)))
    end ;;
  lift (finite <- finite_rows_all event_data ;;
        all_finite <- numpy.prod_axis0 finite ;;
        event_data <- apply_mask all_finite event_data ;;
        event_ra <- attribute event_data "event_ra" ;;
        event_dec <- attribute event_data "event_dec" ;;
        event_energy <- attribute event_data "event_energy" ;;
        pointing_ra <- attribute event_data "pointing_ra" ;;
        pointing_dec <- attribute event_data "pointing_dec" ;;
        pointing_az <- attribute event_data "pointing_az" ;;
        pointing_zd <- attribute event_data "pointing_zd" ;;
        mjd <- attribute event_data "mjd" ;;
        delta_t <- attribute event_data "delta_t" ;;
        EventSample.init event_ra event_dec event_energy
                         pointing_ra pointing_dec pointing_az pointing_zd
                         mjd delta_t None).

(** [MagicRootEventFile(file_name, cuts)] *)
Definition init (file_name : string) (cuts : option string)
  : io EventFile.t :=
  obs_id <~ lift (get_obs_id file_name) ;;
  events <~ load_events file_name cuts ;;
  io_ret (EventFile.mk file_name obs_id events).

End Loader.

End MagicRootEventFile.

(** ** LstDl2EventFile: the HDF5 loader *)

Module LstDl2EventFile.

Definition is_compatible (file_name : string) : bool :=
  String.eqb (str (lower (os_path.splitext_ext (chars file_name)))) ".h5".

(** ['.*dl2_LST-1.Run(\d+).h5'] *)
Definition obs_id_pattern : re.pattern :=
  [ re.mkAtom re.dot re.Star false ]
  ++ re.lits "dl2_LST-1"
  ++ [ re.mkAtom re.dot re.One false ]
  ++ re.lits "Run"
  ++ [ re.mkAtom re.digit re.Plus true;
       re.mkAtom re.dot re.One false ]
  ++ re.lits "h5".

Definition get_obs_id (file_name : string) : result Z :=
  match re.findall obs_id_pattern file_name with
  | parsed0 :: _ => int parsed0
  | [] => Raise (missing_obs_id file_name)
  end.

Definition data_units : dict u.unit :=
  [ ("delta_t", u.s);
    ("event_ra", u.rad);
    ("event_dec", u.rad);
    ("event_energy", u.TeV);
    ("gammaness", u.one);
    ("mjd", u.d);
    ("pointing_ra", u.rad);
    ("pointing_dec", u.rad);
    ("pointing_az", u.rad);
    ("pointing_zd", u.rad) ].

Definition data_names_mapping : dict string :=
  [ ("trigger_type", "trigger_pattern");
    ("event_id", "daq_event_number");
    ("reco_ra", "event_ra");
    ("reco_dec", "event_dec");
    ("gammaness", "gammaness");
    ("reco_energy", "event_energy");
    ("mjd", "mjd");
    ("delta_t", "delta_t");
    ("az_tel", "pointing_az");
    ("zd_tel", "pointing_zd");
    ("ra_tel", "pointing_ra");
    ("dec_tel", "pointing_dec");
    ("mc_energy", "true_energy");
    ("mc_alt", "true_zd");
    ("mc_az", "true_az") ].

Definition table_key : string := "dl2/event/telescope/parameters/LST_LSTCam".

(** [{data_names_mapping[key]: None for key in data_names_mapping}] *)
Definition no_columns : dict pyvalue :=
  fold_left (fun event_data entry => dict_set event_data (snd entry) PyNone)
            data_names_mapping [].

(** [data.drop(columns=[name], errors='ignore')] *)
Fixpoint drop (data : DataFrame) (name : string) : DataFrame :=
  match data with
  | [] => []
  | (k, a) :: data' =>
      if String.eqb k name then drop data' name else (k, a) :: drop data' name
  end.

(** The closing loop: a column that is not [None] is cut down to the rows of
    [all_finite], and the cut column gets its unit when it has one. *)
Fixpoint apply_mask (all_finite : list bool) (event_data : dict pyvalue)
  : result (dict pyvalue) :=
  match event_data with
  | [] => Ok []
  | (key, PyNone) :: rest =>
      rest' <- apply_mask all_finite rest ;;
      Ok ((key, PyNone) :: rest')
  | (key, v) :: rest =>
      a <- as_array v ;;
      masked <- numpy.getitem_mask a all_finite ;;
      rest' <- apply_mask all_finite rest ;;
      Ok ((key, match dict_get data_units key with
                | Some x => Quant (quantity.times masked x)
                | None => Array masked
                end) :: rest')
  end.

Section Loader.

Context {AP : Astropy} {FS : FileSystem}.

(** [SkyCoord(alt=alt * u.rad, az=az * u.rad, frame=alt_az_frame).icrs],
    event by event, and then [ra.to(u.rad).value], [dec.to(u.rad).value]. *)
Definition to_icrs_rad (alt az : float) (obstime : Time) : result (float * float) :=
  alt_deg <- u.convert u.rad u.deg alt ;;
  az_deg <- u.convert u.rad u.deg az ;;
  let coords := altaz_to_icrs az_deg alt_deg obstime in
  ra <- u.convert u.deg u.rad (fst coords) ;;
  dec <- u.convert u.deg u.rad (snd coords) ;;
  Ok (ra, dec).

Fixpoint icrs_columns (alt az : numpy.ndarray) (lst_time : list Time)
  : result (numpy.ndarray * numpy.ndarray) :=
  match alt, az, lst_time with
  | [], [], [] => Ok ([], [])
  | x :: alt', y :: az', t :: lst_time' =>
      c <- to_icrs_rad x y t ;;
      rest <- icrs_columns alt' az' lst_time' ;;
      Ok (fst c :: fst rest, snd c :: snd rest)
  | _, _, _ => Raise ValueError
  end.

(** The body of the [try]. *)
Definition read_table (file_name : string) (cuts : option string)
  : result (dict pyvalue) :=
  let event_data := no_columns in
  data <- read_hdf file_name table_key ;;
  data <- match cuts with
          | Some c => query data c
          | None => Ok data
          end ;;
  let data := drop data "zd_tel" in
  alt_tel <- getitem data "alt_tel" ;;
  let data :=
    dict_set data "zd_tel"
             (map (fun x => (numpy.radians 90 - x)%float) alt_tel) in
  let event_data := rename_present data_names_mapping data event_data in
  let is_mc := dict_mem data "mc_energy" in
  let is_simulated := (is_mc && dict_mem data "trigger_time")%bool in
  if (negb is_mc || is_simulated)%bool then
    trigger_time <- getitem data "trigger_time" ;;
    let mjd := map (fun x => time_mjd (Time_unix x)) trigger_time in
    let event_data := dict_set event_data "mjd" (Array mjd) in
    let lst_time := map Time_mjd mjd in
    pointing_ra <- getitem event_data "pointing_ra" ;;
    event_data <-
      (if is_None pointing_ra then
         alt_tel <- getitem data "alt_tel" ;;
         az_tel <- getitem data "az_tel" ;;
         coords <- icrs_columns alt_tel az_tel lst_time ;;
         Ok (dict_set (dict_set event_data "pointing_ra" (Array (fst coords)))
                      "pointing_dec" (Array (snd coords)))
       else Ok event_data) ;;
    event_ra <- getitem event_data "event_ra" ;;
    if is_None event_ra then
      reco_alt <- getitem data "reco_alt" ;;
      reco_az <- getitem data "reco_az" ;;
      coords <- icrs_columns reco_alt reco_az lst_time ;;
      Ok (dict_set (dict_set event_data "event_ra" (Array (fst coords)))
                   "event_dec" (Array (snd coords)))
    else Ok event_data
  else Ok event_data.

Definition load_events (file_name : string) (cuts : option string)
  : io EventSample.t :=
  event_data <~
    match read_table file_name cuts with
    | Ok event_data => io_ret event_data
    | Raise (KeyError _) =>
        _ <~ print "The file is corrupted or is missing the event tree. Empty arrays will be returned." ;;
        io_ret (empty_columns data_names_mapping no_columns)
    | Raise e => io_raise e
    end ;;
  lift (finite <- finite_rows event_data ;;
        all_finite <- numpy.prod_axis0 finite ;;
        event_data <- apply_mask all_finite event_data ;;
        event_ra <- attribute event_data "event_ra" ;;
        event_dec <- attribute event_data "event_dec" ;;
        event_energy <- attribute event_data "event_energy" ;;
        pointing_ra <- attribute event_data "pointing_ra" ;;
        pointing_dec <- attribute event_data "pointing_dec" ;;
        pointing_az <- attribute event_data "pointing_az" ;;
        pointing_zd <- attribute event_data "pointing_zd" ;;
        mjd <- attribute event_data "mjd" ;;
        delta_t <- attribute event_data "delta_t" ;;
        EventSample.init event_ra event_dec event_energy
                         pointing_ra pointing_dec pointing_az pointing_zd
                         mjd delta_t None).

(** [LstDl2EventFile(file_name, cuts)] *)
Definition init (file_name : string) (cuts : option string)
  : io EventFile.t :=
  obs_id <~ lift (get_obs_id file_name) ;;
  events <~ load_events file_name cuts ;;
  io_ret (EventFile.mk file_name obs_id events).

End Loader.

End LstDl2EventFile.

(** ** LstDl3EventFile: the FITS DL3 loader *)

Module LstDl3EventFile.

Definition is_compatible (file_name : string) : bool :=
  existsb (fun x => String.eqb (str x) ".fits")
          (pathlib.suffixes (chars file_name)).

(** ['.*dl3_LST-1.Run(\d+).fits.gz'] *)
Definition obs_id_pattern : re.pattern :=
  [ re.mkAtom re.dot re.Star false ]
  ++ re.lits "dl3_LST-1"
  ++ [ re.mkAtom re.dot re.One false ]
  ++ re.lits "Run"
  ++ [ re.mkAtom re.digit re.Plus true;
       re.mkAtom re.dot re.One false ]
  ++ re.lits "fits"
  ++ [ re.mkAtom re.dot re.One false ]
  ++ re.lits "gz".

Definition get_obs_id (file_name : string) : result Z :=
  match re.findall obs_id_pattern file_name with
  | parsed0 :: _ => int parsed0
  | [] => Raise (missing_obs_id file_name)
  end.

Definition data_units : dict u.unit :=
  [ ("event_ra", u.deg);
    ("event_dec", u.deg);
    ("event_energy", u.TeV);
    ("pointing_ra", u.deg);
    ("pointing_dec", u.deg);
    ("pointing_az", u.deg);
    ("pointing_zd", u.deg);
    ("mjd", u.d);
    ("delta_t", u.s);
    ("gammaness", u.one) ].

Definition data_names_mapping : dict string :=
  [ ("EVENT_ID", "daq_event_number");
    ("RA", "event_ra");
    ("DEC", "event_dec");
    ("GAMMANESS", "gammaness");
    ("ENERGY", "event_energy");
    ("TIME", "mjd");
    ("AZ_PNT", "pointing_az");
    ("ZD_PNT", "pointing_zd");
    ("RA_PNT", "pointing_ra");
    ("DEC_PNT", "pointing_dec") ].

(** The local variables that the [try] assigns; [None] is a name that was
    never bound. *)
Record locals : Type := mkLocals {
  evt_head : option (dict float);
  event_data : option (dict pyvalue)
}.

(** The closing loop. [item] is the column as it was when the loop reached
    its key: the cut column is stored, and then, for a key with a unit,
    [item * data_units[key]] is stored in its place. *)
Fixpoint apply_mask (all_finite : list bool) (event_data : dict pyvalue)
  : result (dict pyvalue) :=
  match event_data with
  | [] => Ok []
  | (key, PyNone) :: rest =>
      rest' <- apply_mask all_finite rest ;;
      Ok ((key, PyNone) :: rest')
  | (key, item) :: rest =>
      a <- as_array item ;;
      masked <- numpy.getitem_mask a all_finite ;;
      rest' <- apply_mask all_finite rest ;;
      Ok ((key, match dict_get data_units key with
                | Some x => Quant (quantity.times a x)
                | None => Array masked
                end) :: rest')
  end.

Section Loader.

Context {AP : Astropy} {FS : FileSystem}.

(** The event time: [Time(x, format='unix')], then
    [Time(t.unix + LST_EPOCH.unix, scale='utc', format='unix').mjd]. *)
Definition event_mjd (x : float) : float :=
  time_mjd (Time_unix (time_unix (Time_unix x) + time_unix LST_EPOCH)%float).

(** The body of the [try]: the locals as the body left them, and how it
    ended. *)
Definition read_events (input_file : dict HDU)
  : locals * result Datatypes.unit :=
  match getitem input_file "EVENTS" with
  | Raise e => (mkLocals None None, Raise e)
  | Ok hdu =>
      let evt_head := header hdu in
      let evt_data := data hdu in
      let event_data := rename_present data_names_mapping evt_data [] in
      match bind (getitem event_data "mjd") as_array with
      | Raise e => (mkLocals (Some evt_head) (Some event_data), Raise e)
      | Ok time =>
          let mjd := map event_mjd time in
          let event_data := dict_set event_data "mjd" (Array mjd) in
          let lst_time := map Time_mjd mjd in
          match ra_pnt <- getitem evt_head "RA_PNT" ;;
                dec_pnt <- getitem evt_head "DEC_PNT" ;;
                Ok (ra_pnt, dec_pnt)
          with
          | Raise e => (mkLocals (Some evt_head) (Some event_data), Raise e)
          | Ok (ra_pnt, dec_pnt) =>
              let altaz_pointing :=
                map (icrs_to_altaz ra_pnt dec_pnt) lst_time in
              let pointing_zd :=
                map (fun c => (90 - snd c)%float) altaz_pointing in
              let event_data :=
                dict_set event_data "pointing_zd" (Array pointing_zd) in
              let event_data :=
                dict_set event_data "pointing_az"
                         (Array (map fst altaz_pointing)) in
              let event_data :=
                dict_set event_data "pointing_ra"
                         (Array (repeat ra_pnt (length pointing_zd))) in
              let event_data :=
                dict_set event_data "pointing_dec"
                         (Array (repeat dec_pnt (length pointing_zd))) in
              (mkLocals (Some evt_head) (Some event_data), Ok tt)
          end
      end
  end.

Definition unbound {A : Type} (name : string) (v : option A) : result A :=
  match v with
  | Some x => Ok x
  | None => Raise (UnboundLocalError name)
  end.

Definition load_events (file_name : string) (cuts : option string)
  : io EventSample.t :=
  input_file <~ lift (fits_open file_name) ;;
  _ <~ print ("Reading file " ++ file_name)%string ;;
  vars <~
    match read_events input_file with
    | (vars, Ok _) => io_ret vars
    | (vars, Raise (KeyError _)) =>
        _ <~ print ("File " ++ file_name ++
                    " corrupted or missing the Events hdu." ++
                    "Empty arrays will be returned.")%string ;;
        io_ret vars
    | (_, Raise e) => io_raise e
    end ;;
  lift (event_data <- unbound "event_data" (event_data vars) ;;
        finite <- finite_rows event_data ;;
        all_finite <- numpy.prod_axis0 finite ;;
        event_data <- apply_mask all_finite event_data ;;
        event_ra <- attribute event_data "event_ra" ;;
        event_dec <- attribute event_data "event_dec" ;;
        event_energy <- attribute event_data "event_energy" ;;
        pointing_ra <- attribute event_data "pointing_ra" ;;
        pointing_dec <- attribute event_data "pointing_dec" ;;
        pointing_az <- attribute event_data "pointing_az" ;;
        pointing_zd <- attribute event_data "pointing_zd" ;;
        mjd <- attribute event_data "mjd" ;;
        evt_head <- unbound "evt_head" (evt_head vars) ;;
        livetime <- getitem evt_head "LIVETIME" ;;
        EventSample.init event_ra event_dec event_energy
                         pointing_ra pointing_dec pointing_az pointing_zd
                         mjd None (Some (mkScalar livetime u.s))).

(** [LstDl3EventFile(file_name, cuts)] *)
Definition init (file_name : string) (cuts : option string)
  : io EventFile.t :=
  obs_id <~ lift (get_obs_id file_name) ;;
  events <~ load_events file_name cuts ;;
  io_ret (EventFile.mk file_name obs_id events).

End Loader.

End LstDl3EventFile.

(** ** Sky positions in the horizontal frame of the observatory *)

Module SkyCoord.

Section WithAstropy.

Context {AP : Astropy}.

(** A coordinate of the horizontal frame at one instant: azimuth and
    altitude in degrees, and the time of the frame. *)
Record t : Type := mk {
  az : float;
  alt : float;
  obstime : Time
}.

(** [Latitude(alt)] checks its angles against 90 degrees, taken in the unit
    of [alt]: one below [-90 deg] or above [90 deg] is a [ValueError]. A NaN
    is neither. *)
Definition outside (limit x : float) : bool :=
  (PrimFloat.ltb x (- limit) || PrimFloat.ltb limit x)%bool.

Fixpoint zip (az alt : numpy.ndarray) (time : list Time) : result (list t) :=
  match az, alt, time with
  | [], [], [] => Ok []
  | x :: az', y :: alt', z :: time' =>
      rest <- zip az' alt' time' ;; Ok (mk x y z :: rest)
  | _, _, _ => Raise ValueError
  end.

(** [SkyCoord(az, alt, frame=AltAz(obstime=time, location=lst_loc))], a
    coordinate for each instant of [time]: the azimuths become a
    [Longitude], the altitudes a [Latitude]; arrays of unequal lengths do
    not go together ([ValueError]). *)
Definition make (az alt : Quantity) (time : list Time) : result (list t) :=
  let lon := quantity.times (Longitude (value az) (unit az)) (unit az) in
  az_deg <- quantity.to_value lon u.deg ;;
  alt_deg <- quantity.to_value alt u.deg ;;
  limit <- u.convert u.deg (unit alt) 90%float ;;
  if existsb (outside limit) (value alt) then Raise ValueError
  else zip az_deg alt_deg time.

(** [c.icrs]: right ascension and declination, in degrees. *)
Definition icrs (c : t) : float * float :=
  altaz_to_icrs (az c) (alt c) (obstime c).

Definition ra (c : float * float) : Scalar := mkScalar (fst c) u.deg.

Definition dec (c : float * float) : Scalar := mkScalar (snd c) u.deg.

End WithAstropy.

End SkyCoord.

(** ** RunSummary *)

Module QTable.

(** The table built by [to_qtable]: one list per column. *)
Record t : Type := mk {
  obs_id : list (option Z);
  mjd_start : list float;
  mjd_stop : list float;
  duration : list Scalar;
  az_tel_start : list Scalar;
  az_tel_stop : list Scalar;
  alt_tel_start : list Scalar;
  alt_tel_stop : list Scalar;
  ra_tel : list Scalar;
  dec_tel : list Scalar;
  file_name : list (option string)
}.

End QTable.

Module RunSummary.

Section WithAstropy.

Context {AP : Astropy}.

(** The four attributes; each is [None] until [__init__] assigns it. *)
Record t : Type := mk {
  obs_id : option Z;
  file_name : option string;
  tel_pointing_start : option SkyCoord.t;
  tel_pointing_stop : option SkyCoord.t
}.

Definition unset : t := mk None None None None.

(** The part of [__init__] after the file is loaded. *)
Definition of_events (name : string) (events : EventFile.t) : result t :=
  mjd <- match EventFile.mjd events with
         | Some q => Ok q
         | None => Raise TypeError
         end ;;
  if negb (Nat.eqb (length (value mjd)) 0) then
    i_min <- numpy.argmin (value mjd) ;;
    i_max <- numpy.argmax (value mjd) ;;
    let evt_selection := [i_min; i_max] in
    days <- bind (quantity.take mjd evt_selection)
                 (fun q => quantity.to_value q u.d) ;;
    let time := map Time_mjd days in
    pointing_az <- EventFile.pointing_az events ;;
    az <- quantity.take pointing_az evt_selection ;;
    pointing_alt <- EventFile.pointing_alt events ;;
    alt <- quantity.take pointing_alt evt_selection ;;
    coords <- SkyCoord.make az alt time ;;
    match coords with
    | [pstart; pstop] =>
        Ok (mk (Some (EventFile.obs_id events)) (Some name)
               (Some pstart) (Some pstop))
    | _ => Raise ValueError
    end
  else Ok unset.

Definition unsupported (name : string) : exn :=
  RuntimeError ("Unsupported file format for '" ++ name ++ "'.")%string.

(** The first part of [__init__]: the loader class that accepts the file name
    builds the event file. *)
Definition open_events {FS : FileSystem} (name : string) : io EventFile.t :=
  if MagicRootEventFile.is_compatible name then
    MagicRootEventFile.init name None
  else if LstDl2EventFile.is_compatible name then
    LstDl2EventFile.init name None
  else if LstDl3EventFile.is_compatible name then
    LstDl3EventFile.init name None
  else io_raise (unsupported name).

(** [RunSummary(file_name)] *)
Definition init {FS : FileSystem} (name : string) : io t :=
  events <~ open_events name ;;
  lift (of_events name events).

Definition pointing (p : option SkyCoord.t) : result SkyCoord.t :=
  match p with
  | Some c => Ok c
  | None => Raise AttributeError
  end.

(** [self.tel_pointing_start.frame.obstime.mjd] *)
Definition mjd_start (self : t) : result float :=
  c <- pointing (tel_pointing_start self) ;;
  Ok (time_mjd (SkyCoord.obstime c)).

Definition mjd_stop (self : t) : result float :=
  c <- pointing (tel_pointing_stop self) ;;
  Ok (time_mjd (SkyCoord.obstime c)).

(** [((self.mjd_stop - self.mjd_start) * u.day).to('s')] *)
Definition obs_duration (self : t) : result Scalar :=
  stop <- mjd_stop self ;;
  start <- mjd_start self ;;
  quantity.scalar_to (mkScalar (stop - start)%float u.d) u.s.

Definition to_qtable (self : t) : result QTable.t :=
  start <- mjd_start self ;;
  stop <- mjd_stop self ;;
  duration <- obs_duration self ;;
  pstart <- pointing (tel_pointing_start self) ;;
  pstop <- pointing (tel_pointing_stop self) ;;
  Ok {| QTable.obs_id := [obs_id self];
        QTable.mjd_start := [start];
        QTable.mjd_stop := [stop];
        QTable.duration := [duration];
        QTable.az_tel_start := [mkScalar (SkyCoord.az pstart) u.deg];
        QTable.az_tel_stop := [mkScalar (SkyCoord.az pstop) u.deg];
        QTable.alt_tel_start := [mkScalar (SkyCoord.alt pstart) u.deg];
        QTable.alt_tel_stop := [mkScalar (SkyCoord.alt pstop) u.deg];
        QTable.ra_tel := [SkyCoord.ra (SkyCoord.icrs pstart)];
        QTable.dec_tel := [SkyCoord.ra (SkyCoord.icrs pstart)];
        QTable.file_name := [file_name self] |}.

End WithAstropy.

End RunSummary.

(** ** Lazy iteration: [filter] and [tuple]

    An iterator over a list yields, entry by entry, an element or the
    exception raised while producing it; [tuple] stops at the first
    exception. *)

Definition iterator (A : Type) : Type := list (result A).

Definition iter {A : Type} (l : list A) : iterator A := map Ok l.

Fixpoint pyfilter {A : Type} (p : A -> result bool) (it : iterator A)
  : iterator A :=
  match it with
  | [] => []
  | Ok x :: it' =>
      match p x with
      | Ok true => Ok x :: pyfilter p it'
      | Ok false => pyfilter p it'
      | Raise e => Raise e :: pyfilter p it'
      end
  | Raise e :: it' => Raise e :: pyfilter p it'
  end.

Fixpoint tuple {A : Type} (it : iterator A) : result (list A) :=
  match it with
  | [] => Ok []
  | Ok x :: it' => xs <- tuple it' ;; Ok (x :: xs)
  | Raise e :: _ => Raise e
  end.

(** ** find_run_neighbours *)

Section Neighbours.

Context {AP : Astropy}.

(** [abs(a - b) * u.d < time_delta] *)
Definition within (a b : float) (time_delta : Scalar) : result bool :=
  quantity.lt (mkScalar (PrimFloat.abs (a - b)) u.d) time_delta.

(** The first [lambda]: the [or] asks for its right side only when the left
    one is false. *)
Definition near_in_time (target_run : RunSummary.t) (time_delta : Scalar)
  (run_ : RunSummary.t) : result bool :=
  start <- RunSummary.mjd_start run_ ;;
  target_stop <- RunSummary.mjd_stop target_run ;;
  b <- within start target_stop time_delta ;;
  if b then Ok true
  else
    stop <- RunSummary.mjd_stop run_ ;;
    target_start <- RunSummary.mjd_start target_run ;;
    within stop target_start time_delta.

(** The second [lambda]. *)
Definition near_in_pointing (target_run : RunSummary.t)
  (pointing_delta : Scalar) (run_ : RunSummary.t) : result bool :=
  target_start <- RunSummary.pointing (RunSummary.tel_pointing_start target_run) ;;
  start <- RunSummary.pointing (RunSummary.tel_pointing_start run_) ;;
  quantity.lt
    (mkScalar (separation (SkyCoord.icrs target_start) (SkyCoord.icrs start))
              u.deg)
    pointing_delta.

Definition find_run_neighbours (target_run : RunSummary.t)
  (run_list : list RunSummary.t) (time_delta pointing_delta : Scalar)
  : result (list RunSummary.t) :=
  let neihbours := pyfilter (near_in_time target_run time_delta)
                            (iter run_list) in
  let neihbours := pyfilter (near_in_pointing target_run pointing_delta)
                            neihbours in
  tuple neihbours.

End Neighbours.

(** ** __repr__

    Python's string formatting and [object.__repr__] are third-party code:
    the message that [EventFile.__repr__] prints for a class name, a file
    name, an obs id, the ranges of altitude and azimuth and (when the sample
    has times) of MJD; the message that [RunSummary.__repr__] prints for its
    six values; and the default representation of an object. *)

Class Formatter : Type := {
  event_file_message :
    string -> string -> Z -> Scalar * Scalar -> Scalar * Scalar ->
    option (Scalar * Scalar) -> string;
  run_summary_message :
    option string -> option Z -> float -> float -> Scalar -> float * float ->
    string;
  object_repr : string
}.

Section Repr.

Context {AP : Astropy} {FM : Formatter}.

(** [EventFile.__repr__], for an instance of the class named [cls]: the
    values of the message are computed from left to right, the message is
    printed, and the default representation is returned. *)
Definition event_file_repr (cls : string) (self : EventFile.t) : io string :=
  alt_min <~ lift (alt <- EventFile.pointing_alt self ;;
                   x <- quantity.min alt ;; quantity.scalar_to x u.deg) ;;
  alt_max <~ lift (alt <- EventFile.pointing_alt self ;;
                   x <- quantity.max alt ;; quantity.scalar_to x u.deg) ;;
  az_min <~ lift (az <- EventFile.pointing_az self ;;
                  x <- quantity.min az ;; quantity.scalar_to x u.deg) ;;
  az_max <~ lift (az <- EventFile.pointing_az self ;;
                  x <- quantity.max az ;; quantity.scalar_to x u.deg) ;;
  mjd_range <~
    match EventFile.mjd self with
    | Some mjd =>
        lo <~ lift (quantity.min mjd) ;;
        hi <~ lift (quantity.max mjd) ;;
        io_ret (Some (lo, hi))
    | None => io_ret None
    end ;;
  _ <~ print (event_file_message cls (EventFile.file_name self)
                (EventFile.obs_id self) (alt_min, alt_max) (az_min, az_max)
                mjd_range) ;;
  io_ret object_repr.

(** [RunSummary.__repr__] *)
Definition run_summary_repr (self : RunSummary.t) : io string :=
  start <~ lift (RunSummary.mjd_start self) ;;
  stop <~ lift (RunSummary.mjd_stop self) ;;
  duration <~ lift (RunSummary.obs_duration self) ;;
  pstart <~ lift (RunSummary.pointing (RunSummary.tel_pointing_start self)) ;;
  _ <~ print (run_summary_message (RunSummary.file_name self)
                (RunSummary.obs_id self) start stop duration
                (SkyCoord.icrs pstart)) ;;
  io_ret object_repr.

End Repr.

(** ** The effective observation time in the words of the specification

    Sort the event times and take consecutive differences; the threshold is
    the 99.99th percentile of the differences; [t_elapsed] is the sum of the
    differences below the threshold; the dead time is the minimum of the
    positive [delta_t], the rate is [1 / (mean - dead_time)] over the positive
    [delta_t], and [t_eff = t_elapsed / (1 + rate * dead_time)]. *)

Module Spec.

(** *** The effective observation time

    The words of the formula, one by one. *)

Definition positive (delta_t : numpy.ndarray) : numpy.ndarray :=
  filter (fun x => PrimFloat.ltb 0 x) delta_t.







(** The position of the [q]-th percentile among [n] values in ascending
    order, counted from 0. *)
Definition position (n : nat) (q : float) : float :=
  (numpy.of_nat (n - 1) * (q / 100))%float.




(** A pattern read as a set of texts: [captures p g0 w g] when [w] splits
    into one piece per element of [p], each piece made of characters of the
    element's class and as long as its quantifier allows, [g] being the piece
    of the group ([g0] when [p] has no group). *)
Definition repeats (a : re.atom) (w : list ascii) : Prop :=
  forallb (re.accepts a) w = true /\
  match re.quant a with
  | re.One => length w = 1
  | re.Star => True
  | re.Plus => w <> []
  end.

Fixpoint captures (p : re.pattern) (g0 w g : list ascii) : Prop :=
  match p with
  | [] => w = [] /\ g = g0
  | a :: p' =>
      exists w1 w2, w = w1 ++ w2 /\ repeats a w1 /\
                    captures p' (if re.group a then w1 else g0) w2 g
  end.

(** The pattern matches somewhere in the text. *)
Definition occurs (p : re.pattern) (text : list ascii) : Prop :=
  exists pre w post g, text = pre ++ w ++ post /\ captures p [] w g.

(** The invariant of an event sample: the populated columns have one
    length, and hold finite values only. *)
Definition columns (es : EventSample.t) : list (option Quantity) :=
  [ EventSample.event_ra es; EventSample.event_dec es;
    EventSample.event_energy es;
    EventSample.pointing_ra es; EventSample.pointing_dec es;
    EventSample.pointing_az es; EventSample.pointing_zd es;
    EventSample.mjd es; EventSample.delta_t es ].

Definition clean_column (n : nat) (c : option Quantity) : Prop :=
  match c with
  | None => True
  | Some q => length (value q) = n /\
              forallb numpy.isfinite (value q) = true
  end.

Definition clean (es : EventSample.t) : Prop :=
  exists n, Forall (clean_column n) (columns es).

(** Row [i] is finite in every populated column of [event_data]. *)
Definition finite_row (event_data : dict pyvalue) (i : nat) : Prop :=
  forall key a, In (key, Array a) event_data ->
                exists x, nth_error a i = Some x /\ numpy.isfinite x = true.

(** [rows] are the finiteness rows of the arrays of [event_data]. *)
Definition rows_of (event_data : dict pyvalue) (rows : list (list bool))
  : Prop :=
  (forall key a, In (key, Array a) event_data ->
                 In (map numpy.isfinite a) rows) /\
  (forall r, In r rows ->
             exists key a, In (key, Array a) event_data /\
                           r = map numpy.isfinite a).

(** The entry [(key, v)] is what the closing loop of a loader should leave of
    [event_data]: [None] where it was [None], and else the column of [key]
    cut down to the rows of [mask], with its unit when [units] has one. *)
Definition masked_entry (units : dict u.unit) (mask : list bool)
  (event_data : dict pyvalue) (key : string) (v : pyvalue) : Prop :=
  (v = PyNone /\ In (key, PyNone) event_data) \/
  exists a, In (key, Array a) event_data /\
            length a = length mask /\
            v = match dict_get units key with
                | Some x => Quant (quantity.times (numpy.select a mask) x)
                | None => Array (numpy.select a mask)
                end.

(** The column [c] of a sample is a whole column of [event_data]. *)
Definition uncut (event_data : dict pyvalue) (c : option Quantity) : Prop :=
  match c with
  | None => True
  | Some q => exists key, In (key, Array (value q)) event_data
  end.

(** The eight attributes that every loader takes from its dictionary. *)
Definition attributes_of (event_data : dict pyvalue) (es : EventSample.t)
  : Prop :=
  attribute event_data "event_ra" = Ok (EventSample.event_ra es) /\
  attribute event_data "event_dec" = Ok (EventSample.event_dec es) /\
  attribute event_data "event_energy" = Ok (EventSample.event_energy es) /\
  attribute event_data "pointing_ra" = Ok (EventSample.pointing_ra es) /\
  attribute event_data "pointing_dec" = Ok (EventSample.pointing_dec es) /\
  attribute event_data "pointing_az" = Ok (EventSample.pointing_az es) /\
  attribute event_data "pointing_zd" = Ok (EventSample.pointing_zd es) /\
  attribute event_data "mjd" = Ok (EventSample.mjd es).

End Spec.

(** ** A small world to run the program in

    A toy [Astropy] (an instant is its MJD; the equatorial coordinates of a
    direction are taken to be its horizontal ones) and a file system with a
    handful of files. *)

Module Demo.

(** A turn more or less brings an angle in degrees into [0, 360). *)
Definition wrap (x : float) : float :=
  if PrimFloat.ltb x 0 then (x + 360)%float
  else if PrimFloat.leb 360 x then (x - 360)%float
  else x.

Definition astropy : Astropy := {|
  Time := float;
  Time_unix := fun x => (x / 86400 + 40587)%float;
  Time_mjd := fun x => x;
  time_unix := fun t => ((t - 40587) * 86400)%float;
  time_mjd := fun t => t;
  LST_EPOCH := 58392%float;
  altaz_to_icrs := fun az alt _ => (az, alt);
  icrs_to_altaz := fun ra dec _ => (ra, dec);
  separation := fun p q =>
    (PrimFloat.abs (fst p - fst q) + PrimFloat.abs (snd p - snd q))%float;
  Longitude := fun a _ => map wrap a;
  Longitude_length := fun a _ => length_map wrap a
|}.

(** A DL3 table of two events, the second with a NaN energy. *)
Definition nan_energy_events : HDU :=
  {| header := [ ("RA_PNT", 83.63%float); ("DEC_PNT", 22.01%float);
                 ("LIVETIME", 1200%float) ];
     data := [ ("EVENT_ID", [1; 2]%float);
               ("RA", [83.5; 83.7]%float);
               ("DEC", [22.1; 21.9]%float);
               ("GAMMANESS", [0.9; 0.8]%float);
               ("ENERGY", [1.5; nan]%float);
               ("TIME", [100; 101]%float) ] |}.

(** A legacy tree of one event, read 2 ms after the previous trigger. *)
Definition one_event_tree : DataFrame :=
  [ ("MRawEvtHeader_1.fDAQEvtNumber", [1]%float);
    ("MRawEvtHeader_1.fTimeDiff", [0.002]%float);
    ("MStereoParDisp.fDirectionRA", [5.57]%float);
    ("MStereoParDisp.fDirectionDec", [22.0]%float);
    ("MEnergyEst.fEnergy", [150]%float);
    ("MPointingPos_1.fZd", [20]%float);
    ("MPointingPos_1.fAz", [100]%float);
    ("MPointingPos_1.fRa", [5.58]%float);
    ("MPointingPos_1.fDec", [22.4]%float);
    ("MHadronness.fHadronness", [0.1]%float);
    ("MTime_1.fMjd", [59215]%float);
    ("MTime_1.fTime.fMilliSec", [1000]%float);
    ("MTime_1.fNanoSec", [0]%float) ].

Definition magic_name : string := "20210101_12345_S_SourceName-W0.40+035.root".

(** A legacy tree of three events, the second with a NaN energy. *)
Definition three_event_tree : DataFrame :=
  [ ("MRawEvtHeader_1.fDAQEvtNumber", [1; 2; 3]%float);
    ("MRawEvtHeader_1.fTimeDiff", [0.002; 0.001; 0.004]%float);
    ("MStereoParDisp.fDirectionRA", [5.57; 5.58; 5.59]%float);
    ("MStereoParDisp.fDirectionDec", [22.0; 22.1; 22.2]%float);
    ("MEnergyEst.fEnergy", [150; nan; 900]%float);
    ("MPointingPos_1.fZd", [20; 20; 20]%float);
    ("MPointingPos_1.fAz", [100; 100; 100]%float);
    ("MPointingPos_1.fRa", [5.58; 5.58; 5.58]%float);
    ("MPointingPos_1.fDec", [22.4; 22.4; 22.4]%float);
    ("MHadronness.fHadronness", [0.1; 0.2; 0.3]%float);
    ("MTime_1.fMjd", [59215; 59215; 59215]%float);
    ("MTime_1.fTime.fMilliSec", [1000; 2000; 4000]%float);
    ("MTime_1.fNanoSec", [0; 0; 0]%float) ].

Definition magic_name3 : string := "20210102_12346_S_SourceName-W0.40+035.root".

(** An HDF5 table of three events, the last with an infinite energy. *)
Definition three_event_table : DataFrame :=
  [ ("event_id", [1; 2; 3]%float);
    ("reco_energy", [0.5; 2; infinity]%float);
    ("gammaness", [0.9; 0.8; 0.7]%float);
    ("delta_t", [0.001; 0.002; 0.004]%float);
    ("alt_tel", [1.2; 1.2; 1.2]%float);
    ("az_tel", [0.3; 0.3; 0.3]%float);
    ("reco_alt", [1.21; 1.19; 1.2]%float);
    ("reco_az", [0.31; 0.29; 0.3]%float);
    ("trigger_time", [1600000000; 1600000060; 1600000120]%float) ].

Definition dl2_name3 : string := "dl2_LST-1.Run00043.h5".

Definition dl2_name : string := "dl2_LST-1.Run00042.h5".

Definition dl3_name : string := "dl3_LST-1.Run00007.fits.gz".

Definition dl3_no_events_name : string := "dl3_LST-1.Run00008.fits.gz".

Definition dl3_no_pointing_name : string := "dl3_LST-1.Run00009.fits.gz".

(** The same table under a header without [RA_PNT] and [DEC_PNT]. *)
Definition no_pointing_events : HDU :=
  {| header := [ ("LIVETIME", 1200%float) ];
     data := data nan_energy_events |}.

(** [magic_name] holds [one_event_tree] and [magic_name3] holds
    [three_event_tree]; [dl2_name] and [corrupt.h5] lack the table key and
    [dl2_name3] holds [three_event_table]; [dl3_name] holds [nan_energy_events]; [dl3_no_events_name] has no
    [EVENTS] extension; [dl3_no_pointing_name] holds [no_pointing_events]. *)
Definition files : FileSystem := {|
  uproot_open := fun name =>
    if String.eqb name magic_name then Ok [("Events", one_event_tree)]
    else if String.eqb name magic_name3 then Ok [("Events", three_event_tree)]
    else Raise OSError;
  uproot_cut := fun tree _ => Ok tree;
  read_hdf := fun name key =>
    if (String.eqb name dl2_name || String.eqb name "corrupt.h5")%bool
    then Raise (KeyError key)
    else if String.eqb name dl2_name3 then Ok three_event_table
    else Raise OSError;
  query := fun data _ => Ok data;
  fits_open := fun name =>
    if String.eqb name dl3_name then Ok [("EVENTS", nan_energy_events)]
    else if String.eqb name dl3_no_events_name then Ok []
    else if String.eqb name dl3_no_pointing_name
    then Ok [("EVENTS", no_pointing_events)]
    else Raise OSError
|}.

Definition sample (mjd delta_t : numpy.ndarray) : EventSample.t :=
  EventSample.mk None None None None None None
                 (Some (mkQuantity [10; 20.5]%float u.deg))
                 (Some (mkQuantity mjd u.d))
                 (Some (mkQuantity delta_t u.s)) None.

Definition position (az alt mjd : float) : @SkyCoord.t astropy :=
  @SkyCoord.mk astropy az alt mjd.

Definition run (id : Z) (start stop : @SkyCoord.t astropy)
  : @RunSummary.t astropy :=
  @RunSummary.mk astropy (Some id) (Some "run") (Some start) (Some stop).

(** A target run of half an hour, a run that follows it at once in nearly
    the same direction, one that follows it elsewhere in the sky, and one that
    is taken ten days later. *)
Definition target_run : @RunSummary.t astropy :=
  run 1 (position 100 70 59000) (position 100 70 59000.02).

Definition following_run : @RunSummary.t astropy :=
  run 2 (position 100.5 70 59000.03) (position 100.5 70 59000.05).

Definition elsewhere_run : @RunSummary.t astropy :=
  run 3 (position 150 40 59000.03) (position 150 40 59000.05).

Definition later_run : @RunSummary.t astropy :=
  run 4 (position 100 70 59010) (position 100 70 59010.02).

End Demo.

(** ** Files that a loader cannot read in full

    A second file system: a legacy file without event tree, a legacy file of
    one simulated event, an HDF5 table without the column [alt_tel], one
    without the column [az_tel], and one of a single event; and two legacy
    files of three events each, one taken at a negative azimuth and one
    whose first event has a negative zenith distance. *)

Module Faulty.

Definition treeless_name : string :=
  "20210103_12347_S_SourceName-W0.40+035.root".

Definition simulated_name : string :=
  "20210104_12348_S_Simulation-W0.40+035.root".

(** [Demo.one_event_tree] without its times, with the branch of the simulated
    shower and its three leaves. *)
Definition simulated_tree : DataFrame :=
  [ ("MRawEvtHeader_1.fDAQEvtNumber", [1]%float);
    ("MRawEvtHeader_1.fTimeDiff", [0.002]%float);
    ("MStereoParDisp.fDirectionRA", [5.57]%float);
    ("MStereoParDisp.fDirectionDec", [22.0]%float);
    ("MEnergyEst.fEnergy", [150]%float);
    ("MPointingPos_1.fZd", [20]%float);
    ("MPointingPos_1.fAz", [100]%float);
    ("MPointingPos_1.fRa", [5.58]%float);
    ("MPointingPos_1.fDec", [22.4]%float);
    ("MHadronness.fHadronness", [0.1]%float);
    ("MMcEvt_1.", [0]%float);
    ("MMcEvt_1.fEnergy", [160]%float);
    ("MMcEvt_1.fTheta", [0.35]%float);
    ("MMcEvt_1.fPhi", [1.7]%float) ].

Definition no_altitude_name : string := "dl2_LST-1.Run00044.h5".

Definition no_altitude_table : DataFrame :=
  [ ("event_id", [1; 2]%float);
    ("reco_energy", [0.5; 2]%float);
    ("az_tel", [0.3; 0.3]%float);
    ("trigger_time", [1600000000; 1600000060]%float) ].

Definition no_azimuth_name : string := "dl2_LST-1.Run00045.h5".

(** An HDF5 table of two events with the pointing in equatorial coordinates
    and no column [az_tel]. *)
Definition no_azimuth_table : DataFrame :=
  [ ("event_id", [1; 2]%float);
    ("reco_energy", [0.5; 2]%float);
    ("reco_ra", [1.46; 1.47]%float);
    ("reco_dec", [0.38; 0.39]%float);
    ("gammaness", [0.9; 0.8]%float);
    ("delta_t", [0.001; 0.002]%float);
    ("alt_tel", [1.2; 1.2]%float);
    ("ra_tel", [1.46; 1.46]%float);
    ("dec_tel", [0.38; 0.38]%float);
    ("trigger_time", [1600000000; 1600000060]%float) ].

Definition single_event_name : string := "dl2_LST-1.Run00046.h5".

(** An HDF5 table of one event. *)
Definition single_event_table : DataFrame :=
  [ ("event_id", [1]%float);
    ("reco_energy", [0.5]%float);
    ("gammaness", [0.9]%float);
    ("delta_t", [0.001]%float);
    ("alt_tel", [1.2]%float);
    ("az_tel", [0.3]%float);
    ("reco_alt", [1.21]%float);
    ("reco_az", [0.31]%float);
    ("trigger_time", [1600000000]%float) ].

(** A legacy tree of three events with the zenith distances [zd] and the
    azimuths [az]. *)
Definition pointing_tree (zd az : numpy.ndarray) : DataFrame :=
  [ ("MRawEvtHeader_1.fDAQEvtNumber", [1; 2; 3]%float);
    ("MRawEvtHeader_1.fTimeDiff", [0.002; 0.001; 0.004]%float);
    ("MStereoParDisp.fDirectionRA", [5.57; 5.58; 5.59]%float);
    ("MStereoParDisp.fDirectionDec", [22.0; 22.1; 22.2]%float);
    ("MEnergyEst.fEnergy", [150; 300; 900]%float);
    ("MPointingPos_1.fZd", zd);
    ("MPointingPos_1.fAz", az);
    ("MPointingPos_1.fRa", [5.58; 5.58; 5.58]%float);
    ("MPointingPos_1.fDec", [22.4; 22.4; 22.4]%float);
    ("MHadronness.fHadronness", [0.1; 0.2; 0.3]%float);
    ("MTime_1.fMjd", [59215; 59215; 59215]%float);
    ("MTime_1.fTime.fMilliSec", [1000; 2000; 4000]%float);
    ("MTime_1.fNanoSec", [0; 0; 0]%float) ].

Definition westward_name : string :=
  "20210105_12349_S_SourceName-W0.40+035.root".

Definition westward_tree : DataFrame :=
  pointing_tree [20; 20; 20]%float [-80; -80; -80]%float.

Definition overhead_name : string :=
  "20210106_12350_S_SourceName-W0.40+035.root".

Definition overhead_tree : DataFrame :=
  pointing_tree [-0.5; 20; 20]%float [100; 100; 100]%float.

Definition files : FileSystem := {|
  uproot_open := fun name =>
    if String.eqb name treeless_name then Ok []
    else if String.eqb name simulated_name
    then Ok [("Events", simulated_tree)]
    else if String.eqb name westward_name
    then Ok [("Events", westward_tree)]
    else if String.eqb name overhead_name
    then Ok [("Events", overhead_tree)]
    else Raise OSError;
  uproot_cut := fun tree _ => Ok tree;
  read_hdf := fun name key =>
    if String.eqb name no_altitude_name then Ok no_altitude_table
    else if String.eqb name no_azimuth_name then Ok no_azimuth_table
    else if String.eqb name single_event_name then Ok single_event_table
    else Raise OSError;
  query := fun data _ => Ok data;
  fits_open := fun _ => Raise OSError
|}.

(** A formatter that prints the class and the file name only. *)
Definition formatter : Formatter := {|
  event_file_message := fun cls name _ _ _ _ => (cls ++ " instance: " ++ name)%string;
  run_summary_message := fun name _ _ _ _ _ =>
    match name with
    | Some x => ("RunSummary instance: " ++ x)%string
    | None => "RunSummary instance"
    end;
  object_repr := "<object>"
|}.

End Faulty.

(** ** The empty sample of the HDF5 loader

    The empty sample of the HDF5 loader: every column of length zero, in the
    loader's units, and no effective observation time. *)
Definition dl2_empty_sample : EventSample.t :=
  EventSample.mk (Some (mkQuantity [] u.rad)) (Some (mkQuantity [] u.rad))
                 (Some (mkQuantity [] u.TeV))
                 (Some (mkQuantity [] u.rad)) (Some (mkQuantity [] u.rad))
                 (Some (mkQuantity [] u.rad)) (Some (mkQuantity [] u.rad))
                 (Some (mkQuantity [] u.d)) (Some (mkQuantity [] u.s))
                 None.

Definition dl2_corrupted_message : string :=
  "The file is corrupted or is missing the event tree. Empty arrays will be returned.".

(** ** The empty sample of the legacy ROOT loader

    The dictionary that the legacy loader builds for a file without event
    tree, the sample it makes of it, and the line it prints. *)
Definition magic_empty_columns : dict pyvalue :=
  dict_set (empty_columns MagicRootEventFile.data_names_mapping [])
           "mjd" (Array (numpy.zeros 0)).

Definition magic_empty_sample : EventSample.t :=
  EventSample.mk (Some (mkQuantity [] u.hourangle)) (Some (mkQuantity [] u.deg))
                 (Some (mkQuantity [] u.GeV))
                 (Some (mkQuantity [] u.hourangle)) (Some (mkQuantity [] u.deg))
                 (Some (mkQuantity [] u.deg)) (Some (mkQuantity [] u.deg))
                 (Some (mkQuantity [] u.d)) (Some (mkQuantity [] u.s))
                 None.

Definition magic_corrupted_message (file_name : string) : string :=
  "File " ++ file_name ++
  " corrupted or missing the event tree. Empty arrays will be returned.".

(** ** What the closing loop of a loader leaves of its dictionary *)

(** The nine columns of a sample by the key that the loader reads them
    from; the eight that every loader reads; the three that [RunSummary]
    uses. *)
Definition named_columns (es : EventSample.t)
  : list (string * option Quantity) :=
  [ ("event_ra", EventSample.event_ra es);
    ("event_dec", EventSample.event_dec es);
    ("event_energy", EventSample.event_energy es);
    ("pointing_ra", EventSample.pointing_ra es);
    ("pointing_dec", EventSample.pointing_dec es);
    ("pointing_az", EventSample.pointing_az es);
    ("pointing_zd", EventSample.pointing_zd es);
    ("mjd", EventSample.mjd es);
    ("delta_t", EventSample.delta_t es) ].

Definition read_columns (es : EventSample.t)
  : list (string * option Quantity) :=
  [ ("event_ra", EventSample.event_ra es);
    ("event_dec", EventSample.event_dec es);
    ("event_energy", EventSample.event_energy es);
    ("pointing_ra", EventSample.pointing_ra es);
    ("pointing_dec", EventSample.pointing_dec es);
    ("pointing_az", EventSample.pointing_az es);
    ("pointing_zd", EventSample.pointing_zd es);
    ("mjd", EventSample.mjd es) ].

Definition pointing_columns (es : EventSample.t)
  : list (string * option Quantity) :=
  [ ("pointing_az", EventSample.pointing_az es);
    ("pointing_zd", EventSample.pointing_zd es);
    ("mjd", EventSample.mjd es) ].

(** The column of a sample is the column of [event_data] under the same key
    cut down to the rows of [mask], in the unit that [units] gives the key;
    it is [None] where [event_data] holds [None]. *)
Definition cut (units : dict u.unit) (mask : list bool)
  (event_data : dict pyvalue) (column : string * option Quantity) : Prop :=
  match snd column with
  | Some q =>
      exists a, dict_get event_data (fst column) = Some (Array a) /\
                length a = length mask /\
                value q = numpy.select a mask /\
                dict_get units (fst column) = Some (unit q)
  | None => dict_get event_data (fst column) = Some PyNone
  end.

(** The column of a sample is populated, and it is the whole column of
    [event_data] under the same key, as long as [mask], in the unit that
    [units] gives the key. *)
Definition whole (units : dict u.unit) (mask : list bool)
  (event_data : dict pyvalue) (column : string * option Quantity) : Prop :=
  exists q a, snd column = Some q /\
              dict_get event_data (fst column) = Some (Array a) /\
              length a = length mask /\
              value q = a /\
              dict_get units (fst column) = Some (unit q).

(** Every entry of the dictionary is an array. *)
Definition arrays_only (event_data : dict pyvalue) : Prop :=
  forall k v, In (k, v) event_data -> exists a, v = Array a.

(** The key holds an array. *)
Definition has_array (event_data : dict pyvalue) (name : string) : Prop :=
  exists a, dict_get event_data name = Some (Array a).

(** The key is in the dictionary. *)
Definition has_key (event_data : dict pyvalue) (name : string) : Prop :=
  dict_get event_data name <> None.

(** [numpy.radians(90) - data['alt_tel']] *)
Definition zenith (alt_tel : numpy.ndarray) : numpy.ndarray :=
  map (fun x => (numpy.radians 90 - x)%float) alt_tel.

(** The three columns that [RunSummary] reads are populated, have one
    length, and are a time and two angles. *)
Definition summarisable (es : EventSample.t) : Prop :=
  exists mjd az zd,
    EventSample.mjd es = Some mjd /\
    EventSample.pointing_az es = Some az /\
    EventSample.pointing_zd es = Some zd /\
    u.physical (unit mjd) = u.time /\
    u.physical (unit az) = u.angle /\
    u.physical (unit zd) = u.angle /\
    length (value az) = length (value mjd) /\
    length (value zd) = length (value mjd).

(** ** The first extreme value of an array

    [i] is the first index of a least value of [a] for the order [le] with
    strict part [lt]: no value is below [a[i]], and the earlier ones are
    strictly above it. *)
Definition first_extreme (le lt : float -> float -> bool)
  (a : numpy.ndarray) (i : nat) : Prop :=
  exists t, nth_error a i = Some t /\
            (forall y, In y a -> le t y = true) /\
            (forall j y, j < i -> nth_error a j = Some y -> lt t y = true).

Definition first_minimum (a : numpy.ndarray) (i : nat) : Prop :=
  first_extreme PrimFloat.leb PrimFloat.ltb a i.

Definition first_maximum (a : numpy.ndarray) (i : nat) : Prop :=
  first_extreme (fun x y => PrimFloat.leb y x) (fun x y => PrimFloat.ltb y x)
                a i.

Definition no_nan (a : numpy.ndarray) : Prop :=
  Forall (fun y => PrimFloat.is_nan y = false) a.

(** ** File names by their extension

    The file name ends in the extension [ext], whatever the case of its
    letters: its last path component is a stem that is not made of dots
    only, then a dot and the rest of the extension. *)
Definition has_extension (ext : string) (file_name : string) : Prop :=
  exists dir stem e,
    chars file_name = dir ++ stem ++ "."%char :: e /\
    (dir = [] \/ exists d, dir = d ++ ["/"%char]) /\
    existsb (Ascii.eqb "/") stem = false /\
    existsb (fun c => negb (Ascii.eqb c ".")) stem = true /\
    lower ("."%char :: e) = chars ext.

(** ** Run neighbours in the words of the specification *)

Section NeighbourSpec.

Context {AP : Astropy}.

(** A run with defined time and pointing bounds. *)
Definition bounded (r : RunSummary.t) : Prop :=
  RunSummary.tel_pointing_start r <> None /\
  RunSummary.tel_pointing_stop r <> None.

(** Filter 1: [|candidate.mjd_start - target.mjd_stop| < time_delta] or
    [|candidate.mjd_stop - target.mjd_start| < time_delta]. *)
Definition temporal (target candidate : RunSummary.t) (time_delta : Scalar)
  : Prop :=
  exists c_start c_stop t_start t_stop,
    RunSummary.mjd_start candidate = Ok c_start /\
    RunSummary.mjd_stop candidate = Ok c_stop /\
    RunSummary.mjd_start target = Ok t_start /\
    RunSummary.mjd_stop target = Ok t_stop /\
    (within c_start t_stop time_delta = Ok true \/
     within c_stop t_start time_delta = Ok true).

(** Filter 2: the separation of the two start pointings, in equatorial
    coordinates, is less than [pointing_delta]. *)
Definition aligned (target candidate : RunSummary.t) (pointing_delta : Scalar)
  : Prop :=
  exists t_start c_start,
    RunSummary.tel_pointing_start target = Some t_start /\
    RunSummary.tel_pointing_start candidate = Some c_start /\
    quantity.lt
      (mkScalar (separation (SkyCoord.icrs t_start) (SkyCoord.icrs c_start))
                u.deg)
      pointing_delta = Ok true.

(** What the two [lambda]s decide together. *)
Definition keeps (target : RunSummary.t) (time_delta pointing_delta : Scalar)
  (c : RunSummary.t) : bool :=
  match near_in_time target time_delta c,
        near_in_pointing target pointing_delta c with
  | Ok true, Ok true => true
  | _, _ => false
  end.

(** A run without bounds, and a run as [RunSummary] leaves it: both
    pointings set, or neither. *)
Definition unbounded (r : RunSummary.t) : Prop :=
  RunSummary.tel_pointing_start r = None /\
  RunSummary.tel_pointing_stop r = None.

Definition settled (r : RunSummary.t) : Prop := bounded r \/ unbounded r.

End NeighbourSpec.

(** ** Proof tools *)

Ltac cmp_cases :=
  repeat match goal with
  | H : context [Pos.compare_cont Eq ?a ?b] |- _ => fold (Pos.compare a b) in H
  | |- context [Pos.compare_cont Eq ?a ?b] => fold (Pos.compare a b)
  end;
  repeat match goal with
  | H : context [Z.compare ?a ?b] |- _ => destruct (Z.compare_spec a b)
  | |- context [Z.compare ?a ?b] => destruct (Z.compare_spec a b)
  | H : context [Pos.compare ?a ?b] |- _ => destruct (Pos.compare_spec a b)
  | |- context [Pos.compare ?a ?b] => destruct (Pos.compare_spec a b)
  end.

Ltac signs := repeat match goal with s : bool |- _ => destruct s end.


(** The name that the LST pipeline gives the DL3 file of a run, in a
    directory [dir] (empty, or ending in a separator). *)
Definition dl3_base_name (digits : list ascii) : list ascii :=
  chars "dl3_LST-1.Run" ++ digits ++ chars ".fits.gz".

Definition dl3_file_name (dir digits : list ascii) : string :=
  str (dir ++ dl3_base_name digits).

(** * Properties *)

(** ** Results *)

Lemma bind_ok {A B : Type} (m : result A) (k : A -> result B) (b : B) :
  bind m k = Ok b -> exists a, m = Ok a /\ k a = Ok b.
Proof.
  destruct m as [a | e]; simpl; intros H.
  - exists a. split; [reflexivity | exact H].
  - discriminate H.
Qed.

(** One [bind] of a computation that returned. *)
Ltac step H x Hx :=
  apply bind_ok in H; destruct H as [x [Hx H]].

Lemma returns_not_raises {A : Type} (m : result A) : returns m -> ~ raises m.
Proof.
  intros [a Ha] [e He]. rewrite Ha in He. discriminate He.
Qed.

Lemma io_bind_ok {A B : Type} (m : io A) (k : A -> io B)
  (out : list string) (b : B) :
  io_bind m k = (out, Ok b) ->
  exists out1 a out2, m = (out1, Ok a) /\ k a = (out2, Ok b) /\
                      out = out1 ++ out2.
Proof.
  destruct m as [out1 [a | e]]; simpl; intros H.
  - destruct (k a) as [out2 r] eqn:Hk. injection H as <- ->.
    exists out1, a, out2. repeat split; assumption.
  - discriminate H.
Qed.

Lemma lift_ok {A : Type} (m : result A) (out : list string) (a : A) :
  lift m = (out, Ok a) -> m = Ok a /\ out = [].
Proof. unfold lift. intros H. injection H as <- ->. split; reflexivity. Qed.


(** ** Arrays *)

Lemma select_map_filter {A : Type} (p : A -> bool) (a : list A) :
  numpy.select a (map p a) = filter p a.
Proof.
  induction a as [| x a IH]; simpl.
  - reflexivity.
  - destruct (p x); rewrite IH; reflexivity.
Qed.



Lemma sort_insert_length (x : float) (l : numpy.ndarray) :
  length (numpy.sort_insert x l) = S (length l).
Proof.
  induction l as [| y l IH]; simpl.
  - reflexivity.
  - destruct (numpy.sort_lt y x); simpl; [rewrite IH |]; reflexivity.
Qed.

Lemma sort_length (a : numpy.ndarray) : length (numpy.sort a) = length a.
Proof.
  unfold numpy.sort. induction a as [| x a IH]; simpl.
  - reflexivity.
  - rewrite sort_insert_length, IH. reflexivity.
Qed.

Lemma diff_length (a : numpy.ndarray) : length (numpy.diff a) = length a - 1.
Proof.
  induction a as [| x a IH]; simpl.
  - reflexivity.
  - destruct a as [| y a'].
    + reflexivity.
    + simpl in *. rewrite IH. lia.
Qed.

Lemma fold_fmin_in (a : numpy.ndarray) (x : float) :
  In (fold_left numpy.fmin a x) (x :: a).
Proof.
  revert x. induction a as [| y a IH]; intros x; simpl.
  - left. reflexivity.
  - destruct (IH (numpy.fmin x y)) as [H | H].
    + unfold numpy.fmin in H at 1.
      destruct (PrimFloat.is_nan x); [left; exact H |].
      destruct (PrimFloat.is_nan y); [right; left; exact H |].
      destruct (PrimFloat.ltb y x); [right; left | left]; exact H.
    + right. right. exact H.
Qed.

Lemma amin_in (a : numpy.ndarray) :
  a <> [] -> exists m, numpy.amin a = Ok m /\ In m a.
Proof.
  destruct a as [| x a]; intros H.
  - contradiction H. reflexivity.
  - exists (fold_left numpy.fmin a x). split.
    + reflexivity.
    + apply fold_fmin_in.
Qed.

(** ** Units *)

Lemma zero_seconds_in_time_unit (x : u.unit) :
  u.physical x = u.time ->
  u.convert u.s x 0%float = Ok 0%float.
Proof.
  destruct x; simpl; intros H; try discriminate H; reflexivity.
Qed.

Lemma angle_to_deg (x : u.unit) :
  u.physical x = u.angle ->
  exists f, u.converter x u.deg = Ok f /\ (x = u.deg -> forall z, f z = z).
Proof.
  destruct x; simpl; intros H; try discriminate H;
    unfold u.converter; simpl; eexists; (split; [reflexivity |]);
    intros E; try discriminate E.
  intros z. reflexivity.
Qed.

Lemma time_to_days (x : u.unit) :
  u.physical x = u.time -> exists f, u.converter x u.d = Ok f.
Proof.
  destruct x; simpl; intros H; try discriminate H;
    unfold u.converter; simpl; eexists; reflexivity.
Qed.

Lemma gt_zero_seconds (dt : Quantity) :
  u.physical (unit dt) = u.time ->
  quantity.gt dt (mkScalar 0%float u.s) =
    Ok (map (fun x => PrimFloat.ltb 0 x) (value dt)).
Proof.
  intros H. unfold quantity.gt. simpl.
  rewrite (zero_seconds_in_time_unit _ H). reflexivity.
Qed.

(** ** The order of float64

    [<] on floats is the lexicographic order of sign, exponent and mantissa
    that the kernel specifies; it is transitive and irreflexive, and total
    away from NaN. *)




Lemma not_nan_spec (y : float) :
  PrimFloat.is_nan y = false -> Prim2SF y <> S754_nan.
Proof.
  unfold PrimFloat.is_nan. rewrite (FloatAxioms.eqb_spec y y).
  intros H E. rewrite E in H. discriminate H.
Qed.





(** ** The order of float64: [<=]

    [<=] is total away from NaN, and composes with [<]. *)

Lemma SFleb_total (x y : spec_float) :
  x <> S754_nan -> y <> S754_nan -> SFleb x y = false -> SFltb y x = true.
Proof.
  unfold SFleb, SFltb, SFcompare.
  destruct x as [sx | sx | | sx mx ex], y as [sy | sy | | sy my ey];
    intros Hx Hy H; try (contradiction Hx; reflexivity);
    try (contradiction Hy; reflexivity); try discriminate H; signs;
    try discriminate H; try reflexivity;
    cmp_cases; subst; simpl in *; try discriminate H; try reflexivity; try lia.
Qed.

Lemma SFltb_leb (x y : spec_float) : SFltb x y = true -> SFleb x y = true.
Proof.
  unfold SFleb, SFltb. destruct (SFcompare x y) as [[ | | ] |];
    try discriminate; reflexivity.
Qed.

Lemma SFltb_leb_trans (x y z : spec_float) :
  SFltb x y = true -> SFleb y z = true -> SFltb x z = true.
Proof.
  unfold SFleb, SFltb, SFcompare.
  destruct x as [sx | sx | | sx mx ex], y as [sy | sy | | sy my ey],
           z as [sz | sz | | sz mz ez];
    try discriminate; try reflexivity; signs;
    try discriminate; try reflexivity; intros H1 H2;
    cmp_cases; subst; simpl in *; try discriminate; try reflexivity; try lia.
Qed.

Lemma SFleb_ltb_trans (x y z : spec_float) :
  SFleb x y = true -> SFltb y z = true -> SFltb x z = true.
Proof.
  unfold SFleb, SFltb, SFcompare.
  destruct x as [sx | sx | | sx mx ex], y as [sy | sy | | sy my ey],
           z as [sz | sz | | sz mz ez];
    try discriminate; try reflexivity; signs;
    try discriminate; try reflexivity; intros H1 H2;
    cmp_cases; subst; simpl in *; try discriminate; try reflexivity; try lia.
Qed.

Lemma SFleb_refl (x : spec_float) : x <> S754_nan -> SFleb x x = true.
Proof.
  unfold SFleb, SFcompare. destruct x as [s | s | | s m e]; intros H;
    try reflexivity; try (contradiction H; reflexivity).
  - destruct s; reflexivity.
  - destruct s; rewrite Z.compare_refl; fold (Pos.compare m m);
      rewrite Pos.compare_refl; reflexivity.
Qed.

Lemma leb_total (x y : float) :
  PrimFloat.is_nan x = false -> PrimFloat.is_nan y = false ->
  PrimFloat.leb x y = false -> PrimFloat.ltb y x = true.
Proof.
  intros Hx Hy. rewrite FloatAxioms.leb_spec, FloatAxioms.ltb_spec.
  apply SFleb_total; apply not_nan_spec; assumption.
Qed.

Lemma ltb_leb (x y : float) :
  PrimFloat.ltb x y = true -> PrimFloat.leb x y = true.
Proof. rewrite FloatAxioms.leb_spec, FloatAxioms.ltb_spec. apply SFltb_leb. Qed.

Lemma ltb_leb_trans (x y z : float) :
  PrimFloat.ltb x y = true -> PrimFloat.leb y z = true ->
  PrimFloat.ltb x z = true.
Proof.
  rewrite FloatAxioms.leb_spec, !FloatAxioms.ltb_spec. apply SFltb_leb_trans.
Qed.

Lemma leb_ltb_trans (x y z : float) :
  PrimFloat.leb x y = true -> PrimFloat.ltb y z = true ->
  PrimFloat.ltb x z = true.
Proof.
  rewrite FloatAxioms.leb_spec, !FloatAxioms.ltb_spec. apply SFleb_ltb_trans.
Qed.

Lemma leb_refl (x : float) :
  PrimFloat.is_nan x = false -> PrimFloat.leb x x = true.
Proof.
  intros H. rewrite FloatAxioms.leb_spec. apply SFleb_refl, not_nan_spec, H.
Qed.






(** ** EventSample *)

Lemma rsub_nth (a : Scalar) (f : float -> float) (v : numpy.ndarray)
  (i : nat) (z : float) :
  nth_error v i = Some z ->
  nth_error (map (fun x => (sval a - x)%float) (map f v)) i
  = Some (sval a - f z)%float.
Proof.
  intros H. rewrite map_map. rewrite nth_error_map, H. reflexivity.
Qed.

(** C9: for every event of a sample whose zenith distance is an angle, the
    altitude is 90 degrees minus the zenith distance (taken in degrees, which
    changes nothing when it already is in degrees); the altitude depends on
    nothing but [pointing_zd], and the property of the loader classes is the
    sample's. *)
Theorem pointing_alt_is_90_minus_zd (es : EventSample.t) (zd : Quantity) :
  EventSample.pointing_zd es = Some zd ->
  u.physical (unit zd) = u.angle ->
  exists alt to_deg,
    EventSample.pointing_alt es = Ok alt /\
    u.converter (unit zd) u.deg = Ok to_deg /\
    (unit zd = u.deg -> forall z, to_deg z = z) /\
    unit alt = u.deg /\
    length (value alt) = length (value zd) /\
    (forall i z, nth_error (value zd) i = Some z ->
                 nth_error (value alt) i = Some (90 - to_deg z)%float) /\
    (forall ef, EventFile.events ef = es ->
                EventFile.pointing_alt ef = Ok alt) /\
    (forall es', EventSample.pointing_zd es' = Some zd ->
                 EventSample.pointing_alt es' = Ok alt).
Proof.
  intros Hzd Hangle.
  destruct (angle_to_deg _ Hangle) as [f [Hf Hid]].
  exists (mkQuantity (map (fun x => (90 - x)%float) (map f (value zd))) u.deg), f.
  assert (Halt : forall s, EventSample.pointing_zd s = Some zd ->
                           EventSample.pointing_alt s = Ok
                             (mkQuantity (map (fun x => (90 - x)%float)
                                              (map f (value zd))) u.deg)).
  { intros s Hs. unfold EventSample.pointing_alt. rewrite Hs.
    unfold quantity.rsub, quantity.to_value. simpl. rewrite Hf. reflexivity. }
  repeat split.
  - apply Halt, Hzd.
  - exact Hf.
  - exact Hid.
  - simpl. rewrite !length_map. reflexivity.
  - intros i z Hi. simpl.
    exact (rsub_nth (mkScalar 90%float u.deg) f (value zd) i z Hi).
  - intros ef Hef. unfold EventFile.pointing_alt. rewrite Hef.
    apply Halt, Hzd.
  - exact Halt.
Qed.

(** The theorem on a sample of two events with zenith distances in degrees. *)
Lemma pointing_alt_is_90_minus_zd_witness :
  exists alt to_deg,
    EventSample.pointing_alt
      (Demo.sample [59000; 59001]%float [0.5; 1]%float) = Ok alt /\
    u.converter u.deg u.deg = Ok to_deg /\
    (u.deg = u.deg -> forall z, to_deg z = z) /\
    unit alt = u.deg /\
    length (value alt) = 2 /\
    (forall i z, nth_error [10; 20.5]%float i = Some z ->
                 nth_error (value alt) i = Some (90 - to_deg z)%float) /\
    (forall ef, EventFile.events ef
                = Demo.sample [59000; 59001]%float [0.5; 1]%float ->
                EventFile.pointing_alt ef = Ok alt) /\
    (forall es', EventSample.pointing_zd es'
                 = Some (mkQuantity [10; 20.5]%float u.deg) ->
                 EventSample.pointing_alt es' = Ok alt).
Proof.
  apply (pointing_alt_is_90_minus_zd
           (Demo.sample [59000; 59001]%float [0.5; 1]%float)
           (mkQuantity [10; 20.5]%float u.deg)).
  - reflexivity.
  - reflexivity.
Defined.

Lemma no_time_difference (m : numpy.ndarray) :
  length m <= 1 -> numpy.diff (numpy.sort m) = [].
Proof.
  intros H. apply length_zero_iff_nil.
  rewrite diff_length, sort_length. lia.
Qed.

Lemma some_positive (delta_t : numpy.ndarray) (x : float) :
  In x delta_t -> PrimFloat.ltb 0 x = true ->
  Nat.ltb 0 (length (Spec.positive delta_t)) = true.
Proof.
  intros Hin Hpos. apply Nat.ltb_lt.
  assert (H : In x (Spec.positive delta_t)).
  { apply filter_In. split; assumption. }
  destruct (Spec.positive delta_t); [contradiction H | simpl; lia].
Qed.

(** C3, where the code departs from it: a sample of at most one event (so
    without a time difference) whose [delta_t], a duration, has a positive
    entry makes [calc_eff_obs_time] raise [TypeError]. *)
Theorem calc_eff_obs_time_raises_without_difference
  (es : EventSample.t) (m dt : Quantity) (x : float) :
  EventSample.mjd es = Some m ->
  length (value m) <= 1 ->
  EventSample.delta_t es = Some dt ->
  u.physical (unit dt) = u.time ->
  In x (value dt) ->
  PrimFloat.ltb 0 x = true ->
  EventSample.calc_eff_obs_time es = Raise TypeError.
Proof.
  intros Hm Hlen Hdt Htime Hin Hpos.
  unfold EventSample.calc_eff_obs_time.
  rewrite Hm, Hdt. simpl.
  rewrite (no_time_difference _ Hlen). simpl.
  rewrite (gt_zero_seconds _ Htime). simpl.
  rewrite select_map_filter.
  fold (Spec.positive (value dt)).
  rewrite (some_positive _ _ Hin Hpos).
  destruct (amin_in (Spec.positive (value dt))) as [d [Hd _]].
  { intros E. pose proof (some_positive _ _ Hin Hpos) as F.
    rewrite E in F. discriminate F. }
  rewrite Hd. reflexivity.
Qed.

(** The theorem on the sample of one event read 2 ms after the previous trigger. *)
Lemma calc_eff_obs_time_raises_without_difference_witness :
  EventSample.calc_eff_obs_time (Demo.sample [59215]%float [0.002]%float)
  = Raise TypeError.
Proof.
  apply (calc_eff_obs_time_raises_without_difference
           (Demo.sample [59215]%float [0.002]%float)
           (mkQuantity [59215]%float u.d)
           (mkQuantity [0.002]%float u.s) 0.002%float).
  - reflexivity.
  - simpl. lia.
  - reflexivity.
  - reflexivity.
  - simpl. left. reflexivity.
  - reflexivity.
Defined.

(** X3, the part of C3 that the code keeps: without a positive [delta_t]
    the effective time is [None], not zero, whatever the number of events. *)
Lemma calc_eff_obs_time_none_without_positive
  (es : EventSample.t) (m dt : Quantity) :
  EventSample.mjd es = Some m ->
  EventSample.delta_t es = Some dt ->
  u.physical (unit dt) = u.time ->
  Spec.positive (value dt) = [] ->
  EventSample.calc_eff_obs_time es = Ok None.
Proof.
  intros Hm Hdt Htime Hnone.
  unfold EventSample.calc_eff_obs_time.
  rewrite Hm, Hdt. simpl.
  rewrite (gt_zero_seconds _ Htime). simpl.
  rewrite select_map_filter.
  fold (Spec.positive (value dt)). rewrite Hnone. reflexivity.
Qed.

(** ** The effective observation time against the words of its formula *)

(** *** numpy.sort puts the values in ascending order *)









(** *** numpy.diff takes the consecutive differences *)


(** *** numpy.sum and numpy.mean add up the values of the array *)










(** The order matters: eight tenths add up to 0.8 in numpy's order and to
    less from left to right; ten tenths add up to 1, and their mean is a
    tenth. *)
Lemma sum_of_eight_tenths :
  numpy.sum (repeat 0.1%float 8) = 0.8%float /\
  fold_left PrimFloat.add (repeat 0.1%float 8) 0%float
  = 0.7999999999999999%float /\
  numpy.sum (repeat 0.1%float 10) = 1%float /\
  numpy.mean (repeat 0.1%float 10) = 0.1%float.
Proof. vm_compute. repeat split. Qed.

(** The fuel: a cut of more than 128 values leaves two shorter arrays, and
    the sum is the same with any fuel of the length of the array or more. *)
Lemma pairwise_sum_fuel (fuel : nat) :
  forall fuel' a, length a <= fuel -> length a <= fuel' ->
                  numpy.pairwise_sum fuel a = numpy.pairwise_sum fuel' a.
Proof.
  induction fuel as [| fuel IH]; intros fuel' a H H'.
  - destruct a; [| simpl in H; lia]. destruct fuel'; reflexivity.
  - cbn [numpy.pairwise_sum].
    destruct (Nat.leb (length a) numpy.PW_BLOCKSIZE) eqn:E.
    + destruct fuel'; cbn [numpy.pairwise_sum]; rewrite E; reflexivity.
    + apply Nat.leb_gt in E. unfold numpy.PW_BLOCKSIZE in E.
      destruct fuel' as [| fuel']; [lia |].
      cbn [numpy.pairwise_sum].
      replace (Nat.leb (length a) numpy.PW_BLOCKSIZE) with false
        by (symmetry; apply Nat.leb_gt; exact E).
      set (n2 := Nat.div (length a) 2 - Nat.modulo (Nat.div (length a) 2) 8).
      assert (Hn2 : 0 < n2 < length a).
      { unfold n2.
        pose proof (Nat.mod_upper_bound (Nat.div (length a) 2) 8).
        pose proof (Nat.div_mod_eq (length a) 2).
        pose proof (Nat.mod_upper_bound (length a) 2). lia. }
      rewrite (IH fuel' (firstn n2 a)), (IH fuel' (skipn n2 a));
        try reflexivity;
        rewrite ?length_firstn, ?length_skipn; lia.
Qed.

(** More than 128 values: the sum is that of the two parts. *)
Lemma sum_cut (a : numpy.ndarray) :
  numpy.PW_BLOCKSIZE < length a ->
  let n2 := Nat.div (length a) 2 - Nat.modulo (Nat.div (length a) 2) 8 in
  numpy.pairwise_sum (length a) a
  = (numpy.pairwise_sum n2 (firstn n2 a)
     + numpy.pairwise_sum (length a - n2) (skipn n2 a))%float.
Proof.
  intros H n2.
  assert (Hn2 : 0 < n2 < length a).
  { unfold n2. unfold numpy.PW_BLOCKSIZE in H.
    pose proof (Nat.mod_upper_bound (Nat.div (length a) 2) 8).
    pose proof (Nat.div_mod_eq (length a) 2).
    pose proof (Nat.mod_upper_bound (length a) 2). lia. }
  destruct (length a) as [| n] eqn:E; [lia |].
  cbn [numpy.pairwise_sum]. rewrite E.
  replace (Nat.leb (S n) numpy.PW_BLOCKSIZE) with false
    by (symmetry; apply Nat.leb_gt; exact H).
  fold n2.
  rewrite (pairwise_sum_fuel n n2 (firstn n2 a)),
    (pairwise_sum_fuel n (S n - n2) (skipn n2 a));
    try reflexivity; rewrite ?length_firstn, ?length_skipn; lia.
Qed.

(** *** numpy.percentile interpolates at the position of the percentile *)






(** ** Regular expressions: the matcher against the pattern as a set of texts *)

Section Matcher.

Import Spec.

Lemma greedy_sound {R : Type} (cls : ascii -> bool)
  (k : list ascii -> list ascii -> option R) (rest taken : list ascii) (r : R) :
  re.greedy cls k taken rest = Some r ->
  exists w rest', rest = w ++ rest' /\ forallb cls w = true /\
                  k (taken ++ w) rest' = Some r.
Proof.
  revert taken. induction rest as [| c rest IH]; intros taken H; simpl in H.
  - exists [], []. rewrite (app_nil_r taken). repeat split; assumption.
  - destruct (cls c) eqn:Hc.
    + destruct (re.greedy cls k (taken ++ [c]) rest) as [r0 |] eqn:Hg.
      * injection H as <-. destruct (IH _ Hg) as [w [rest' [E [Hw Hk]]]].
        exists (c :: w), rest'. subst rest. simpl. rewrite Hc, Hw.
        rewrite <- app_assoc in Hk. auto.
      * exists [], (c :: rest). rewrite (app_nil_r taken). repeat split; assumption.
    + exists [], (c :: rest). rewrite (app_nil_r taken). repeat split; assumption.
Qed.

Lemma greedy_complete {R : Type} (cls : ascii -> bool)
  (k : list ascii -> list ascii -> option R) (w rest' taken : list ascii) :
  forallb cls w = true ->
  k (taken ++ w) rest' <> None ->
  re.greedy cls k taken (w ++ rest') <> None.
Proof.
  revert taken. induction w as [| c w IH]; intros taken Hw Hk; simpl in *.
  - rewrite app_nil_r in Hk. destruct rest' as [| c rest'']; simpl.
    + exact Hk.
    + destruct (cls c); [| exact Hk].
      destruct (re.greedy cls k (taken ++ [c]) rest''); [discriminate | exact Hk].
  - apply andb_prop in Hw. destruct Hw as [Hc Hw]. rewrite Hc.
    assert (H : re.greedy cls k (taken ++ [c]) (w ++ rest') <> None).
    { apply IH; [exact Hw |]. rewrite <- app_assoc. exact Hk. }
    destruct (re.greedy cls k (taken ++ [c]) (w ++ rest'));
      [discriminate | contradiction H; reflexivity].
Qed.

Lemma match_here_sound (p : re.pattern) :
  forall g text g' rest,
    re.match_here p g text = Some (g', rest) ->
    exists w, text = w ++ rest /\ captures p g w g'.
Proof.
  induction p as [| a p IH]; intros g text g' rest H; simpl in H.
  - injection H as <- <-. exists []. simpl. auto.
  - simpl. destruct (re.quant a) eqn:Hq.
    + destruct text as [| c text]; [discriminate |].
      destruct (re.accepts a c) eqn:Hc; [| discriminate].
      destruct (IH _ _ _ _ H) as [w2 [E Hcap]].
      exists (c :: w2). split; [subst; reflexivity |].
      exists [c], w2. repeat split; try assumption.
      * simpl. rewrite Hc. reflexivity.
      * rewrite Hq. reflexivity.
    + destruct (greedy_sound _ _ _ _ _ H) as [w1 [rest1 [E [Hw Hk]]]].
      destruct (IH _ _ _ _ Hk) as [w2 [E2 Hcap]].
      exists (w1 ++ w2). split; [subst; rewrite app_assoc; reflexivity |].
      exists w1, w2. repeat split; try assumption.
      rewrite Hq. exact I.
    + destruct text as [| c text]; [discriminate |].
      destruct (re.accepts a c) eqn:Hc; [| discriminate].
      destruct (greedy_sound _ _ _ _ _ H) as [w1 [rest1 [E [Hw Hk]]]].
      destruct (IH _ _ _ _ Hk) as [w2 [E2 Hcap]].
      exists ((c :: w1) ++ w2). split.
      { subst. simpl. rewrite app_assoc. reflexivity. }
      exists (c :: w1), w2. repeat split; try assumption.
      * simpl. rewrite Hc, Hw. reflexivity.
      * rewrite Hq. discriminate.
Qed.

Lemma match_here_complete (p : re.pattern) :
  forall g w g' rest,
    captures p g w g' -> re.match_here p g (w ++ rest) <> None.
Proof.
  induction p as [| a p IH]; intros g w g' rest H; simpl in H; simpl.
  - discriminate.
  - destruct H as [w1 [w2 [E [[Hw Hq] Hcap]]]]. subst w.
    rewrite <- app_assoc.
    destruct (re.quant a).
    + destruct w1 as [| c [| c' w1]]; try discriminate Hq.
      simpl in *. apply andb_prop in Hw. destruct Hw as [Hc _].
      rewrite Hc. apply (IH _ _ _ _ Hcap).
    + apply greedy_complete; [exact Hw |]. apply (IH _ _ _ _ Hcap).
    + destruct w1 as [| c w1]; [contradiction Hq; reflexivity |].
      simpl in *. apply andb_prop in Hw. destruct Hw as [Hc Hw].
      rewrite Hc. apply greedy_complete; [exact Hw |].
      apply (IH _ _ _ _ Hcap).
Qed.

Lemma search_sound (p : re.pattern) (text g rest : list ascii) :
  re.search p text = Some (g, rest) ->
  exists pre w, text = pre ++ w ++ rest /\ captures p [] w g.
Proof.
  induction text as [| c text IH]; simpl; intros H.
  - destruct (re.match_here p [] []) as [[g0 r0] |] eqn:Hm; [| discriminate].
    injection H as <- <-.
    destruct (match_here_sound _ _ _ _ _ Hm) as [w [E Hcap]].
    exists [], w. auto.
  - destruct (re.match_here p [] (c :: text)) as [[g0 r0] |] eqn:Hm.
    + injection H as <- <-.
      destruct (match_here_sound _ _ _ _ _ Hm) as [w [E Hcap]].
      exists [], w. auto.
    + destruct (IH H) as [pre [w [E Hcap]]].
      exists (c :: pre), w. subst text. auto.
Qed.

Lemma search_complete (p : re.pattern) (text : list ascii) :
  occurs p text -> re.search p text <> None.
Proof.
  intros [pre [w [post [g [E Hcap]]]]]. subst text.
  induction pre as [| c pre IH]; simpl.
  - pose proof (match_here_complete p [] w g post Hcap) as Hm.
    destruct (w ++ post); simpl;
      destruct (re.match_here p [] _); try discriminate;
      contradiction Hm; reflexivity.
  - destruct (re.match_here p [] (c :: pre ++ w ++ post));
      [discriminate | exact IH].
Qed.

Lemma search_none_iff (p : re.pattern) (text : list ascii) :
  re.search p text = None <-> ~ occurs p text.
Proof.
  split.
  - intros H Hocc. exact (search_complete _ _ Hocc H).
  - intros H. destruct (re.search p text) as [[g rest] |] eqn:Hs;
      [| reflexivity].
    contradiction H. destruct (search_sound _ _ _ _ Hs) as [pre [w [E Hcap]]].
    exists pre, w, rest, g. auto.
Qed.

(** [re.findall] finds nothing exactly when the pattern matches nowhere,
    and its first entry is the group of the leftmost match. *)
Lemma findall_nil_iff (p : re.pattern) (text : string) :
  re.findall p text = [] <-> ~ occurs p (chars text).
Proof.
  rewrite <- search_none_iff. unfold re.findall. simpl.
  destruct (re.search p (chars text)) as [[g rest] |]; split;
    intros H; try discriminate H; reflexivity.
Qed.

Lemma findall_head (p : re.pattern) (text : string) :
  occurs p (chars text) ->
  exists pre w post g others,
    chars text = pre ++ w ++ post /\ captures p [] w g /\
    re.findall p text = g :: others.
Proof.
  intros Hocc. pose proof (search_complete _ _ Hocc) as Hs.
  unfold re.findall. simpl.
  destruct (re.search p (chars text)) as [[g rest] |] eqn:E;
    [| contradiction Hs; reflexivity].
  destruct (search_sound _ _ _ _ E) as [pre [w [Et Hcap]]].
  exists pre, w, rest, g. eexists. repeat split; eassumption.
Qed.

(** The text of the group is a piece matched by a group element. *)
Lemma captures_group (p : re.pattern) :
  forall g0 w g,
    captures p g0 w g ->
    g = g0 \/ exists a, In a p /\ re.group a = true /\ repeats a g.
Proof.
  induction p as [| a p IH]; intros g0 w g H; simpl in H.
  - left. apply H.
  - destruct H as [w1 [w2 [E [Hrep Hcap]]]].
    destruct (IH _ _ _ Hcap) as [Hg | [a' [Hin [Hgrp Hrep']]]].
    + destruct (re.group a) eqn:Ha.
      * right. exists a. subst g. simpl. auto.
      * left. exact Hg.
    + right. exists a'. simpl. auto.
Qed.

Lemma captures_of_group (p : re.pattern) :
  forall g0 w g,
    existsb re.group p = true ->
    captures p g0 w g ->
    exists a, In a p /\ re.group a = true /\ repeats a g.
Proof.
  induction p as [| a p IH]; intros g0 w g Hex H; simpl in *.
  - discriminate Hex.
  - destruct H as [w1 [w2 [E [Hrep Hcap]]]].
    destruct (re.group a) eqn:Ha.
    + destruct (captures_group _ _ _ _ Hcap) as [Hg | [a' [Hin [Hgrp Hrep']]]].
      * exists a. subst g. auto.
      * exists a'. auto.
    + simpl in Hex. destruct (IH _ _ _ Hex Hcap) as [a' [Hin [Hgrp Hrep']]].
      exists a'. auto.
Qed.

Lemma int_digits_ok (l : list ascii) :
  forall acc, forallb is_digit l = true -> exists n, int_digits acc l = Ok n.
Proof.
  induction l as [| c l IH]; intros acc H; simpl in *.
  - exists acc. reflexivity.
  - apply andb_prop in H. destruct H as [Hc Hl]. rewrite Hc. apply IH, Hl.
Qed.

Lemma int_ok (l : list ascii) :
  forallb is_digit l = true -> l <> [] -> exists n, int l = Ok n.
Proof.
  intros H Hne. destruct l as [| c l]; [contradiction Hne; reflexivity |].
  unfold int. apply int_digits_ok, H.
Qed.

End Matcher.

(** ** get_obs_id *)

Lemma magic_group_is_digits (a : re.atom) :
  In a MagicRootEventFile.obs_id_pattern ->
  re.group a = true ->
  re.accepts a = re.digit /\ re.quant a = re.Plus.
Proof.
  intros Hin Hg. simpl in Hin.
  repeat (destruct Hin as [<- | Hin]; [try discriminate Hg |]);
    try contradiction Hin.
  split; reflexivity.
Qed.

Lemma magic_group_text (w g : list ascii) :
  Spec.captures MagicRootEventFile.obs_id_pattern [] w g ->
  forallb is_digit g = true /\ g <> [].
Proof.
  intros Hcap.
  assert (Hex : existsb re.group MagicRootEventFile.obs_id_pattern = true)
    by reflexivity.
  destruct (captures_of_group _ _ _ _ Hex Hcap) as [a [Hin [Hg [Hall Hq]]]].
  destruct (magic_group_is_digits a Hin Hg) as [Ha Hplus].
  rewrite Ha in Hall. rewrite Hplus in Hq. split; assumption.
Qed.

(** C8: the obs id of the well-formed legacy file name of the specification
    is 12345; [get_obs_id] raises, and then the missing-identifier
    [RuntimeError], exactly when the pattern matches nowhere in the file
    name; and when it matches, the result is the integer written by the
    digits of the pattern's group in a match. *)
Theorem magic_get_obs_id_spec :
  MagicRootEventFile.get_obs_id "20210101_12345_S_SourceName-W0.40+035.root"
  = Ok 12345%Z /\
  (forall file_name,
     raises (MagicRootEventFile.get_obs_id file_name) <->
     ~ Spec.occurs MagicRootEventFile.obs_id_pattern (chars file_name)) /\
  (forall file_name,
     ~ Spec.occurs MagicRootEventFile.obs_id_pattern (chars file_name) ->
     MagicRootEventFile.get_obs_id file_name
     = Raise (RuntimeError ("Can not find observations ID in " ++ file_name))) /\
  (forall file_name,
     Spec.occurs MagicRootEventFile.obs_id_pattern (chars file_name) ->
     exists pre w post g n,
       chars file_name = pre ++ w ++ post /\
       Spec.captures MagicRootEventFile.obs_id_pattern [] w g /\
       forallb is_digit g = true /\ g <> [] /\
       int g = Ok n /\
       MagicRootEventFile.get_obs_id file_name = Ok n).
Proof.
  assert (Hmiss : forall file_name,
            ~ Spec.occurs MagicRootEventFile.obs_id_pattern (chars file_name) ->
            MagicRootEventFile.get_obs_id file_name
            = Raise (missing_obs_id file_name)).
  { intros file_name H. unfold MagicRootEventFile.get_obs_id.
    apply findall_nil_iff in H. rewrite H. reflexivity. }
  assert (Hfound : forall file_name,
            Spec.occurs MagicRootEventFile.obs_id_pattern (chars file_name) ->
            exists pre w post g n,
              chars file_name = pre ++ w ++ post /\
              Spec.captures MagicRootEventFile.obs_id_pattern [] w g /\
              forallb is_digit g = true /\ g <> [] /\
              int g = Ok n /\
              MagicRootEventFile.get_obs_id file_name = Ok n).
  { intros file_name H.
    destruct (findall_head _ _ H) as [pre [w [post [g [others [E [Hcap Hf]]]]]]].
    destruct (magic_group_text _ _ Hcap) as [Hdigits Hne].
    destruct (int_ok _ Hdigits Hne) as [n Hn].
    exists pre, w, post, g, n. repeat split; try assumption.
    unfold MagicRootEventFile.get_obs_id. rewrite Hf. exact Hn. }
  split; [vm_compute; reflexivity |].
  split; [| split; [exact Hmiss | exact Hfound]].
  intros file_name. split.
  - intros Hraise Hocc.
    destruct (Hfound _ Hocc) as [pre [w [post [g [n [_ [_ [_ [_ [_ Hok]]]]]]]]]].
    apply (returns_not_raises (MagicRootEventFile.get_obs_id file_name)).
    + exists n. exact Hok.
    + exact Hraise.
  - intros H. exists (missing_obs_id file_name). apply Hmiss, H.
Qed.

(** A legacy file name without the run number between the date and the
    source name has no obs id. *)
Lemma magic_get_obs_id_without_run_number :
  MagicRootEventFile.get_obs_id "20210101__S_SourceName-W0.40+035.root"
  = Raise (RuntimeError
             "Can not find observations ID in 20210101__S_SourceName-W0.40+035.root").
Proof. vm_compute. reflexivity. Qed.

(** The other two patterns on file names of their kind. *)
Lemma lst_get_obs_id_examples :
  LstDl2EventFile.get_obs_id "/data/dl2_LST-1.Run02967.h5" = Ok 2967%Z /\
  LstDl3EventFile.get_obs_id "/data/dl3_LST-1.Run02967.fits.gz" = Ok 2967%Z.
Proof. split; vm_compute; reflexivity. Qed.

(** ** The finite-value mask *)

Lemma and_rows_length (r m : list bool) :
  length r = length m -> length (numpy.and_rows r m) = length m.
Proof.
  revert m. induction r as [| x r IH]; intros [| y m] H; simpl in *;
    try discriminate H; try reflexivity.
  rewrite IH; [reflexivity | lia].
Qed.

Lemma and_rows_nth (r m : list bool) (i : nat) :
  length r = length m ->
  nth i (numpy.and_rows r m) false = (nth i r false && nth i m false)%bool.
Proof.
  revert m i. induction r as [| x r IH]; intros [| y m] i H; simpl in *;
    try discriminate H.
  - destruct i; reflexivity.
  - destruct i; [reflexivity |]. apply IH. lia.
Qed.

Lemma prod_axis0_spec (rows : list (list bool)) (m : list bool) :
  numpy.prod_axis0 rows = Ok m ->
  rows <> [] ->
  Forall (fun r => length r = length m) rows /\
  forall i, nth i m false = forallb (fun r => nth i r false) rows.
Proof.
  revert m. induction rows as [| r rest IH]; intros m H Hne.
  - contradiction Hne. reflexivity.
  - simpl in H. destruct rest as [| r' rest'].
    + injection H as <-. split.
      * constructor; [reflexivity | constructor].
      * intros i. simpl. rewrite andb_true_r. reflexivity.
    + apply bind_ok in H. destruct H as [m' [Hm' H]].
      destruct (Nat.eqb (length r) (length m')) eqn:Hlen; [| discriminate H].
      injection H as <-. apply Nat.eqb_eq in Hlen.
      destruct (IH m' Hm') as [Hall Hnth]; [discriminate |].
      rewrite (and_rows_length _ _ Hlen). split.
      * constructor; [exact Hlen | exact Hall].
      * intros i. rewrite (and_rows_nth _ _ _ Hlen), Hnth. reflexivity.
Qed.

Lemma select_length_le {A : Type} (a : list A) (m : list bool) :
  length a = length m ->
  length (numpy.select a m) = length (filter (fun b => b) m).
Proof.
  revert m. induction a as [| x a IH]; intros [| b m] H; simpl in *;
    try discriminate H; try reflexivity.
  destruct b; simpl; rewrite IH; try reflexivity; lia.
Qed.

Lemma select_forallb {A : Type} (P : A -> bool) (a : list A) (m : list bool) :
  (forall i x, nth i m false = true -> nth_error a i = Some x -> P x = true) ->
  forallb P (numpy.select a m) = true.
Proof.
  revert m. induction a as [| x a IH]; intros [| b m] H; simpl; try reflexivity.
  assert (Hrest : forallb P (numpy.select a m) = true).
  { apply IH. intros i y Hm Hy. exact (H (S i) y Hm Hy). }
  destruct b; [| exact Hrest].
  simpl. rewrite Hrest, (H 0 x eq_refl eq_refl). reflexivity.
Qed.

Lemma dict_get_in {V : Type} (d : dict V) (k : string) (v : V) :
  dict_get d k = Some v -> In (k, v) d.
Proof.
  induction d as [| [k' v'] d IH]; simpl; intros H.
  - discriminate H.
  - destruct (String.eqb k' k) eqn:E.
    + apply String.eqb_eq in E. injection H as <-. subst. left. reflexivity.
    + right. apply IH, H.
Qed.

Lemma attribute_in (event_data : dict pyvalue) (name : string) (q : Quantity) :
  attribute event_data name = Ok (Some q) -> In (name, Quant q) event_data.
Proof.
  unfold attribute, getitem. intros H.
  destruct (dict_get event_data name) as [v |] eqn:E; [| discriminate H].
  simpl in H. destruct v; try discriminate H.
  injection H as ->. apply dict_get_in, E.
Qed.

Lemma nth_map_isfinite (a : numpy.ndarray) (i : nat) (x : float) :
  nth_error a i = Some x ->
  nth i (map numpy.isfinite a) false = numpy.isfinite x.
Proof.
  revert i. induction a as [| y a IH]; intros [| i] H; simpl in *;
    try discriminate H.
  - injection H as ->. reflexivity.
  - apply IH, H.
Qed.

Lemma finite_rows_spec (event_data : dict pyvalue) (rows : list (list bool)) :
  finite_rows event_data = Ok rows -> Spec.rows_of event_data rows.
Proof.
  revert rows. induction event_data as [| [k v] ed IH]; intros rows H;
    simpl in H.
  - injection H as <-. split.
    + intros key a [].
    + intros r [].
  - destruct v as [| a0 | q0]; simpl in H.
    + destruct (IH _ H) as [H1 H2]. split.
      * intros key a [E | Hin]; [discriminate E | exact (H1 _ _ Hin)].
      * intros r Hr. destruct (H2 r Hr) as [key [a [Hin E]]].
        exists key, a. split; [right; exact Hin | exact E].
    + apply bind_ok in H. destruct H as [rows' [Hrows H]].
      injection H as <-. destruct (IH _ Hrows) as [H1 H2]. split.
      * intros key a [E | Hin].
        -- injection E as _ <-. left. reflexivity.
        -- right. exact (H1 _ _ Hin).
      * intros r [<- | Hr].
        -- exists k, a0. split; [left; reflexivity | reflexivity].
        -- destruct (H2 r Hr) as [key [a [Hin E]]].
           exists key, a. split; [right; exact Hin | exact E].
    + discriminate H.
Qed.

Lemma magic_finite_rows_spec (event_data : dict pyvalue)
  (rows : list (list bool)) :
  MagicRootEventFile.finite_rows_all event_data = Ok rows ->
  Spec.rows_of event_data rows.
Proof.
  revert rows. induction event_data as [| [k v] ed IH]; intros rows H;
    simpl in H.
  - injection H as <-. split.
    + intros key a [].
    + intros r [].
  - destruct v as [| a0 | q0]; simpl in H; try discriminate H.
    apply bind_ok in H. destruct H as [rows' [Hrows H]].
    injection H as <-. destruct (IH _ Hrows) as [H1 H2]. split.
    + intros key a [E | Hin].
      * injection E as _ <-. left. reflexivity.
      * right. exact (H1 _ _ Hin).
    + intros r [<- | Hr].
      * exists k, a0. split; [left; reflexivity | reflexivity].
      * destruct (H2 r Hr) as [key [a [Hin E]]].
        exists key, a. split; [right; exact Hin | exact E].
Qed.

Lemma getitem_mask_ok {A : Type} (a : list A) (m : list bool) (r : list A) :
  numpy.getitem_mask a m = Ok r -> length a = length m /\ r = numpy.select a m.
Proof.
  unfold numpy.getitem_mask. destruct (Nat.eqb (length a) (length m)) eqn:E;
    intros H; [| discriminate H].
  injection H as <-. apply Nat.eqb_eq in E. split; [exact E | reflexivity].
Qed.

Lemma masked_entry_cons (units : dict u.unit) (m : list bool)
  (entry : string * pyvalue) (ed : dict pyvalue) (k : string) (v : pyvalue) :
  Spec.masked_entry units m ed k v -> Spec.masked_entry units m (entry :: ed) k v.
Proof.
  intros [[E Hin] | [a [Hin [Hlen E]]]].
  - left. split; [exact E | right; exact Hin].
  - right. exists a. repeat split; try assumption. right. exact Hin.
Qed.

Lemma magic_apply_mask_spec (m : list bool) (ed ed' : dict pyvalue) :
  MagicRootEventFile.apply_mask m ed = Ok ed' ->
  forall k v, In (k, v) ed' ->
              Spec.masked_entry MagicRootEventFile.data_units m ed k v.
Proof.
  revert ed'. induction ed as [| [k0 v0] ed IH]; intros ed' H k v Hin;
    simpl in H.
  - injection H as <-. destruct Hin.
  - destruct v0 as [| a0 | q0]; simpl in H; try discriminate H.
    apply bind_ok in H. destruct H as [masked [Hmask H]].
    apply bind_ok in H. destruct H as [rest' [Hrest H]].
    injection H as <-. apply getitem_mask_ok in Hmask.
    destruct Hmask as [Hlen ->].
    destruct Hin as [E | Hin].
    + injection E as <- <-. right. exists a0.
      repeat split; [left; reflexivity | exact Hlen].
    + apply masked_entry_cons. exact (IH _ Hrest _ _ Hin).
Qed.

Lemma dl2_apply_mask_spec (m : list bool) (ed ed' : dict pyvalue) :
  LstDl2EventFile.apply_mask m ed = Ok ed' ->
  forall k v, In (k, v) ed' ->
              Spec.masked_entry LstDl2EventFile.data_units m ed k v.
Proof.
  revert ed'. induction ed as [| [k0 v0] ed IH]; intros ed' H k v Hin;
    simpl in H.
  - injection H as <-. destruct Hin.
  - destruct v0 as [| a0 | q0]; simpl in H; try discriminate H.
    + apply bind_ok in H. destruct H as [rest' [Hrest H]].
      injection H as <-. destruct Hin as [E | Hin].
      * injection E as <- <-. left. split; [reflexivity | left; reflexivity].
      * apply masked_entry_cons. exact (IH _ Hrest _ _ Hin).
    + apply bind_ok in H. destruct H as [masked [Hmask H]].
      apply bind_ok in H. destruct H as [rest' [Hrest H]].
      injection H as <-. apply getitem_mask_ok in Hmask.
      destruct Hmask as [Hlen ->].
      destruct Hin as [E | Hin].
      * injection E as <- <-. right. exists a0.
        repeat split; [left; reflexivity | exact Hlen].
      * apply masked_entry_cons. exact (IH _ Hrest _ _ Hin).
Qed.

(** A column that the loop cut down holds finite values only, and as many
    as the mask has true entries. *)
Lemma masked_column_clean (units : dict u.unit) (ed : dict pyvalue)
  (rows : list (list bool)) (m : list bool) (k : string) (q : Quantity) :
  Spec.rows_of ed rows ->
  numpy.prod_axis0 rows = Ok m ->
  Spec.masked_entry units m ed k (Quant q) ->
  Spec.clean_column (length (filter (fun b => b) m)) (Some q) /\
  exists a, In (k, Array a) ed /\ value q = numpy.select a m.
Proof.
  intros [Hrows _] Hprod [[E _] | [a [Hin [Hlen E]]]]; [discriminate E |].
  assert (Hq : value q = numpy.select a m).
  { destruct (dict_get units k); [| discriminate E].
    injection E as ->. reflexivity. }
  pose proof (Hrows _ _ Hin) as Hrow.
  destruct (prod_axis0_spec rows m Hprod) as [_ Hnth].
  { intros Hnil. rewrite Hnil in Hrow. destruct Hrow. }
  split; [| exists a; split; assumption].
  simpl. rewrite Hq. split.
  - apply select_length_le, Hlen.
  - apply select_forallb. intros i x Hm Hx.
    rewrite Hnth in Hm. rewrite forallb_forall in Hm.
    specialize (Hm _ Hrow). rewrite (nth_map_isfinite _ _ _ Hx) in Hm.
    exact Hm.
Qed.

(** The mask keeps row [i] exactly when the row is finite in every
    populated column. *)
Lemma mask_keeps_finite_rows (ed : dict pyvalue) (rows : list (list bool))
  (m : list bool) (i : nat) :
  Spec.rows_of ed rows ->
  rows <> [] ->
  numpy.prod_axis0 rows = Ok m ->
  nth i m false = true <-> (i < length m /\ Spec.finite_row ed i).
Proof.
  intros [Hrows Hback] Hne Hprod.
  destruct (prod_axis0_spec rows m Hprod Hne) as [Hlens Hnth].
  rewrite Forall_forall in Hlens.
  split.
  - intros Hm.
    assert (Hi : i < length m).
    { destruct (Nat.lt_ge_cases i (length m)) as [Hlt | Hge]; [exact Hlt |].
      rewrite (nth_overflow _ _ Hge) in Hm. discriminate Hm. }
    split; [exact Hi |].
    intros key a Hin. pose proof (Hrows _ _ Hin) as Hrow.
    pose proof (Hlens _ Hrow) as Hlen. rewrite length_map in Hlen.
    destruct (nth_error a i) as [x |] eqn:Hx.
    + exists x. split; [reflexivity |].
      rewrite Hnth in Hm. rewrite forallb_forall in Hm.
      specialize (Hm _ Hrow). rewrite (nth_map_isfinite _ _ _ Hx) in Hm.
      exact Hm.
    + apply nth_error_None in Hx. lia.
  - intros [Hi Hfin]. rewrite Hnth. apply forallb_forall. intros r Hr.
    destruct (Hback r Hr) as [key [a [Hin ->]]].
    destruct (Hfin key a Hin) as [x [Hx Hfx]].
    rewrite (nth_map_isfinite _ _ _ Hx). exact Hfx.
Qed.

Lemma attribute_clean (units : dict u.unit) (ed ed' : dict pyvalue)
  (rows : list (list bool)) (m : list bool) (name : string)
  (c : option Quantity) :
  Spec.rows_of ed rows ->
  numpy.prod_axis0 rows = Ok m ->
  (forall k v, In (k, v) ed' -> Spec.masked_entry units m ed k v) ->
  attribute ed' name = Ok c ->
  Spec.clean_column (length (filter (fun b => b) m)) c.
Proof.
  intros Hrows Hprod Hmask Hc. destruct c as [q |]; [| exact I].
  apply attribute_in in Hc.
  exact (proj1 (masked_column_clean units ed rows m name q Hrows Hprod
                                    (Hmask _ _ Hc))).
Qed.

Lemma masked_entry_unit (units : dict u.unit) (m : list bool)
  (ed : dict pyvalue) (k : string) (q : Quantity) :
  Spec.masked_entry units m ed k (Quant q) ->
  dict_get units k = Some (unit q).
Proof.
  intros [[E _] | [a [_ [_ E]]]]; [discriminate E |].
  destruct (dict_get units k) as [x |]; [| discriminate E].
  injection E as ->. reflexivity.
Qed.

Section LoadersClean.

Context {AP : Astropy} {FS : FileSystem}.

(** What the legacy ROOT loader has done when it returns: a mask is the
    conjunction of the finiteness rows of [event_data], every entry of the
    dictionary was cut down to it, and the sample holds the cut columns. *)
Lemma magic_load_events_inv
  (file_name : string) (cuts : option string)
  (out : list string) (es : EventSample.t) :
  MagicRootEventFile.load_events file_name cuts = (out, Ok es) ->
  exists ed rows m ed',
    Spec.rows_of ed rows /\
    numpy.prod_axis0 rows = Ok m /\
    (forall k v, In (k, v) ed' ->
       Spec.masked_entry MagicRootEventFile.data_units m ed k v) /\
    Spec.attributes_of ed' es /\
    attribute ed' "delta_t" = Ok (EventSample.delta_t es).
Proof.
  unfold MagicRootEventFile.load_events. intros H.
  apply io_bind_ok in H. destruct H as [o1 [input_file [o2 [_ [H _]]]]].
  apply io_bind_ok in H. destruct H as [o3 [ed [o4 [_ [H _]]]]].
  apply lift_ok in H. destruct H as [H _].
  step H rows Hrows. step H m Hprod. step H ed' Hmask.
  step H c1 H1. step H c2 H2. step H c3 H3. step H c4 H4. step H c5 H5.
  step H c6 H6. step H c7 H7. step H c8 H8. step H c9 H9.
  unfold EventSample.init in H. step H t_eff Ht. injection H as <-.
  exists ed, rows, m, ed'. split; [exact (magic_finite_rows_spec _ _ Hrows) |].
  split; [exact Hprod |].
  split; [exact (magic_apply_mask_spec _ _ _ Hmask) |].
  unfold Spec.attributes_of. simpl. repeat split; assumption.
Qed.

Lemma dl2_load_events_inv
  (file_name : string) (cuts : option string)
  (out : list string) (es : EventSample.t) :
  LstDl2EventFile.load_events file_name cuts = (out, Ok es) ->
  exists ed rows m ed',
    Spec.rows_of ed rows /\
    numpy.prod_axis0 rows = Ok m /\
    (forall k v, In (k, v) ed' ->
       Spec.masked_entry LstDl2EventFile.data_units m ed k v) /\
    Spec.attributes_of ed' es /\
    attribute ed' "delta_t" = Ok (EventSample.delta_t es).
Proof.
  unfold LstDl2EventFile.load_events. intros H.
  apply io_bind_ok in H. destruct H as [o3 [ed [o4 [_ [H _]]]]].
  apply lift_ok in H. destruct H as [H _].
  step H rows Hrows. step H m Hprod. step H ed' Hmask.
  step H c1 H1. step H c2 H2. step H c3 H3. step H c4 H4. step H c5 H5.
  step H c6 H6. step H c7 H7. step H c8 H8. step H c9 H9.
  unfold EventSample.init in H. step H t_eff Ht. injection H as <-.
  exists ed, rows, m, ed'. split; [exact (finite_rows_spec _ _ Hrows) |].
  split; [exact Hprod |].
  split; [exact (dl2_apply_mask_spec _ _ _ Hmask) |].
  unfold Spec.attributes_of. simpl. repeat split; assumption.
Qed.

Lemma masked_sample_clean (units : dict u.unit) (ed ed' : dict pyvalue)
  (rows : list (list bool)) (m : list bool) (es : EventSample.t) :
  Spec.rows_of ed rows ->
  numpy.prod_axis0 rows = Ok m ->
  (forall k v, In (k, v) ed' -> Spec.masked_entry units m ed k v) ->
  Spec.attributes_of ed' es ->
  attribute ed' "delta_t" = Ok (EventSample.delta_t es) ->
  Spec.clean es.
Proof.
  intros Hrows Hprod Hmask [H1 [H2 [H3 [H4 [H5 [H6 [H7 H8]]]]]]] H9.
  exists (length (filter (fun b => b) m)). unfold Spec.columns.
  repeat constructor; eapply (attribute_clean units); eassumption.
Qed.

(** X1: every sample that the legacy ROOT loader returns is clean: its
    populated columns have one length and hold finite values only. *)
Theorem magic_load_events_clean
  (file_name : string) (cuts : option string)
  (out : list string) (es : EventSample.t) :
  MagicRootEventFile.load_events file_name cuts = (out, Ok es) ->
  Spec.clean es.
Proof.
  intros H.
  destruct (magic_load_events_inv _ _ _ _ H)
    as [ed [rows [m [ed' [Hrows [Hprod [Hmask [Hattr Hdt]]]]]]]].
  exact (masked_sample_clean _ _ _ _ _ _ Hrows Hprod Hmask Hattr Hdt).
Qed.

(** X2: every sample that the HDF5 loader returns is clean. *)
Theorem dl2_load_events_clean
  (file_name : string) (cuts : option string)
  (out : list string) (es : EventSample.t) :
  LstDl2EventFile.load_events file_name cuts = (out, Ok es) ->
  Spec.clean es.
Proof.
  intros H.
  destruct (dl2_load_events_inv _ _ _ _ H)
    as [ed [rows [m [ed' [Hrows [Hprod [Hmask [Hattr Hdt]]]]]]]].
  exact (masked_sample_clean _ _ _ _ _ _ Hrows Hprod Hmask Hattr Hdt).
Qed.

End LoadersClean.

(** ** The loaders *)

Lemma dl3_apply_mask_spec (m : list bool) (ed ed' : dict pyvalue) :
  LstDl3EventFile.apply_mask m ed = Ok ed' ->
  forall k q, In (k, Quant q) ed' ->
              In (k, Array (value q)) ed /\
              dict_get LstDl3EventFile.data_units k = Some (unit q).
Proof.
  revert ed'. induction ed as [| [k0 v0] ed IH]; intros ed' H k q Hin;
    cbn [LstDl3EventFile.apply_mask] in H.
  - injection H as <-. destruct Hin.
  - destruct v0 as [| a0 | q0]; cbn [as_array bind] in H; try discriminate H.
    + step H rest' Hrest. injection H as <-. destruct Hin as [E | Hin].
      * discriminate E.
      * destruct (IH _ Hrest _ _ Hin) as [H1 H2]. split; [right |]; assumption.
    + remember (dict_get LstDl3EventFile.data_units k0) as ux eqn:Hx in *.
      step H masked Hmask. step H rest' Hrest. injection H as <-.
      destruct Hin as [E | Hin].
      * injection E as <- E. destruct ux as [x |]; [| discriminate E].
        injection E as <-. split; [left; reflexivity | symmetry; exact Hx].
      * destruct (IH _ Hrest _ _ Hin) as [H1 H2]. split; [right |]; assumption.
Qed.

Lemma attribute_uncut (ed ed' : dict pyvalue) (name : string)
  (c : option Quantity) :
  (forall k q, In (k, Quant q) ed' ->
               In (k, Array (value q)) ed /\
               dict_get LstDl3EventFile.data_units k = Some (unit q)) ->
  attribute ed' name = Ok c ->
  Spec.uncut ed c.
Proof.
  intros Hspec Hc. destruct c as [q |]; [| exact I].
  apply attribute_in in Hc. exists name. apply Hspec, Hc.
Qed.

Section DL3.

Context {AP : Astropy} {FS : FileSystem}.

(** What the FITS DL3 loader has done when it returns. *)
Lemma dl3_load_events_inv
  (file_name : string) (cuts : option string)
  (out : list string) (es : EventSample.t) :
  LstDl3EventFile.load_events file_name cuts = (out, Ok es) ->
  exists input_file vars status ed m ed',
    fits_open file_name = Ok input_file /\
    LstDl3EventFile.read_events input_file = (vars, status) /\
    LstDl3EventFile.event_data vars = Some ed /\
    LstDl3EventFile.apply_mask m ed = Ok ed' /\
    Spec.attributes_of ed' es /\
    EventSample.delta_t es = None.
Proof.
  unfold LstDl3EventFile.load_events. intros H.
  apply io_bind_ok in H. destruct H as [o1 [input_file [o2 [Hopen [H _]]]]].
  apply lift_ok in Hopen. destruct Hopen as [Hopen _].
  apply io_bind_ok in H. destruct H as [o3 [u0 [o4 [_ [H _]]]]].
  apply io_bind_ok in H. destruct H as [o5 [vars [o6 [Hvars [H _]]]]].
  apply lift_ok in H. destruct H as [H _].
  step H ed Hed. step H rows Hrows. step H m Hprod. step H ed' Hmask.
  step H c1 H1. step H c2 H2. step H c3 H3. step H c4 H4. step H c5 H5.
  step H c6 H6. step H c7 H7. step H c8 H8.
  step H hdr Hhdr. step H livetime Hlive.
  unfold EventSample.init in H. injection H as <-.
  destruct (LstDl3EventFile.read_events input_file) as [vars0 status] eqn:Hread.
  assert (Hsame : vars = vars0).
  { destruct status as [[] | e].
    - injection Hvars as _ <-. reflexivity.
    - destruct e; try discriminate Hvars.
      simpl in Hvars. injection Hvars as _ <-. reflexivity. }
  subst vars0.
  exists input_file, vars, status, ed, m, ed'.
  split; [exact Hopen |]. split; [exact Hread |].
  split.
  { unfold LstDl3EventFile.unbound in Hed.
    destruct (LstDl3EventFile.event_data vars); [| discriminate Hed].
    injection Hed as ->. reflexivity. }
  split; [exact Hmask |].
  unfold Spec.attributes_of. simpl. repeat split; assumption.
Qed.

(** Whatever the file, each column of a sample returned by the FITS DL3
    loader is, row for row, a column that the [try] built: the loader removes
    no row from what it returns. *)
Lemma dl3_load_events_keeps_every_row
  (file_name : string) (cuts : option string)
  (out : list string) (es : EventSample.t) :
  LstDl3EventFile.load_events file_name cuts = (out, Ok es) ->
  exists input_file vars status ed,
    fits_open file_name = Ok input_file /\
    LstDl3EventFile.read_events input_file = (vars, status) /\
    LstDl3EventFile.event_data vars = Some ed /\
    Forall (Spec.uncut ed) (Spec.columns es).
Proof.
  intros H.
  destruct (dl3_load_events_inv _ _ _ _ H)
    as [input_file [vars [status [ed [m [ed' [Hopen [Hread [Hed [Hmask
         [[H1 [H2 [H3 [H4 [H5 [H6 [H7 H8]]]]]]] Hdt]]]]]]]]]]].
  exists input_file, vars, status, ed. repeat split; try assumption.
  pose proof (dl3_apply_mask_spec _ _ _ Hmask) as Hspec.
  unfold Spec.columns. rewrite Hdt.
  repeat constructor; try exact I;
    eapply attribute_uncut; eassumption.
Qed.

(** Whichever loader returns the sample, its zenith distance, when it is
    populated, is an angle: the altitude of C9 is defined on it. *)
Lemma loaded_zenith_distance_is_an_angle
  (file_name : string) (cuts : option string)
  (out : list string) (es : EventSample.t) (zd : Quantity) :
  MagicRootEventFile.load_events file_name cuts = (out, Ok es) \/
  LstDl2EventFile.load_events file_name cuts = (out, Ok es) \/
  LstDl3EventFile.load_events file_name cuts = (out, Ok es) ->
  EventSample.pointing_zd es = Some zd ->
  u.physical (unit zd) = u.angle.
Proof.
  intros [H | [H | H]] Hzd.
  - destruct (magic_load_events_inv _ _ _ _ H)
      as [ed [rows [m [ed' [_ [_ [Hmask [Hattr _]]]]]]]].
    destruct Hattr as [_ [_ [_ [_ [_ [_ [H7 _]]]]]]].
    rewrite Hzd in H7. apply attribute_in in H7.
    pose proof (masked_entry_unit _ _ _ _ _ (Hmask _ _ H7)) as Hu.
    injection Hu as <-. reflexivity.
  - destruct (dl2_load_events_inv _ _ _ _ H)
      as [ed [rows [m [ed' [_ [_ [Hmask [Hattr _]]]]]]]].
    destruct Hattr as [_ [_ [_ [_ [_ [_ [H7 _]]]]]]].
    rewrite Hzd in H7. apply attribute_in in H7.
    pose proof (masked_entry_unit _ _ _ _ _ (Hmask _ _ H7)) as Hu.
    injection Hu as <-. reflexivity.
  - destruct (dl3_load_events_inv _ _ _ _ H)
      as [input_file [vars [status [ed [m [ed' [_ [_ [_ [Hmask [Hattr _]]]]]]]]]]].
    destruct Hattr as [_ [_ [_ [_ [_ [_ [H7 _]]]]]]].
    rewrite Hzd in H7. apply attribute_in in H7.
    destruct (dl3_apply_mask_spec _ _ _ Hmask _ _ H7) as [_ Hu].
    injection Hu as <-. reflexivity.
Qed.

End DL3.


Section Loaders.

Context {AP : Astropy} {FS : FileSystem}.

(** C1, where the FITS DL3 loader departs from it: on a table of two events
    whose second energy is NaN, the returned sample keeps both rows in every
    column, the NaN among the energies. *)
Theorem dl3_load_events_keeps_non_finite_rows
  (file_name : string) (cuts : option string) :
  fits_open file_name = Ok [("EVENTS", Demo.nan_energy_events)] ->
  exists out es,
    LstDl3EventFile.load_events file_name cuts = (out, Ok es) /\
    EventSample.event_energy es = Some (mkQuantity [1.5; nan]%float u.TeV) /\
    EventSample.event_ra es = Some (mkQuantity [83.5; 83.7]%float u.deg) /\
    existsb (fun x => negb (numpy.isfinite x))
            (match EventSample.event_energy es with
             | Some q => value q
             | None => []
             end) = true.
Proof.
  intros Hopen. unfold LstDl3EventFile.load_events. rewrite Hopen.
  vm_compute. eexists. eexists. repeat split.
Qed.

(** C2, where the code departs from it: when the FITS file has no [EVENTS]
    extension, the loader prints its two lines and then raises
    [UnboundLocalError]: [event_data] was never bound. *)
Theorem dl3_load_events_raises_without_events
  (file_name : string) (cuts : option string) (input_file : dict HDU) :
  fits_open file_name = Ok input_file ->
  dict_get input_file "EVENTS" = None ->
  LstDl3EventFile.load_events file_name cuts
  = ([ ("Reading file " ++ file_name)%string;
       ("File " ++ file_name ++ " corrupted or missing the Events hdu." ++
        "Empty arrays will be returned.")%string ],
     Raise (UnboundLocalError "event_data")).
Proof.
  intros Hopen Hmissing.
  unfold LstDl3EventFile.load_events. rewrite Hopen. simpl.
  unfold LstDl3EventFile.read_events, getitem. rewrite Hmissing.
  reflexivity.
Qed.

Lemma dl2_load_events_missing_key
  (file_name : string) (cuts : option string) (key : string) :
  read_hdf file_name LstDl2EventFile.table_key = Raise (KeyError key) ->
  LstDl2EventFile.load_events file_name cuts
  = ([dl2_corrupted_message], Ok dl2_empty_sample).
Proof.
  intros Hread. unfold LstDl2EventFile.load_events, LstDl2EventFile.read_table.
  rewrite Hread. reflexivity.
Qed.

Lemma h5_is_not_root (file_name : string) :
  LstDl2EventFile.is_compatible file_name = true ->
  MagicRootEventFile.is_compatible file_name = false.
Proof.
  unfold LstDl2EventFile.is_compatible, MagicRootEventFile.is_compatible.
  intros H. apply String.eqb_eq in H. rewrite H. reflexivity.
Qed.

(** C7, as amended: when [read_hdf] finds no object under the table key, the
    HDF5 loader prints its warning and returns the sample whose columns all
    have length zero; and for a file name that the HDF5 loader accepts and
    whose obs id can be parsed, [RunSummary] is built without an exception,
    its two pointings (and so its times) unset. *)
Theorem dl2_missing_table_key
  (file_name : string) (cuts : option string) (key : string) :
  read_hdf file_name LstDl2EventFile.table_key = Raise (KeyError key) ->
  LstDl2EventFile.load_events file_name cuts
  = ([dl2_corrupted_message], Ok dl2_empty_sample) /\
  (forall id,
     LstDl2EventFile.is_compatible file_name = true ->
     LstDl2EventFile.get_obs_id file_name = Ok id ->
     exists summary,
       RunSummary.init file_name = ([dl2_corrupted_message], Ok summary) /\
       RunSummary.tel_pointing_start summary = None /\
       RunSummary.tel_pointing_stop summary = None /\
       RunSummary.mjd_start summary = Raise AttributeError /\
       RunSummary.mjd_stop summary = Raise AttributeError).
Proof.
  intros Hread. split.
  - exact (dl2_load_events_missing_key _ _ _ Hread).
  - intros id Hh5 Hid. exists RunSummary.unset.
    unfold RunSummary.init, RunSummary.open_events.
    rewrite (h5_is_not_root _ Hh5), Hh5.
    unfold LstDl2EventFile.init. rewrite Hid. simpl.
    rewrite (dl2_load_events_missing_key _ None _ Hread).
    repeat split.
Qed.

(** C10, as amended: when the sample loaded from a file has no event, the
    summary built from it has none of its four attributes set. *)
Theorem run_summary_of_empty_sample
  (name : string) (out : list string) (events : EventFile.t) (mjd : Quantity) :
  RunSummary.open_events name = (out, Ok events) ->
  EventFile.mjd events = Some mjd ->
  length (value mjd) = 0 ->
  exists summary,
    RunSummary.init name = (out, Ok summary) /\
    RunSummary.file_name summary = None /\
    RunSummary.obs_id summary = None /\
    RunSummary.tel_pointing_start summary = None /\
    RunSummary.tel_pointing_stop summary = None.
Proof.
  intros Hopen Hmjd Hlen. exists RunSummary.unset.
  unfold RunSummary.init. rewrite Hopen. simpl.
  unfold RunSummary.of_events. rewrite Hmjd. simpl. rewrite Hlen. simpl.
  rewrite app_nil_r. repeat split.
Qed.

End Loaders.

(** The theorem in the toy world, on [Demo.dl3_name]. *)
Lemma dl3_load_events_keeps_non_finite_rows_witness :
  exists out es,
    @LstDl3EventFile.load_events Demo.astropy Demo.files Demo.dl3_name None
    = (out, Ok es) /\
    EventSample.event_energy es = Some (mkQuantity [1.5; nan]%float u.TeV) /\
    EventSample.event_ra es = Some (mkQuantity [83.5; 83.7]%float u.deg) /\
    existsb (fun x => negb (numpy.isfinite x))
            (match EventSample.event_energy es with
             | Some q => value q
             | None => []
             end) = true.
Proof.
  apply (@dl3_load_events_keeps_non_finite_rows
           Demo.astropy Demo.files Demo.dl3_name None).
  reflexivity.
Defined.

(** The theorem in the toy world, on the file without [EVENTS] extension. *)
Lemma dl3_load_events_raises_without_events_witness :
  @LstDl3EventFile.load_events Demo.astropy Demo.files
                               Demo.dl3_no_events_name None
  = ([ "Reading file dl3_LST-1.Run00008.fits.gz";
       "File dl3_LST-1.Run00008.fits.gz corrupted or missing the Events hdu.Empty arrays will be returned." ],
     Raise (UnboundLocalError "event_data")).
Proof.
  apply (@dl3_load_events_raises_without_events
           Demo.astropy Demo.files Demo.dl3_no_events_name None []).
  - reflexivity.
  - reflexivity.
Defined.

(** A header without the pointing keys fares no better: the loader prints
    the same two lines and raises [KeyError] for the column it did not
    build. *)
Lemma dl3_load_events_raises_without_pointing_keys :
  @LstDl3EventFile.load_events Demo.astropy Demo.files
                               Demo.dl3_no_pointing_name None
  = ([ "Reading file dl3_LST-1.Run00009.fits.gz";
       "File dl3_LST-1.Run00009.fits.gz corrupted or missing the Events hdu.Empty arrays will be returned." ],
     Raise (KeyError "pointing_ra")).
Proof. vm_compute. reflexivity. Qed.

(** The legacy and the HDF5 loader on the same kind of table drop the row,
    as C1 asks. *)
Lemma magic_load_events_drops_non_finite_rows :
  exists out es,
    @MagicRootEventFile.load_events Demo.files Demo.magic_name3 None
    = (out, Ok es) /\
    EventSample.event_energy es = Some (mkQuantity [150; 900]%float u.GeV) /\
    EventSample.delta_t es = Some (mkQuantity [0.002; 0.004]%float u.s).
Proof. eexists. eexists. split; [vm_compute; reflexivity |]. split; reflexivity. Qed.

Lemma dl2_load_events_drops_non_finite_rows :
  exists out es,
    @LstDl2EventFile.load_events Demo.astropy Demo.files Demo.dl2_name3 None
    = (out, Ok es) /\
    EventSample.event_energy es = Some (mkQuantity [0.5; 2]%float u.TeV) /\
    EventSample.delta_t es = Some (mkQuantity [0.001; 0.002]%float u.s).
Proof. eexists. eexists. split; [vm_compute; reflexivity |]. split; reflexivity. Qed.

(** X1 and X2 in the toy world, on the two files of three events. *)
Lemma magic_load_events_clean_witness :
  exists out es,
    @MagicRootEventFile.load_events Demo.files Demo.magic_name3 None
    = (out, Ok es) /\
    Spec.clean es.
Proof.
  eexists. eexists. split; [vm_compute; reflexivity |].
  apply (@magic_load_events_clean Demo.files Demo.magic_name3 None []).
  vm_compute. reflexivity.
Defined.

Lemma dl2_load_events_clean_witness :
  exists out es,
    @LstDl2EventFile.load_events Demo.astropy Demo.files Demo.dl2_name3 None
    = (out, Ok es) /\
    Spec.clean es.
Proof.
  eexists. eexists. split; [vm_compute; reflexivity |].
  apply (@dl2_load_events_clean Demo.astropy Demo.files Demo.dl2_name3 None []).
  vm_compute. reflexivity.
Defined.

(** X3 on a sample whose [delta_t] are zero and negative. *)
Lemma calc_eff_obs_time_none_without_positive_witness :
  EventSample.calc_eff_obs_time
    (Demo.sample [59000; 59000.5]%float [0; -1]%float)
  = Ok None.
Proof.
  apply (calc_eff_obs_time_none_without_positive
           (Demo.sample [59000; 59000.5]%float [0; -1]%float)
           (mkQuantity [59000; 59000.5]%float u.d)
           (mkQuantity [0; -1]%float u.s)).
  - reflexivity.
  - reflexivity.
  - reflexivity.
  - vm_compute. reflexivity.
Defined.

(** The theorem in the toy world, on [Demo.dl2_name]. *)
Lemma dl2_missing_table_key_witness :
  @LstDl2EventFile.load_events Demo.astropy Demo.files Demo.dl2_name None
  = ([dl2_corrupted_message], Ok dl2_empty_sample) /\
  (forall id,
     LstDl2EventFile.is_compatible Demo.dl2_name = true ->
     LstDl2EventFile.get_obs_id Demo.dl2_name = Ok id ->
     exists summary,
       @RunSummary.init Demo.astropy Demo.files Demo.dl2_name
       = ([dl2_corrupted_message], Ok summary) /\
       RunSummary.tel_pointing_start summary = None /\
       RunSummary.tel_pointing_stop summary = None /\
       RunSummary.mjd_start summary = Raise AttributeError /\
       RunSummary.mjd_stop summary = Raise AttributeError).
Proof.
  apply (@dl2_missing_table_key Demo.astropy Demo.files Demo.dl2_name None
                                LstDl2EventFile.table_key).
  reflexivity.
Defined.

(** C7 as it was stated fails on an HDF5 file whose name does not carry an
    obs id: the file is accepted by the HDF5 loader and lacks the table key,
    and [RunSummary] raises the missing-identifier error. *)
Lemma run_summary_of_unnamed_h5_raises :
  LstDl2EventFile.is_compatible "corrupt.h5" = true /\
  @read_hdf Demo.files "corrupt.h5" LstDl2EventFile.table_key
  = Raise (KeyError LstDl2EventFile.table_key) /\
  @RunSummary.init Demo.astropy Demo.files "corrupt.h5"
  = ([], Raise (RuntimeError "Can not find observations ID in corrupt.h5")).
Proof. vm_compute. repeat split. Qed.

(** The theorem in the toy world, on the same file. *)
Lemma run_summary_of_empty_sample_witness :
  exists summary,
    @RunSummary.init Demo.astropy Demo.files Demo.dl2_name
    = ([dl2_corrupted_message], Ok summary) /\
    RunSummary.file_name summary = None /\
    RunSummary.obs_id summary = None /\
    RunSummary.tel_pointing_start summary = None /\
    RunSummary.tel_pointing_stop summary = None.
Proof.
  apply (@run_summary_of_empty_sample
           Demo.astropy Demo.files Demo.dl2_name [dl2_corrupted_message]
           (EventFile.mk Demo.dl2_name 42%Z dl2_empty_sample)
           (mkQuantity [] u.d)).
  - vm_compute. reflexivity.
  - reflexivity.
  - reflexivity.
Defined.

(** C10 as it was stated fails on a file without events: its name is known
    and its obs id is parsed (42), yet the summary holds neither. *)
Lemma run_summary_of_empty_sample_forgets_file :
  LstDl2EventFile.get_obs_id Demo.dl2_name = Ok 42%Z /\
  @RunSummary.open_events Demo.astropy Demo.files Demo.dl2_name
  = ([dl2_corrupted_message],
     Ok (EventFile.mk Demo.dl2_name 42%Z dl2_empty_sample)) /\
  exists summary,
    @RunSummary.init Demo.astropy Demo.files Demo.dl2_name
    = ([dl2_corrupted_message], Ok summary) /\
    RunSummary.file_name summary <> Some Demo.dl2_name /\
    RunSummary.obs_id summary <> Some 42%Z.
Proof.
  split; [vm_compute; reflexivity |].
  split; [vm_compute; reflexivity |].
  exists (@RunSummary.unset Demo.astropy).
  split; [vm_compute; reflexivity |].
  split; discriminate.
Qed.

(** ** RunSummary.to_qtable *)

Section Table.

Context {AP : Astropy}.

(** C4, where the code departs from it: for a run with defined bounds,
    [to_qtable] returns the one-row table of the eleven columns, and its
    column [dec_tel] holds the right ascension of [tel_pointing_start], as
    [ra_tel] does, not the declination. *)
Theorem to_qtable_dec_tel_is_right_ascension
  (self : RunSummary.t) (pstart pstop : SkyCoord.t) :
  RunSummary.tel_pointing_start self = Some pstart ->
  RunSummary.tel_pointing_stop self = Some pstop ->
  exists duration,
    RunSummary.obs_duration self = Ok duration /\
    sunit duration = u.s /\
    RunSummary.to_qtable self
    = Ok (QTable.mk
            [RunSummary.obs_id self]
            [time_mjd (SkyCoord.obstime pstart)]
            [time_mjd (SkyCoord.obstime pstop)]
            [duration]
            [mkScalar (SkyCoord.az pstart) u.deg]
            [mkScalar (SkyCoord.az pstop) u.deg]
            [mkScalar (SkyCoord.alt pstart) u.deg]
            [mkScalar (SkyCoord.alt pstop) u.deg]
            [SkyCoord.ra (SkyCoord.icrs pstart)]
            [SkyCoord.ra (SkyCoord.icrs pstart)]
            [RunSummary.file_name self]).
Proof.
  intros Hstart Hstop.
  unfold RunSummary.to_qtable, RunSummary.obs_duration,
    RunSummary.mjd_start, RunSummary.mjd_stop.
  rewrite Hstart, Hstop. simpl.
  eexists. repeat split.
Qed.

End Table.

(** The theorem on a run of the toy world. *)
Lemma to_qtable_dec_tel_is_right_ascension_witness :
  exists duration,
    RunSummary.obs_duration
      (Demo.run 7 (Demo.position 100 70 59000) (Demo.position 110 65 59000.5))
    = Ok duration /\
    sunit duration = u.s /\
    RunSummary.to_qtable
      (Demo.run 7 (Demo.position 100 70 59000) (Demo.position 110 65 59000.5))
    = Ok (QTable.mk
            [Some 7%Z] [59000%float] [59000.5%float] [duration]
            [mkScalar 100 u.deg] [mkScalar 110 u.deg]
            [mkScalar 70 u.deg] [mkScalar 65 u.deg]
            [mkScalar 100 u.deg] [mkScalar 100 u.deg]
            [Some "run"]).
Proof.
  apply (@to_qtable_dec_tel_is_right_ascension Demo.astropy
           (Demo.run 7 (Demo.position 100 70 59000)
                       (Demo.position 110 65 59000.5))
           (Demo.position 100 70 59000) (Demo.position 110 65 59000.5)).
  - reflexivity.
  - reflexivity.
Defined.

(** In the toy world the declination of that start pointing is 70 degrees;
    the table says 100, the right ascension. *)
Lemma to_qtable_dec_tel_is_not_the_declination :
  SkyCoord.dec (SkyCoord.icrs (Demo.position 100 70 59000))
  = mkScalar 70 u.deg /\
  exists table,
    RunSummary.to_qtable
      (Demo.run 7 (Demo.position 100 70 59000) (Demo.position 110 65 59000.5))
    = Ok table /\
    QTable.dec_tel table = [mkScalar 100 u.deg].
Proof.
  split; [reflexivity |]. eexists. split; vm_compute; reflexivity.
Qed.

(** ** find_run_neighbours *)

Section NeighbourProperties.

Context {AP : Astropy}.

Lemma lt_days (time_delta : Scalar) (x : float) :
  u.physical (sunit time_delta) = u.time ->
  exists b, quantity.lt (mkScalar x u.d) time_delta = Ok b.
Proof.
  intros H. destruct (time_to_days _ H) as [f Hf].
  unfold quantity.lt, u.convert. simpl. rewrite Hf. simpl.
  eexists. reflexivity.
Qed.

Lemma lt_degrees (pointing_delta : Scalar) (x : float) :
  u.physical (sunit pointing_delta) = u.angle ->
  exists b, quantity.lt (mkScalar x u.deg) pointing_delta = Ok b.
Proof.
  intros H. destruct (angle_to_deg _ H) as [f [Hf _]].
  unfold quantity.lt, u.convert. simpl. rewrite Hf. simpl.
  eexists. reflexivity.
Qed.

Lemma bounded_pointings (r : RunSummary.t) :
  bounded r ->
  exists pstart pstop,
    RunSummary.tel_pointing_start r = Some pstart /\
    RunSummary.tel_pointing_stop r = Some pstop.
Proof.
  intros [Hs He].
  destruct (RunSummary.tel_pointing_start r) as [ps |];
    [| contradiction Hs; reflexivity].
  destruct (RunSummary.tel_pointing_stop r) as [pe |];
    [| contradiction He; reflexivity].
  exists ps, pe. split; reflexivity.
Qed.

(** On runs with bounds the first [lambda] returns, and it says whether the
    candidate passes filter 1. *)
Lemma near_in_time_decides (target c : RunSummary.t) (time_delta : Scalar) :
  bounded target -> bounded c ->
  u.physical (sunit time_delta) = u.time ->
  exists b, near_in_time target time_delta c = Ok b /\
            (b = true <-> temporal target c time_delta).
Proof.
  intros Ht Hc Htime.
  destruct (bounded_pointings _ Ht) as [ts [te [Hts Hte]]].
  destruct (bounded_pointings _ Hc) as [cs [ce [Hcs Hce]]].
  unfold near_in_time, temporal, RunSummary.mjd_start, RunSummary.mjd_stop.
  rewrite Hts, Hte, Hcs, Hce. simpl.
  set (c_start := time_mjd (SkyCoord.obstime cs)).
  set (c_stop := time_mjd (SkyCoord.obstime ce)).
  set (t_start := time_mjd (SkyCoord.obstime ts)).
  set (t_stop := time_mjd (SkyCoord.obstime te)).
  unfold within.
  destruct (lt_days time_delta (PrimFloat.abs (c_start - t_stop)) Htime)
    as [b1 H1].
  destruct (lt_days time_delta (PrimFloat.abs (c_stop - t_start)) Htime)
    as [b2 H2].
  rewrite H1. simpl. destruct b1.
  - exists true. split; [reflexivity |]. split; [| reflexivity].
    intros _. exists c_start, c_stop, t_start, t_stop.
    repeat split. left. exact H1.
  - exists b2. split; [exact H2 |]. split.
    + intros ->. exists c_start, c_stop, t_start, t_stop.
      repeat split. right. exact H2.
    + intros [x1 [x2 [x3 [x4 [E1 [E2 [E3 [E4 Hor]]]]]]]].
      injection E1 as <-. injection E2 as <-.
      injection E3 as <-. injection E4 as <-.
      destruct Hor as [Hl | Hr].
      * rewrite H1 in Hl. discriminate Hl.
      * rewrite H2 in Hr. injection Hr as ->. reflexivity.
Qed.

(** Likewise the second [lambda] and filter 2. *)
Lemma near_in_pointing_decides
  (target c : RunSummary.t) (pointing_delta : Scalar) :
  bounded target -> bounded c ->
  u.physical (sunit pointing_delta) = u.angle ->
  exists b, near_in_pointing target pointing_delta c = Ok b /\
            (b = true <-> aligned target c pointing_delta).
Proof.
  intros Ht Hc Hangle.
  destruct (bounded_pointings _ Ht) as [ts [te [Hts Hte]]].
  destruct (bounded_pointings _ Hc) as [cs [ce [Hcs Hce]]].
  unfold near_in_pointing, aligned. rewrite Hts, Hcs. simpl.
  destruct (lt_degrees pointing_delta
              (separation (SkyCoord.icrs ts) (SkyCoord.icrs cs)) Hangle)
    as [b Hb].
  exists b. split; [exact Hb |]. split.
  - intros ->. exists ts, cs. repeat split. exact Hb.
  - intros [x1 [x2 [E1 [E2 Hlt]]]].
    injection E1 as <-. injection E2 as <-.
    rewrite Hb in Hlt. injection Hlt as ->. reflexivity.
Qed.

(** Two chained lazy filters whose predicates return on every element
    collect what [List.filter] collects with their conjunction. *)
Lemma tuple_of_two_filters {A : Type} (p q : A -> result bool)
  (keep : A -> bool) (l : list A) :
  (forall x, In x l ->
     exists b c, p x = Ok b /\ q x = Ok c /\ keep x = (b && c)%bool) ->
  tuple (pyfilter q (pyfilter p (iter l))) = Ok (filter keep l).
Proof.
  induction l as [| x l IH]; intros H; simpl.
  - reflexivity.
  - destruct (H x (or_introl eq_refl)) as [b [c [Hp [Hq Hk]]]].
    assert (IH' : tuple (pyfilter q (pyfilter p (iter l))) = Ok (filter keep l)).
    { apply IH. intros y Hy. apply H. right. exact Hy. }
    rewrite Hp, Hk. destruct b; simpl.
    + rewrite Hq. destruct c; simpl.
      * fold (iter l). rewrite IH'. reflexivity.
      * exact IH'.
    + exact IH'.
Qed.

(** C5, as amended: when the target and every candidate have defined bounds
    (and [time_delta] is a duration, [pointing_delta] an angle),
    [find_run_neighbours] returns the candidates that pass both filters, in
    the order of the input, and so at most as many as there are
    candidates. *)
Theorem find_run_neighbours_spec
  (target : RunSummary.t) (run_list : list RunSummary.t)
  (time_delta pointing_delta : Scalar) :
  bounded target ->
  Forall bounded run_list ->
  u.physical (sunit time_delta) = u.time ->
  u.physical (sunit pointing_delta) = u.angle ->
  exists keep : RunSummary.t -> bool,
    (forall c, In c run_list ->
       (keep c = true <->
        temporal target c time_delta /\ aligned target c pointing_delta)) /\
    find_run_neighbours target run_list time_delta pointing_delta
    = Ok (filter keep run_list) /\
    length (filter keep run_list) <= length run_list.
Proof.
  intros Ht Hl Htime Hangle.
  exists (keeps target time_delta pointing_delta).
  assert (Hdec : forall c, In c run_list ->
            exists b1 b2,
              near_in_time target time_delta c = Ok b1 /\
              near_in_pointing target pointing_delta c = Ok b2 /\
              (b1 = true <-> temporal target c time_delta) /\
              (b2 = true <-> aligned target c pointing_delta)).
  { intros c Hc. rewrite Forall_forall in Hl.
    destruct (near_in_time_decides target c time_delta Ht (Hl c Hc) Htime)
      as [b1 [H1 E1]].
    destruct (near_in_pointing_decides target c pointing_delta Ht (Hl c Hc)
                                       Hangle) as [b2 [H2 E2]].
    exists b1, b2. repeat split; try assumption; try apply E1; try apply E2. }
  split; [| split].
  - intros c Hin. destruct (Hdec c Hin) as [b1 [b2 [H1 [H2 [E1 E2]]]]].
    unfold keeps. rewrite H1, H2. split.
    + intros Hk. split.
      * apply E1. destruct b1; [reflexivity | discriminate Hk].
      * apply E2. destruct b1, b2; try reflexivity; discriminate Hk.
    + intros [Htemp Halign].
      apply E1 in Htemp. apply E2 in Halign. subst. reflexivity.
  - unfold find_run_neighbours. apply tuple_of_two_filters.
    intros c Hc. destruct (Hdec c Hc) as [b1 [b2 [H1 [H2 _]]]].
    exists b1, b2. repeat split; try assumption.
    unfold keeps. rewrite H1, H2. destruct b1, b2; reflexivity.
  - apply filter_length_le.
Qed.

End NeighbourProperties.

(** The theorem on the four runs of the toy world, with half an hour and one
    degree. *)
Lemma find_run_neighbours_spec_witness :
  exists keep : RunSummary.t -> bool,
    (forall c,
       In c [Demo.following_run; Demo.elsewhere_run; Demo.later_run] ->
       (keep c = true <->
        temporal Demo.target_run c (mkScalar 30 u.min) /\
        aligned Demo.target_run c (mkScalar 1 u.deg))) /\
    find_run_neighbours Demo.target_run
      [Demo.following_run; Demo.elsewhere_run; Demo.later_run]
      (mkScalar 30 u.min) (mkScalar 1 u.deg)
    = Ok (filter keep
                 [Demo.following_run; Demo.elsewhere_run; Demo.later_run]) /\
    length (filter keep
                   [Demo.following_run; Demo.elsewhere_run; Demo.later_run])
    <= length [Demo.following_run; Demo.elsewhere_run; Demo.later_run].
Proof.
  apply (@find_run_neighbours_spec Demo.astropy Demo.target_run
           [Demo.following_run; Demo.elsewhere_run; Demo.later_run]
           (mkScalar 30 u.min) (mkScalar 1 u.deg)).
  - split; discriminate.
  - repeat constructor; discriminate.
  - reflexivity.
  - reflexivity.
Defined.

(** In that example only the run that follows in the same direction is a
    neighbour. *)
Lemma find_run_neighbours_example :
  find_run_neighbours Demo.target_run
    [Demo.following_run; Demo.elsewhere_run; Demo.later_run]
    (mkScalar 30 u.min) (mkScalar 1 u.deg)
  = Ok [Demo.following_run].
Proof. vm_compute. reflexivity. Qed.

(** C5 as it was stated fails on a candidate without bounds, such as the
    summary of a file without events: the search raises [AttributeError]
    and returns nothing. *)
Lemma find_run_neighbours_raises_on_unset_candidate :
  @RunSummary.init Demo.astropy Demo.files Demo.dl2_name
  = ([dl2_corrupted_message], Ok RunSummary.unset) /\
  find_run_neighbours Demo.target_run [RunSummary.unset; Demo.following_run]
                      (mkScalar 30 u.min) (mkScalar 1 u.deg)
  = Raise AttributeError.
Proof. split; vm_compute; reflexivity. Qed.

(** * Further properties *)

Lemma Ok_inj {A : Type} (a b : A) : Ok a = Ok b -> a = b.
Proof. intros H. injection H as H. exact H. Qed.

(** ** argmin and argmax *)

Section Scan.

Variables le lt : float -> float -> bool.

Hypothesis le_total : forall x y,
  PrimFloat.is_nan x = false -> PrimFloat.is_nan y = false ->
  le x y = false -> lt y x = true.
Hypothesis lt_le : forall x y, lt x y = true -> le x y = true.
Hypothesis lt_le_trans : forall x y z,
  lt x y = true -> le y z = true -> lt x z = true.
Hypothesis le_refl : forall x, PrimFloat.is_nan x = false -> le x x = true.

(** The scan keeps the index of the first least value among those it has
    seen ([pre]), for any order that is total away from NaN. *)
Lemma argbest_extreme (a : numpy.ndarray) :
  forall pre best bv,
    nth_error pre best = Some bv ->
    PrimFloat.is_nan bv = false ->
    no_nan a ->
    (forall y, In y pre -> le bv y = true) ->
    (forall j y, j < best -> nth_error pre j = Some y -> lt bv y = true) ->
    first_extreme le lt (pre ++ a)
      (numpy.argbest (fun x bv => le bv x) best bv (length pre) a).
Proof.
  induction a as [| x a IH]; intros pre best bv Hbest Hbv Ha Hle Hlt.
  - simpl. rewrite Hbv. rewrite app_nil_r. exists bv. repeat split; assumption.
  - simpl. rewrite Hbv. inversion Ha as [| x' a' Hx Ha']; subst.
    assert (Hlen : best < length pre).
    { apply nth_error_Some. rewrite Hbest. discriminate. }
    replace (pre ++ x :: a) with ((pre ++ [x]) ++ a)
      by (rewrite <- app_assoc; reflexivity).
    replace (S (length pre)) with (length (pre ++ [x]))
      by (rewrite length_app; simpl; lia).
    destruct (le bv x) eqn:E.
    + apply IH; try assumption.
      * rewrite nth_error_app1 by exact Hlen. exact Hbest.
      * intros y Hy. apply in_app_or in Hy. destruct Hy as [Hy | [<- | []]].
        -- apply Hle, Hy.
        -- exact E.
      * intros j y Hj Hy. rewrite nth_error_app1 in Hy by lia.
        exact (Hlt j y Hj Hy).
    + pose proof (le_total bv x Hbv Hx E) as Hxb.
      apply IH; try assumption.
      * rewrite nth_error_app2 by lia. rewrite Nat.sub_diag. reflexivity.
      * intros y Hy. apply in_app_or in Hy. destruct Hy as [Hy | [<- | []]].
        -- apply lt_le. exact (lt_le_trans _ _ _ Hxb (Hle y Hy)).
        -- apply le_refl, Hx.
      * intros j y Hj Hy. rewrite nth_error_app1 in Hy by exact Hj.
        apply nth_error_In in Hy.
        exact (lt_le_trans _ _ _ Hxb (Hle y Hy)).
Qed.

End Scan.

(** The index that the scan returns is one it has visited. *)
Lemma argbest_bound (worse : float -> float -> bool) (a : numpy.ndarray) :
  forall best bv i, best < i ->
    numpy.argbest worse best bv i a < i + length a.
Proof.
  induction a as [| x a IH]; intros best bv i H; simpl.
  - destruct (PrimFloat.is_nan bv); lia.
  - destruct (PrimFloat.is_nan bv); [lia |].
    destruct (worse x bv).
    + specialize (IH best bv (S i)). lia.
    + specialize (IH i x (S i)). lia.
Qed.

Lemma argmin_bound (a : numpy.ndarray) :
  a <> [] -> exists i, numpy.argmin a = Ok i /\ i < length a.
Proof.
  destruct a as [| x a]; [intros H; contradiction H; reflexivity |].
  intros _. eexists. split; [reflexivity |].
  simpl. pose proof (argbest_bound (fun x bv => PrimFloat.leb bv x) a 0 x 1).
  simpl in H. apply H. lia.
Qed.

Lemma argmax_bound (a : numpy.ndarray) :
  a <> [] -> exists i, numpy.argmax a = Ok i /\ i < length a.
Proof.
  destruct a as [| x a]; [intros H; contradiction H; reflexivity |].
  intros _. eexists. split; [reflexivity |].
  simpl. pose proof (argbest_bound (fun x bv => PrimFloat.leb x bv) a 0 x 1).
  simpl in H. apply H. lia.
Qed.

(** Without NaN, [argmin] is the first index of a least value and [argmax]
    the first index of a greatest one. *)
Lemma argmin_first_minimum (a : numpy.ndarray) (i : nat) :
  no_nan a -> numpy.argmin a = Ok i ->
  first_extreme PrimFloat.leb PrimFloat.ltb a i.
Proof.
  destruct a as [| x a]; [discriminate |].
  intros Hnan H. injection H as <-.
  inversion Hnan as [| x' a' Hx Ha]; subst.
  apply (argbest_extreme PrimFloat.leb PrimFloat.ltb
           leb_total ltb_leb ltb_leb_trans leb_refl a [x] 0 x);
    try assumption; try reflexivity.
  - intros y [<- | []]. apply leb_refl, Hx.
  - intros j y Hj. lia.
Qed.

Lemma argmax_first_maximum (a : numpy.ndarray) (i : nat) :
  no_nan a -> numpy.argmax a = Ok i ->
  first_extreme (fun x y => PrimFloat.leb y x) (fun x y => PrimFloat.ltb y x)
                a i.
Proof.
  destruct a as [| x a]; [discriminate |].
  intros Hnan H. injection H as <-.
  inversion Hnan as [| x' a' Hx Ha]; subst.
  apply (argbest_extreme (fun x y => PrimFloat.leb y x)
                         (fun x y => PrimFloat.ltb y x)
           (fun u v Hu Hv H => leb_total v u Hv Hu H)
           (fun u v H => ltb_leb v u H)
           (fun u v w H1 H2 => leb_ltb_trans w v u H2 H1)
           leb_refl a [x] 0 x);
    try assumption; try reflexivity.
  - intros y [<- | []]. apply leb_refl, Hx.
  - intros j y Hj. lia.
Qed.

(** ** RunSummary from an event file *)

Lemma item_inv (q : Quantity) (i : nat) (x : Scalar) :
  quantity.item q i = Ok x ->
  nth_error (value q) i = Some (sval x) /\ sunit x = unit q.
Proof.
  unfold quantity.item, numpy.item.
  destruct (nth_error (value q) i) as [y |]; simpl; [| discriminate].
  intros H. injection H as <-. split; reflexivity.
Qed.

Lemma item_ok (q : Quantity) (i : nat) :
  i < length (value q) ->
  exists x, quantity.item q i = Ok (mkScalar x (unit q)) /\
            nth_error (value q) i = Some x.
Proof.
  intros H. unfold quantity.item, numpy.item.
  destruct (nth_error (value q) i) as [y |] eqn:E.
  - exists y. split; reflexivity.
  - apply nth_error_None in E. lia.
Qed.

Lemma take_two_inv (q : Quantity) (i j : nat) (r : Quantity) :
  quantity.take q [i; j] = Ok r ->
  exists x y,
    nth_error (value q) i = Some x /\ nth_error (value q) j = Some y /\
    r = mkQuantity [x; y] (unit q).
Proof.
  unfold quantity.take. cbn [numpy.take]. unfold numpy.item.
  destruct (nth_error (value q) i) as [x |]; [| discriminate].
  destruct (nth_error (value q) j) as [y |]; [| discriminate].
  simpl. intros H. injection H as <-. exists x, y. repeat split.
Qed.

Lemma take_two_ok (q : Quantity) (i j : nat) :
  i < length (value q) -> j < length (value q) ->
  exists x y,
    nth_error (value q) i = Some x /\ nth_error (value q) j = Some y /\
    quantity.take q [i; j] = Ok (mkQuantity [x; y] (unit q)).
Proof.
  intros Hi Hj. unfold quantity.take. cbn [numpy.take]. unfold numpy.item.
  destruct (nth_error (value q) i) as [x |] eqn:Ei;
    [| apply nth_error_None in Ei; lia].
  destruct (nth_error (value q) j) as [y |] eqn:Ej;
    [| apply nth_error_None in Ej; lia].
  exists x, y. repeat split.
Qed.

(** The coordinates of two instants, from azimuths and altitudes in
    degrees: a [ValueError] when an altitude is off the sphere, and else the
    azimuths as [Longitude] wraps them, with the altitudes as they are. *)
Lemma make_two_degrees {AP : Astropy} (a b c d : float) (t1 t2 : Time) :
  exists a' b',
    Longitude [a; b] u.deg = [a'; b'] /\
    SkyCoord.make (mkQuantity [a; b] u.deg) (mkQuantity [c; d] u.deg) [t1; t2]
    = if (SkyCoord.outside 90 c || SkyCoord.outside 90 d)%bool
      then Raise ValueError
      else Ok [SkyCoord.mk a' c t1; SkyCoord.mk b' d t2].
Proof.
  pose proof (Longitude_length [a; b] u.deg) as Hlen.
  destruct (Longitude [a; b] u.deg) as [| a' [| b' [| z l]]] eqn:E;
    try discriminate Hlen.
  exists a', b'. split; [reflexivity |].
  unfold SkyCoord.make, quantity.to_value, quantity.times, u.convert.
  cbn [value unit u.converter u.eqb bind map existsb]. rewrite E.
  cbn [map]. rewrite orb_false_r.
  destruct (SkyCoord.outside 90 c || SkyCoord.outside 90 d)%bool;
    reflexivity.
Qed.

Lemma to_unit (q : Quantity) (x : u.unit) (r : Quantity) :
  quantity.to q x = Ok r -> unit r = x /\ length (value r) = length (value q).
Proof.
  unfold quantity.to, quantity.to_value. intros H.
  step H v Hv. step Hv f Hf. injection Hv as <-. injection H as <-.
  simpl. split; [reflexivity | apply length_map].
Qed.

Lemma pointing_az_unit (events : EventFile.t) (az : Quantity) :
  EventFile.pointing_az events = Ok az ->
  unit az = u.deg /\
  exists q, EventSample.pointing_az (EventFile.events events) = Some q /\
            length (value az) = length (value q).
Proof.
  unfold EventFile.pointing_az.
  destruct (EventSample.pointing_az (EventFile.events events)) as [q |];
    [| discriminate].
  intros H. apply to_unit in H. destruct H as [H1 H2].
  split; [exact H1 |]. exists q. split; [reflexivity | exact H2].
Qed.

Lemma pointing_alt_unit (events : EventFile.t) (alt : Quantity) :
  EventFile.pointing_alt events = Ok alt ->
  unit alt = u.deg /\
  exists q, EventSample.pointing_zd (EventFile.events events) = Some q /\
            length (value alt) = length (value q).
Proof.
  unfold EventFile.pointing_alt, EventSample.pointing_alt.
  destruct (EventSample.pointing_zd (EventFile.events events)) as [q |];
    [| discriminate].
  unfold quantity.rsub, quantity.to_value. intros H.
  step H v Hv. step Hv f Hf. injection Hv as <-. injection H as <-.
  simpl. split; [reflexivity |]. exists q. split; [reflexivity |].
  rewrite !length_map. reflexivity.
Qed.

Section Summary.

Context {AP : Astropy}.

(** X15: when the times of an event file hold no NaN and [RunSummary] is
    built from it, the start pointing is that of the first earliest event
    and the stop pointing that of the first latest one: its altitude is the
    altitude of that very event, which lies within 90 degrees of the
    horizon; its azimuth is what [Longitude] makes of the azimuths of these
    two events; its time is the time of the event in days. *)
Theorem run_summary_bounds_are_extreme_events
  (name : string) (events : EventFile.t) (mjd : Quantity) (s : RunSummary.t) :
  EventFile.mjd events = Some mjd ->
  value mjd <> [] ->
  no_nan (value mjd) ->
  RunSummary.of_events name events = Ok s ->
  exists i_min i_max t_min t_max to_days az alt az_min az_max pstart pstop,
    first_minimum (value mjd) i_min /\
    first_maximum (value mjd) i_max /\
    nth_error (value mjd) i_min = Some t_min /\
    nth_error (value mjd) i_max = Some t_max /\
    u.converter (unit mjd) u.d = Ok to_days /\
    EventFile.pointing_az events = Ok az /\
    EventFile.pointing_alt events = Ok alt /\
    nth_error (value az) i_min = Some az_min /\
    nth_error (value az) i_max = Some az_max /\
    Longitude [az_min; az_max] u.deg
    = [SkyCoord.az pstart; SkyCoord.az pstop] /\
    nth_error (value alt) i_min = Some (SkyCoord.alt pstart) /\
    nth_error (value alt) i_max = Some (SkyCoord.alt pstop) /\
    SkyCoord.outside 90 (SkyCoord.alt pstart) = false /\
    SkyCoord.outside 90 (SkyCoord.alt pstop) = false /\
    SkyCoord.obstime pstart = Time_mjd (to_days t_min) /\
    SkyCoord.obstime pstop = Time_mjd (to_days t_max) /\
    s = RunSummary.mk (Some (EventFile.obs_id events)) (Some name)
                      (Some pstart) (Some pstop).
Proof.
  intros Hmjd Hne Hnan H. unfold RunSummary.of_events in H.
  rewrite Hmjd in H. simpl in H.
  destruct (Nat.eqb (length (value mjd)) 0) eqn:Elen.
  { apply Nat.eqb_eq, length_zero_iff_nil in Elen. contradiction. }
  simpl in H.
  step H i_min Hmin. step H i_max Hmax.
  step H days Hdays. step Hdays sel Hsel.
  step H az Haz. step H az_sel Haz_sel.
  step H alt Halt. step H alt_sel Halt_sel.
  step H coords Hcoords.
  destruct (take_two_inv _ _ _ _ Hsel) as (t_min & t_max & Ht_min & Ht_max & ->).
  destruct (take_two_inv _ _ _ _ Haz_sel)
    as (az_min & az_max & Haz_min & Haz_max & ->).
  destruct (take_two_inv _ _ _ _ Halt_sel)
    as (alt_min & alt_max & Halt_min & Halt_max & ->).
  destruct (pointing_az_unit _ _ Haz) as [Uaz _].
  destruct (pointing_alt_unit _ _ Halt) as [Ualt _].
  rewrite Uaz, Ualt in Hcoords.
  unfold quantity.to_value in Hdays. cbn [value unit] in Hdays.
  destruct (u.converter (unit mjd) u.d) as [to_days |] eqn:Hconv;
    [| discriminate Hdays].
  cbn [bind map] in Hdays. apply Ok_inj in Hdays. subst days.
  cbn [map] in Hcoords.
  destruct (make_two_degrees az_min az_max alt_min alt_max
              (Time_mjd (to_days t_min)) (Time_mjd (to_days t_max)))
    as (a1 & a2 & Hlon & Hmake).
  rewrite Hmake in Hcoords.
  destruct (SkyCoord.outside 90 alt_min) eqn:Omin; [discriminate Hcoords |].
  destruct (SkyCoord.outside 90 alt_max) eqn:Omax; [discriminate Hcoords |].
  cbn [orb] in Hcoords. apply Ok_inj in Hcoords. subst coords.
  apply Ok_inj in H. subst s.
  exists i_min, i_max, t_min, t_max, to_days, az, alt, az_min, az_max.
  eexists. eexists.
  split; [exact (argmin_first_minimum _ _ Hnan Hmin) |].
  split; [exact (argmax_first_maximum _ _ Hnan Hmax) |].
  cbn [SkyCoord.az SkyCoord.alt SkyCoord.obstime].
  repeat split; try assumption; reflexivity.
Qed.

(** What [RunSummary] makes of an event file with events, whose times,
    azimuths and zenith distances have one length and the units of a time
    and of two angles: a [ValueError] when the altitude of the earliest or of
    the latest event is off the sphere, and both bounds otherwise. *)
Lemma of_events_outcome
  (name : string) (events : EventFile.t) (mjd az zd : Quantity) :
  EventFile.mjd events = Some mjd ->
  EventSample.pointing_az (EventFile.events events) = Some az ->
  EventSample.pointing_zd (EventFile.events events) = Some zd ->
  u.physical (unit mjd) = u.time ->
  u.physical (unit az) = u.angle ->
  u.physical (unit zd) = u.angle ->
  length (value az) = length (value mjd) ->
  length (value zd) = length (value mjd) ->
  value mjd <> [] ->
  exists i_min i_max alt alt_min alt_max,
    numpy.argmin (value mjd) = Ok i_min /\
    numpy.argmax (value mjd) = Ok i_max /\
    EventFile.pointing_alt events = Ok alt /\
    nth_error (value alt) i_min = Some alt_min /\
    nth_error (value alt) i_max = Some alt_max /\
    ((SkyCoord.outside 90 alt_min || SkyCoord.outside 90 alt_max)%bool = true ->
     RunSummary.of_events name events = Raise ValueError) /\
    ((SkyCoord.outside 90 alt_min || SkyCoord.outside 90 alt_max)%bool = false ->
     exists pstart pstop,
       RunSummary.of_events name events
       = Ok (RunSummary.mk (Some (EventFile.obs_id events)) (Some name)
                           (Some pstart) (Some pstop))).
Proof.
  intros Hmjd Haz Hzd Umjd Uaz Uzd Laz Lzd Hne.
  destruct (argmin_bound _ Hne) as [i_min [Hmin Bmin]].
  destruct (argmax_bound _ Hne) as [i_max [Hmax Bmax]].
  destruct (time_to_days _ Umjd) as [to_days Hdays].
  destruct (angle_to_deg _ Uaz) as [f [Hf _]].
  destruct (angle_to_deg _ Uzd) as [g [Hg _]].
  set (alt := mkQuantity (map (fun x => (90 - x)%float) (map g (value zd)))
                         u.deg).
  assert (Halt : EventFile.pointing_alt events = Ok alt).
  { unfold EventFile.pointing_alt, EventSample.pointing_alt.
    rewrite Hzd. unfold quantity.rsub, quantity.to_value.
    cbn [sunit sval]. rewrite Hg. reflexivity. }
  assert (Haz' : EventFile.pointing_az events
                 = Ok (mkQuantity (map f (value az)) u.deg)).
  { unfold EventFile.pointing_az. rewrite Haz.
    unfold quantity.to, quantity.to_value. rewrite Hf. reflexivity. }
  destruct (take_two_ok mjd i_min i_max Bmin Bmax)
    as (t_min & t_max & _ & _ & Hsel).
  destruct (take_two_ok (mkQuantity (map f (value az)) u.deg) i_min i_max)
    as (az_min & az_max & _ & _ & Haz_sel);
    [cbn [value]; rewrite length_map; lia
    | cbn [value]; rewrite length_map; lia |].
  destruct (take_two_ok alt i_min i_max)
    as (alt_min & alt_max & Halt_min & Halt_max & Halt_sel);
    [unfold alt; cbn [value]; rewrite !length_map; lia
    | unfold alt; cbn [value]; rewrite !length_map; lia |].
  destruct (make_two_degrees az_min az_max alt_min alt_max
              (Time_mjd (to_days t_min)) (Time_mjd (to_days t_max)))
    as (a1 & a2 & _ & Hmake).
  exists i_min, i_max, alt, alt_min, alt_max.
  do 5 (split; [assumption |]).
  assert (Hrun : RunSummary.of_events name events
            = if (SkyCoord.outside 90 alt_min
                  || SkyCoord.outside 90 alt_max)%bool
              then Raise ValueError
              else Ok (RunSummary.mk (Some (EventFile.obs_id events))
                         (Some name)
                         (Some (SkyCoord.mk a1 alt_min
                                  (Time_mjd (to_days t_min))))
                         (Some (SkyCoord.mk a2 alt_max
                                  (Time_mjd (to_days t_max)))))).
  { unfold RunSummary.of_events. rewrite Hmjd. cbn [bind].
    destruct (Nat.eqb (length (value mjd)) 0) eqn:Elen.
    { apply Nat.eqb_eq, length_zero_iff_nil in Elen. contradiction. }
    cbn [negb]. rewrite Hmin, Hmax. cbn [bind]. rewrite Hsel. cbn [bind].
    unfold quantity.to_value at 1. cbn [value unit]. rewrite Hdays.
    cbn [bind map]. rewrite Haz'. cbn [bind]. rewrite Haz_sel. cbn [bind].
    rewrite Halt. cbn [bind]. rewrite Halt_sel. cbn [bind].
    cbn [unit] in Hmake. unfold alt at 1. cbn [unit]. rewrite Hmake.
    destruct (SkyCoord.outside 90 alt_min || SkyCoord.outside 90 alt_max)%bool;
      reflexivity. }
  split; intros E; rewrite E in Hrun; [exact Hrun |].
  eexists. eexists. exact Hrun.
Qed.

End Summary.

(** ** get_obs_id of the HDF5 and the FITS loader *)

Lemma int_digits_nonneg (l : list ascii) :
  forall acc n, (0 <= acc)%Z -> int_digits acc l = Ok n -> (0 <= n)%Z.
Proof.
  induction l as [| c l IH]; intros acc n Hacc H; cbn [int_digits] in H.
  - injection H as <-. exact Hacc.
  - destruct (is_digit c); [| discriminate H].
    eapply IH; [| exact H]. lia.
Qed.

Lemma int_nonneg (l : list ascii) (n : Z) : int l = Ok n -> (0 <= n)%Z.
Proof.
  unfold int. destruct l as [| c l]; [discriminate |].
  apply int_digits_nonneg. lia.
Qed.

(** What the three [get_obs_id] share: a function that takes the first group
    that [findall] returns for a pattern whose group is a run of digits. *)
Lemma get_obs_id_by_pattern (p : re.pattern) (get_obs_id : string -> result Z) :
  (forall file_name,
     get_obs_id file_name = match re.findall p file_name with
                            | parsed0 :: _ => int parsed0
                            | [] => Raise (missing_obs_id file_name)
                            end) ->
  (forall w g, Spec.captures p [] w g -> forallb is_digit g = true /\ g <> []) ->
  forall file_name,
    (raises (get_obs_id file_name) <-> ~ Spec.occurs p (chars file_name)) /\
    (~ Spec.occurs p (chars file_name) ->
     get_obs_id file_name = Raise (missing_obs_id file_name)) /\
    (Spec.occurs p (chars file_name) ->
     exists pre w post g n,
       chars file_name = pre ++ w ++ post /\
       Spec.captures p [] w g /\
       forallb is_digit g = true /\ g <> [] /\
       int g = Ok n /\ (0 <= n)%Z /\
       get_obs_id file_name = Ok n).
Proof.
  intros Hdef Hgroup file_name.
  assert (Hmiss : ~ Spec.occurs p (chars file_name) ->
                  get_obs_id file_name = Raise (missing_obs_id file_name)).
  { intros H. rewrite Hdef. apply findall_nil_iff in H. rewrite H. reflexivity. }
  assert (Hfound : Spec.occurs p (chars file_name) ->
            exists pre w post g n,
              chars file_name = pre ++ w ++ post /\
              Spec.captures p [] w g /\
              forallb is_digit g = true /\ g <> [] /\
              int g = Ok n /\ (0 <= n)%Z /\
              get_obs_id file_name = Ok n).
  { intros H.
    destruct (findall_head _ _ H) as [pre [w [post [g [others [E [Hcap Hf]]]]]]].
    destruct (Hgroup _ _ Hcap) as [Hdigits Hne].
    destruct (int_ok _ Hdigits Hne) as [n Hn].
    exists pre, w, post, g, n. repeat split; try assumption.
    - exact (int_nonneg _ _ Hn).
    - rewrite Hdef, Hf. exact Hn. }
  split; [| split; assumption].
  split.
  - intros Hraise Hocc.
    destruct (Hfound Hocc) as [pre [w [post [g [n [_ [_ [_ [_ [_ [_ Hok]]]]]]]]]]].
    apply (returns_not_raises (get_obs_id file_name)).
    + exists n. exact Hok.
    + exact Hraise.
  - intros H. exists (missing_obs_id file_name). apply Hmiss, H.
Qed.

Lemma dl2_group_text (w g : list ascii) :
  Spec.captures LstDl2EventFile.obs_id_pattern [] w g ->
  forallb is_digit g = true /\ g <> [].
Proof.
  intros Hcap.
  assert (Hex : existsb re.group LstDl2EventFile.obs_id_pattern = true)
    by reflexivity.
  destruct (captures_of_group _ _ _ _ Hex Hcap) as [a [Hin [Hg [Hall Hq]]]].
  assert (Ha : re.accepts a = re.digit /\ re.quant a = re.Plus).
  { simpl in Hin.
    repeat (destruct Hin as [<- | Hin]; [try discriminate Hg |]);
      try contradiction Hin.
    split; reflexivity. }
  destruct Ha as [Ha Hplus].
  rewrite Ha in Hall. rewrite Hplus in Hq. split; assumption.
Qed.

Lemma dl3_group_text (w g : list ascii) :
  Spec.captures LstDl3EventFile.obs_id_pattern [] w g ->
  forallb is_digit g = true /\ g <> [].
Proof.
  intros Hcap.
  assert (Hex : existsb re.group LstDl3EventFile.obs_id_pattern = true)
    by reflexivity.
  destruct (captures_of_group _ _ _ _ Hex Hcap) as [a [Hin [Hg [Hall Hq]]]].
  assert (Ha : re.accepts a = re.digit /\ re.quant a = re.Plus).
  { simpl in Hin.
    repeat (destruct Hin as [<- | Hin]; [try discriminate Hg |]);
      try contradiction Hin.
    split; reflexivity. }
  destruct Ha as [Ha Hplus].
  rewrite Ha in Hall. rewrite Hplus in Hq. split; assumption.
Qed.

(** X4: [LstDl2EventFile.get_obs_id] raises, and then the missing-identifier
    [RuntimeError], exactly when its pattern matches nowhere in the file
    name; when the pattern matches, the result is the non-negative integer
    written by the digits of the group in a match. The dots of the pattern
    stand for any character, and the search backtracks: of
    [dl2_LST-1_Run123h5] the obs id is 12. *)
Theorem dl2_get_obs_id_spec :
  LstDl2EventFile.get_obs_id "/data/dl2_LST-1.Run02967.h5" = Ok 2967%Z /\
  LstDl2EventFile.get_obs_id "dl2_LST-1_Run123h5" = Ok 12%Z /\
  forall file_name,
    (raises (LstDl2EventFile.get_obs_id file_name) <->
     ~ Spec.occurs LstDl2EventFile.obs_id_pattern (chars file_name)) /\
    (~ Spec.occurs LstDl2EventFile.obs_id_pattern (chars file_name) ->
     LstDl2EventFile.get_obs_id file_name
     = Raise (RuntimeError ("Can not find observations ID in " ++ file_name))) /\
    (Spec.occurs LstDl2EventFile.obs_id_pattern (chars file_name) ->
     exists pre w post g n,
       chars file_name = pre ++ w ++ post /\
       Spec.captures LstDl2EventFile.obs_id_pattern [] w g /\
       forallb is_digit g = true /\ g <> [] /\
       int g = Ok n /\ (0 <= n)%Z /\
       LstDl2EventFile.get_obs_id file_name = Ok n).
Proof.
  split; [vm_compute; reflexivity |].
  split; [vm_compute; reflexivity |].
  apply get_obs_id_by_pattern.
  - reflexivity.
  - exact dl2_group_text.
Qed.

(** X5: likewise [LstDl3EventFile.get_obs_id]; the pattern asks for the
    ending [fits.gz], so that a FITS file that is not compressed has no obs
    id. *)
Theorem dl3_get_obs_id_spec :
  LstDl3EventFile.get_obs_id "/data/dl3_LST-1.Run02967.fits.gz" = Ok 2967%Z /\
  LstDl3EventFile.get_obs_id "dl3_LST-1.Run02967.fits"
  = Raise (RuntimeError "Can not find observations ID in dl3_LST-1.Run02967.fits") /\
  forall file_name,
    (raises (LstDl3EventFile.get_obs_id file_name) <->
     ~ Spec.occurs LstDl3EventFile.obs_id_pattern (chars file_name)) /\
    (~ Spec.occurs LstDl3EventFile.obs_id_pattern (chars file_name) ->
     LstDl3EventFile.get_obs_id file_name
     = Raise (RuntimeError ("Can not find observations ID in " ++ file_name))) /\
    (Spec.occurs LstDl3EventFile.obs_id_pattern (chars file_name) ->
     exists pre w post g n,
       chars file_name = pre ++ w ++ post /\
       Spec.captures LstDl3EventFile.obs_id_pattern [] w g /\
       forallb is_digit g = true /\ g <> [] /\
       int g = Ok n /\ (0 <= n)%Z /\
       LstDl3EventFile.get_obs_id file_name = Ok n).
Proof.
  split; [vm_compute; reflexivity |].
  split; [vm_compute; reflexivity |].
  apply get_obs_id_by_pattern.
  - reflexivity.
  - exact dl3_group_text.
Qed.

(** ** is_compatible *)

Lemma cut_last_dot_none (n : list ascii) :
  existsb (fun c => Ascii.eqb c ".") n = false ->
  os_path.cut_last_dot n = None.
Proof.
  induction n as [| c n IH]; cbn [existsb os_path.cut_last_dot];
    [reflexivity |].
  intros H. apply orb_false_elim in H. destruct H as [Hc Hn].
  rewrite (IH Hn), Hc. reflexivity.
Qed.

Lemma cut_last_dot_some (n stem ext : list ascii) :
  os_path.cut_last_dot n = Some (stem, ext) ->
  n = stem ++ ext /\
  exists e, ext = "."%char :: e /\
            existsb (fun c => Ascii.eqb c ".") e = false.
Proof.
  revert stem ext. induction n as [| c n IH]; intros stem ext H;
    cbn [os_path.cut_last_dot] in H.
  - discriminate H.
  - destruct (os_path.cut_last_dot n) as [[s x] |] eqn:E.
    + injection H as <- <-. destruct (IH _ _ eq_refl) as [-> He].
      split; [reflexivity | exact He].
    + destruct (Ascii.eqb c ".") eqn:Ec; [| discriminate H].
      injection H as <- <-. apply Ascii.eqb_eq in Ec. subst c.
      split; [reflexivity |]. exists n. split; [reflexivity |].
      destruct (existsb (fun c => Ascii.eqb c ".") n) eqn:Ex; [| reflexivity].
      exfalso. clear IH. induction n as [| c n IH]; [discriminate Ex |].
      cbn [os_path.cut_last_dot existsb] in E, Ex.
      destruct (os_path.cut_last_dot n) as [[s x] |]; [discriminate E |].
      destruct (Ascii.eqb c "."); [discriminate E |].
      exact (IH eq_refl Ex).
Qed.

Lemma cut_last_dot_complete (stem e : list ascii) :
  existsb (fun c => Ascii.eqb c ".") e = false ->
  os_path.cut_last_dot (stem ++ "."%char :: e) = Some (stem, "."%char :: e).
Proof.
  intros He. induction stem as [| c stem IH];
    cbn [app os_path.cut_last_dot].
  - rewrite (cut_last_dot_none _ He). reflexivity.
  - rewrite IH. reflexivity.
Qed.

Lemma after_last_sep_whole (p : list ascii) :
  existsb (Ascii.eqb "/") p = false -> os_path.after_last_sep p = p.
Proof.
  destruct p as [| c p]; cbn [existsb os_path.after_last_sep];
    [reflexivity |].
  intros H. apply orb_false_elim in H. destruct H as [Hc Hp].
  rewrite Hp. rewrite Ascii.eqb_sym, Hc. reflexivity.
Qed.

Lemma after_last_sep_complete (d b : list ascii) :
  existsb (Ascii.eqb "/") b = false ->
  os_path.after_last_sep (d ++ "/"%char :: b) = b.
Proof.
  intros Hb. induction d as [| c d IH]; cbn [app os_path.after_last_sep].
  - rewrite Hb, Ascii.eqb_refl. reflexivity.
  - rewrite existsb_app. cbn [existsb]. rewrite Ascii.eqb_refl.
    rewrite orb_true_r. exact IH.
Qed.

Lemma after_last_sep_spec (p : list ascii) :
  exists dir,
    p = dir ++ os_path.after_last_sep p /\
    (dir = [] \/ exists d, dir = d ++ ["/"%char]) /\
    existsb (Ascii.eqb "/") (os_path.after_last_sep p) = false.
Proof.
  induction p as [| c p IH]; cbn [os_path.after_last_sep].
  - exists []. repeat split. left. reflexivity.
  - destruct (existsb (Ascii.eqb "/") p) eqn:Ep.
    + destruct IH as [dir [E [Hdir Hno]]].
      exists (c :: dir). split; [simpl; f_equal; exact E |].
      split; [| exact Hno]. right.
      destruct Hdir as [-> | [d ->]].
      * simpl in E. rewrite <- E in Hno. rewrite Hno in Ep. discriminate Ep.
      * exists (c :: d). reflexivity.
    + destruct (Ascii.eqb c "/") eqn:Ec.
      * apply Ascii.eqb_eq in Ec. subst c. exists ["/"%char].
        split; [reflexivity |]. split; [| exact Ep].
        right. exists []. reflexivity.
      * exists []. split; [reflexivity |]. split; [left; reflexivity |].
        cbn [existsb]. rewrite Ascii.eqb_sym, Ec, Ep. reflexivity.
Qed.

Lemma lower_char_keeps (c x : ascii) :
  x = "."%char \/ x = "/"%char ->
  Ascii.eqb (lower_char c) x = Ascii.eqb c x.
Proof.
  intros [-> | ->];
    destruct c as [[] [] [] [] [] [] [] []]; vm_compute; reflexivity.
Qed.

Lemma lower_keeps_dots (e : list ascii) :
  existsb (fun c => Ascii.eqb c ".") (lower e)
  = existsb (fun c => Ascii.eqb c ".") e.
Proof.
  induction e as [| c e IH]; cbn [lower map existsb]; [reflexivity |].
  fold (lower e). rewrite IH, lower_char_keeps by (left; reflexivity).
  reflexivity.
Qed.

Lemma lower_keeps_seps (e : list ascii) :
  existsb (Ascii.eqb "/") (lower e) = existsb (Ascii.eqb "/") e.
Proof.
  induction e as [| c e IH]; cbn [lower map existsb]; [reflexivity |].
  fold (lower e).
  rewrite IH, (Ascii.eqb_sym "/" (lower_char c)), (Ascii.eqb_sym "/" c).
  rewrite lower_char_keeps by (right; reflexivity). reflexivity.
Qed.

(** [os.path.splitext(file_name)[1].lower() == ext], for an extension that
    is a dot followed by characters other than dots and separators. *)
Lemma splitext_lower_spec (ext : string) (t : list ascii) (file_name : string) :
  chars ext = "."%char :: t ->
  existsb (fun c => Ascii.eqb c ".") t = false ->
  existsb (Ascii.eqb "/") t = false ->
  String.eqb (str (lower (os_path.splitext_ext (chars file_name)))) ext = true
  <-> has_extension ext file_name.
Proof.
  intros Hext Hdots Hseps. split.
  - intros H. apply String.eqb_eq in H.
    assert (Hl : lower (os_path.splitext_ext (chars file_name)) = chars ext).
    { rewrite <- H. unfold chars, str.
      rewrite list_ascii_of_string_of_list_ascii. reflexivity. }
    unfold os_path.splitext_ext in Hl.
    destruct (after_last_sep_spec (chars file_name)) as [dir [E [Hdir Hno]]].
    destruct (os_path.cut_last_dot (os_path.after_last_sep (chars file_name)))
      as [[stem x] |] eqn:Hcut;
      [| rewrite Hext in Hl; discriminate Hl].
    destruct (existsb (fun c => negb (Ascii.eqb c ".")) stem) eqn:Hstem;
      [| rewrite Hext in Hl; discriminate Hl].
    destruct (cut_last_dot_some _ _ _ Hcut) as [Hbase [e [-> He]]].
    exists dir, stem, e. rewrite Hbase in E, Hno.
    split; [exact E |]. split; [exact Hdir |].
    rewrite existsb_app in Hno. apply orb_false_elim in Hno.
    split; [exact (proj1 Hno) |]. split; [exact Hstem | exact Hl].
  - intros [dir [stem [e [E [Hdir [Hsep [Hstem Hl]]]]]]].
    rewrite Hext in Hl. cbn [lower map] in Hl. fold (lower e) in Hl.
    injection Hl as Hl.
    assert (He : existsb (fun c => Ascii.eqb c ".") e = false).
    { rewrite <- lower_keeps_dots, Hl. exact Hdots. }
    assert (He' : existsb (Ascii.eqb "/") e = false).
    { rewrite <- lower_keeps_seps, Hl. exact Hseps. }
    assert (Hbase : os_path.after_last_sep (chars file_name)
                    = stem ++ "."%char :: e).
    { assert (Hno : existsb (Ascii.eqb "/") (stem ++ "."%char :: e) = false).
      { rewrite existsb_app. cbn [existsb]. rewrite Hsep, He'. reflexivity. }
      rewrite E. destruct Hdir as [-> | [d ->]].
      - apply after_last_sep_whole, Hno.
      - rewrite <- app_assoc. apply after_last_sep_complete, Hno. }
    unfold os_path.splitext_ext.
    rewrite Hbase, (cut_last_dot_complete _ _ He), Hstem.
    apply String.eqb_eq. cbn [lower map]. fold (lower e). rewrite Hl.
    change (lower_char ".") with "."%char. rewrite <- Hext.
    unfold str, chars. apply string_of_list_ascii_of_string.
Qed.

(** X6: the legacy ROOT loader accepts exactly the file names that end in
    the extension [.root], and the HDF5 loader those that end in [.h5],
    whatever the case of the letters; no file name is accepted by both. *)
Theorem is_compatible_by_extension (file_name : string) :
  (MagicRootEventFile.is_compatible file_name = true
   <-> has_extension ".root" file_name) /\
  (LstDl2EventFile.is_compatible file_name = true
   <-> has_extension ".h5" file_name) /\
  (MagicRootEventFile.is_compatible file_name = true ->
   LstDl2EventFile.is_compatible file_name = false).
Proof.
  split; [| split].
  - apply (splitext_lower_spec ".root" (chars "root")); reflexivity.
  - apply (splitext_lower_spec ".h5" (chars "h5")); reflexivity.
  - unfold LstDl2EventFile.is_compatible, MagicRootEventFile.is_compatible.
    intros H. apply String.eqb_eq in H. rewrite H. reflexivity.
Qed.

(** ** The closing loop, key by key *)

Lemma attribute_get (event_data : dict pyvalue) (name : string)
  (c : option Quantity) :
  attribute event_data name = Ok c ->
  dict_get event_data name
  = Some (match c with Some q => Quant q | None => PyNone end).
Proof.
  unfold attribute, getitem.
  destruct (dict_get event_data name) as [v |]; [| discriminate].
  simpl. destruct v; simpl; intros H; try discriminate H;
    injection H as <-; reflexivity.
Qed.

Lemma magic_apply_mask_get (m : list bool) (ed ed' : dict pyvalue) :
  MagicRootEventFile.apply_mask m ed = Ok ed' ->
  forall k v, dict_get ed' k = Some v ->
    exists a, dict_get ed k = Some (Array a) /\
              length a = length m /\
              v = match dict_get MagicRootEventFile.data_units k with
                  | Some x => Quant (quantity.times (numpy.select a m) x)
                  | None => Array (numpy.select a m)
                  end.
Proof.
  revert ed'. induction ed as [| [k0 v0] ed IH]; intros ed' H k v Hget;
    cbn [MagicRootEventFile.apply_mask] in H.
  - injection H as <-. discriminate Hget.
  - destruct v0 as [| a0 | q0]; cbn [as_array bind] in H; try discriminate H.
    remember (dict_get MagicRootEventFile.data_units k0) as ux eqn:Hx in *.
    step H masked Hmask. step H rest' Hrest. injection H as <-.
    apply getitem_mask_ok in Hmask. destruct Hmask as [Hlen ->].
    cbn [dict_get] in Hget |- *.
    destruct (String.eqb k0 k) eqn:E.
    + apply String.eqb_eq in E. subst k0. injection Hget as <-.
      exists a0. rewrite <- Hx. repeat split. exact Hlen.
    + exact (IH _ Hrest _ _ Hget).
Qed.

Lemma dl2_apply_mask_get (m : list bool) (ed ed' : dict pyvalue) :
  LstDl2EventFile.apply_mask m ed = Ok ed' ->
  forall k v, dict_get ed' k = Some v ->
    (v = PyNone /\ dict_get ed k = Some PyNone) \/
    exists a, dict_get ed k = Some (Array a) /\
              length a = length m /\
              v = match dict_get LstDl2EventFile.data_units k with
                  | Some x => Quant (quantity.times (numpy.select a m) x)
                  | None => Array (numpy.select a m)
                  end.
Proof.
  revert ed'. induction ed as [| [k0 v0] ed IH]; intros ed' H k v Hget;
    cbn [LstDl2EventFile.apply_mask] in H.
  - injection H as <-. discriminate Hget.
  - destruct v0 as [| a0 | q0]; cbn [as_array bind] in H; try discriminate H.
    + step H rest' Hrest. injection H as <-.
      cbn [dict_get] in Hget |- *.
      destruct (String.eqb k0 k) eqn:E.
      * injection Hget as <-. left. split; reflexivity.
      * exact (IH _ Hrest _ _ Hget).
    + remember (dict_get LstDl2EventFile.data_units k0) as ux eqn:Hx in *.
      step H masked Hmask. step H rest' Hrest. injection H as <-.
      apply getitem_mask_ok in Hmask. destruct Hmask as [Hlen ->].
      cbn [dict_get] in Hget |- *.
      destruct (String.eqb k0 k) eqn:E.
      * apply String.eqb_eq in E. subst k0. injection Hget as <-.
        right. exists a0. rewrite <- Hx. repeat split. exact Hlen.
      * exact (IH _ Hrest _ _ Hget).
Qed.

Lemma cut_of_attribute_magic (m : list bool) (ed ed' : dict pyvalue)
  (name : string) (c : option Quantity) :
  MagicRootEventFile.apply_mask m ed = Ok ed' ->
  attribute ed' name = Ok c ->
  cut MagicRootEventFile.data_units m ed (name, c) /\ c <> None.
Proof.
  intros Hmask Hc. apply attribute_get in Hc.
  destruct (magic_apply_mask_get _ _ _ Hmask _ _ Hc) as [a [Ha [Hlen E]]].
  unfold cut. simpl.
  destruct (dict_get MagicRootEventFile.data_units name) as [x |] eqn:Hx;
    destruct c as [q |]; try discriminate E.
  injection E as ->. split; [| discriminate].
  exists a. repeat split; assumption.
Qed.

Lemma cut_of_attribute_dl2 (m : list bool) (ed ed' : dict pyvalue)
  (name : string) (c : option Quantity) :
  LstDl2EventFile.apply_mask m ed = Ok ed' ->
  attribute ed' name = Ok c ->
  cut LstDl2EventFile.data_units m ed (name, c).
Proof.
  intros Hmask Hc. apply attribute_get in Hc.
  destruct (dl2_apply_mask_get _ _ _ Hmask _ _ Hc)
    as [[E Hnone] | [a [Ha [Hlen E]]]]; unfold cut; simpl.
  - destruct c; [discriminate E | exact Hnone].
  - destruct (dict_get LstDl2EventFile.data_units name) as [x |] eqn:Hx;
      destruct c as [q |]; try discriminate E.
    injection E as ->. exists a. repeat split; assumption.
Qed.

Section Steps.

Context {AP : Astropy} {FS : FileSystem}.

(** The steps that the legacy ROOT loader has taken when it returns. *)
Lemma magic_load_events_steps
  (file_name : string) (cuts : option string)
  (out : list string) (es : EventSample.t) :
  MagicRootEventFile.load_events file_name cuts = (out, Ok es) ->
  exists input_file ed rows m ed',
    uproot_open file_name = Ok input_file /\
    match dict_get input_file "Events" with
    | Some tree => MagicRootEventFile.read_tree tree cuts = Ok ed /\ out = []
    | None => ed = magic_empty_columns /\
              out = [magic_corrupted_message file_name]
    end /\
    MagicRootEventFile.finite_rows_all ed = Ok rows /\
    numpy.prod_axis0 rows = Ok m /\
    MagicRootEventFile.apply_mask m ed = Ok ed' /\
    Spec.attributes_of ed' es /\
    attribute ed' "delta_t" = Ok (EventSample.delta_t es) /\
    EventSample.mjd es <> None.
Proof.
  unfold MagicRootEventFile.load_events. intros H.
  apply io_bind_ok in H.
  destruct H as [o1 [input_file [o2 [Hopen [H Hout]]]]].
  apply lift_ok in Hopen. destruct Hopen as [Hopen ->].
  apply io_bind_ok in H. destruct H as [o3 [ed [o4 [Hed [H Hout2]]]]].
  apply lift_ok in H. destruct H as [H ->].
  step H rows Hrows. step H m Hprod. step H ed' Hmask.
  step H c1 H1. step H c2 H2. step H c3 H3. step H c4 H4. step H c5 H5.
  step H c6 H6. step H c7 H7. step H c8 H8. step H c9 H9.
  unfold EventSample.init in H. step H t_eff Ht. injection H as <-.
  assert (Hsome : c8 <> None).
  { intros ->. discriminate Ht. }
  exists input_file, ed, rows, m, ed'.
  split; [exact Hopen |].
  split.
  { subst out o2. rewrite app_nil_r. simpl.
    destruct (dict_get input_file "Events") as [tree |].
    - apply lift_ok in Hed. exact Hed.
    - unfold io_bind, print, io_ret in Hed. simpl in Hed.
      injection Hed as <- <-. split; reflexivity. }
  split; [exact Hrows |]. split; [exact Hprod |]. split; [exact Hmask |].
  unfold Spec.attributes_of. simpl. repeat split; assumption.
Qed.

(** The steps that the HDF5 loader has taken when it returns. *)
Lemma dl2_load_events_steps
  (file_name : string) (cuts : option string)
  (out : list string) (es : EventSample.t) :
  LstDl2EventFile.load_events file_name cuts = (out, Ok es) ->
  exists ed rows m ed',
    (LstDl2EventFile.read_table file_name cuts = Ok ed /\ out = [] \/
     (exists key, LstDl2EventFile.read_table file_name cuts
                  = Raise (KeyError key)) /\
     ed = empty_columns LstDl2EventFile.data_names_mapping
                        LstDl2EventFile.no_columns /\
     out = [dl2_corrupted_message]) /\
    finite_rows ed = Ok rows /\
    numpy.prod_axis0 rows = Ok m /\
    LstDl2EventFile.apply_mask m ed = Ok ed' /\
    Spec.attributes_of ed' es /\
    attribute ed' "delta_t" = Ok (EventSample.delta_t es) /\
    EventSample.mjd es <> None.
Proof.
  unfold LstDl2EventFile.load_events. intros H.
  apply io_bind_ok in H. destruct H as [o3 [ed [o4 [Hed [H Hout2]]]]].
  apply lift_ok in H. destruct H as [H ->].
  step H rows Hrows. step H m Hprod. step H ed' Hmask.
  step H c1 H1. step H c2 H2. step H c3 H3. step H c4 H4. step H c5 H5.
  step H c6 H6. step H c7 H7. step H c8 H8. step H c9 H9.
  unfold EventSample.init in H. step H t_eff Ht. injection H as <-.
  assert (Hsome : c8 <> None).
  { intros ->. discriminate Ht. }
  exists ed, rows, m, ed'.
  split.
  { subst out. rewrite app_nil_r.
    destruct (LstDl2EventFile.read_table file_name cuts) as [ed0 | e].
    - injection Hed as <- <-. left. split; reflexivity.
    - destruct e; try discriminate Hed.
      unfold io_bind, print, io_ret in Hed. simpl in Hed.
      injection Hed as <- <-. right.
      split; [eexists; reflexivity | split; reflexivity]. }
  split; [exact Hrows |]. split; [exact Hprod |]. split; [exact Hmask |].
  unfold Spec.attributes_of. simpl. repeat split; assumption.
Qed.

End Steps.

(** ** Dictionaries of arrays *)

Lemma dict_get_set_same {V : Type} (d : dict V) (k : string) (v : V) :
  dict_get (dict_set d k v) k = Some v.
Proof.
  induction d as [| [k0 v0] d IH]; simpl.
  - rewrite String.eqb_refl. reflexivity.
  - destruct (String.eqb k0 k) eqn:E; simpl; rewrite E; [reflexivity | exact IH].
Qed.

Lemma dict_get_set_other {V : Type} (d : dict V) (k k' : string) (v : V) :
  String.eqb k k' = false ->
  dict_get (dict_set d k v) k' = dict_get d k'.
Proof.
  intros Hk. induction d as [| [k0 v0] d IH]; simpl.
  - rewrite Hk. reflexivity.
  - destruct (String.eqb k0 k) eqn:E; simpl.
    + apply String.eqb_eq in E. subst k0. rewrite Hk. reflexivity.
    + destruct (String.eqb k0 k'); [reflexivity | exact IH].
Qed.

Lemma dict_set_in {V : Type} (d : dict V) (k : string) (v : V)
  (k' : string) (v' : V) :
  In (k', v') (dict_set d k v) -> In (k', v') d \/ v' = v.
Proof.
  induction d as [| [k0 v0] d IH]; simpl.
  - intros [E | []]. injection E as _ <-. right. reflexivity.
  - destruct (String.eqb k0 k); simpl.
    + intros [E | H]; [injection E as _ <-; right; reflexivity | left; right; exact H].
    + intros [E | H]; [left; left; exact E |].
      destruct (IH H) as [H' | H']; [left; right; exact H' | right; exact H'].
Qed.

Lemma dict_set_arrays (d : dict pyvalue) (k : string) (a : numpy.ndarray) :
  arrays_only d -> arrays_only (dict_set d k (Array a)).
Proof.
  intros Hd k' v' Hin. destruct (dict_set_in _ _ _ _ _ Hin) as [H | ->].
  - exact (Hd _ _ H).
  - exists a. reflexivity.
Qed.

Lemma arrays_only_nil : arrays_only [].
Proof. intros k v []. Qed.

Lemma rename_columns_arrays (mapping : dict string) (data : dict numpy.ndarray) :
  forall ed ed', arrays_only ed ->
                 rename_columns mapping data ed = Ok ed' -> arrays_only ed'.
Proof.
  induction mapping as [| [key name] mapping IH]; intros ed ed' Hed H;
    simpl in H.
  - injection H as <-. exact Hed.
  - step H a Ha. exact (IH _ _ (dict_set_arrays _ _ _ Hed) H).
Qed.

Lemma rename_present_arrays (mapping : dict string) (data : dict numpy.ndarray) :
  forall ed, arrays_only ed -> arrays_only (rename_present mapping data ed).
Proof.
  induction mapping as [| [key name] mapping IH]; intros ed Hed; simpl.
  - exact Hed.
  - apply IH. destruct (dict_get data key); [apply dict_set_arrays |]; exact Hed.
Qed.

Lemma rename_mc_arrays (data : dict numpy.ndarray) :
  forall ed ed', arrays_only ed ->
                 MagicRootEventFile.rename_mc data ed = Ok ed' ->
                 arrays_only ed'.
Proof.
  induction data as [| [key a] data IH]; intros ed ed' Hed H; simpl in H.
  - injection H as <-. exact Hed.
  - step H name Hname. exact (IH _ _ (dict_set_arrays _ _ _ Hed) H).
Qed.

Lemma finite_rows_all_ok (ed : dict pyvalue) :
  arrays_only ed -> exists rows, MagicRootEventFile.finite_rows_all ed = Ok rows.
Proof.
  induction ed as [| [k v] ed IH]; intros H; simpl.
  - eexists. reflexivity.
  - destruct (H k v (or_introl eq_refl)) as [a ->].
    destruct IH as [rows Hrows].
    { intros k' v' Hin. apply (H k' v'). right. exact Hin. }
    simpl. rewrite Hrows. simpl. eexists. reflexivity.
Qed.

Lemma prod_axis0_raises (rows : list (list bool)) (e : exn) :
  numpy.prod_axis0 rows = Raise e -> e = ValueError.
Proof.
  induction rows as [| r rest IH]; simpl; [discriminate |].
  destruct rest as [| r' rest']; [discriminate |].
  destruct (numpy.prod_axis0 (r' :: rest')) as [m | e'] eqn:E; simpl.
  - destruct (Nat.eqb (length r) (length m)); [discriminate |].
    intros H. injection H as <-. reflexivity.
  - intros H. injection H as <-. apply IH. reflexivity.
Qed.

Section Simulated.

Context {FS : FileSystem}.

Lemma read_tree_arrays (tree : DataFrame) (cuts : option string)
  (ed : dict pyvalue) :
  MagicRootEventFile.read_tree tree cuts = Ok ed -> arrays_only ed.
Proof.
  unfold MagicRootEventFile.read_tree. intros H.
  step H cols Hcols. step H ed0 Hed0. step H hadronness Hh.
  pose proof (rename_columns_arrays _ _ _ _ arrays_only_nil Hed0) as A0.
  pose proof (dict_set_arrays _ "gammaness"
                (map (fun x => (1 - x)%float) hadronness) A0) as A1.
  destruct (dict_mem tree "MMcEvt_1.").
  - step H mc Hmc. step H ed1 Hed1.
    pose proof (rename_mc_arrays _ _ _ A1 Hed1) as A2.
    step H zd Hzd. step H az Haz. step H az' Haz'.
    injection H as <-.
    repeat apply dict_set_arrays. exact A2.
  - step H tcols Htcols. step H m0 Hm0. step H ms Hms. step H ns Hns.
    step H fraction Hf. step H m1 Hm1. injection H as <-.
    apply dict_set_arrays. exact A1.
Qed.

Lemma read_tree_simulated_mjd (tree : DataFrame) (cuts : option string)
  (ed : dict pyvalue) :
  dict_mem tree "MMcEvt_1." = true ->
  MagicRootEventFile.read_tree tree cuts = Ok ed ->
  dict_get ed "mjd" = Some (Array []).
Proof.
  unfold MagicRootEventFile.read_tree. intros Hmc H.
  step H cols Hcols. step H ed0 Hed0. step H hadronness Hh.
  rewrite Hmc in H.
  step H mc Hmc'. step H ed1 Hed1.
  step H zd Hzd. step H az Haz. step H az' Haz'.
  injection H as <-. apply dict_get_set_same.
Qed.

(** X10: a legacy file of simulated events cannot be loaded as soon as it
    holds one event: the loader gives it an [mjd] column of length zero,
    the finiteness rows have unequal lengths, and [numpy.prod] over them
    raises [ValueError]. *)
Theorem magic_load_events_rejects_simulated_events
  (file_name : string) (cuts : option string) (input_file : dict DataFrame)
  (tree : DataFrame) (ed : dict pyvalue) (key : string) (a : numpy.ndarray) :
  uproot_open file_name = Ok input_file ->
  dict_get input_file "Events" = Some tree ->
  dict_mem tree "MMcEvt_1." = true ->
  MagicRootEventFile.read_tree tree cuts = Ok ed ->
  In (key, Array a) ed ->
  a <> [] ->
  MagicRootEventFile.load_events file_name cuts = ([], Raise ValueError).
Proof.
  intros Hopen Htree Hmc Hread Hin Hne.
  destruct (finite_rows_all_ok ed (read_tree_arrays _ _ _ Hread))
    as [rows Hrows].
  unfold MagicRootEventFile.load_events.
  rewrite Hopen. unfold lift, io_bind. rewrite Htree, Hread, Hrows.
  cbn [bind app].
  destruct (numpy.prod_axis0 rows) as [m | e] eqn:Hprod.
  - exfalso.
    destruct (magic_finite_rows_spec _ _ Hrows) as [Hspec _].
    pose proof (read_tree_simulated_mjd _ _ _ Hmc Hread) as Hmjd.
    apply dict_get_in in Hmjd.
    pose proof (Hspec _ _ Hmjd) as Hrow0. pose proof (Hspec _ _ Hin) as Hrow.
    destruct (prod_axis0_spec rows m Hprod) as [Hlens _].
    { intros E. rewrite E in Hrow. destruct Hrow. }
    rewrite Forall_forall in Hlens.
    pose proof (Hlens _ Hrow0) as L0. pose proof (Hlens _ Hrow) as L.
    simpl in L0. rewrite length_map in L. rewrite <- L0 in L.
    destruct a; [contradiction Hne; reflexivity | discriminate L].
  - rewrite (prod_axis0_raises _ _ Hprod). reflexivity.
Qed.

End Simulated.

(** ** The legacy ROOT loader *)

Lemma rows_of_nonempty (ed : dict pyvalue) (rows : list (list bool))
  (k : string) (a : numpy.ndarray) :
  Spec.rows_of ed rows -> dict_get ed k = Some (Array a) -> rows <> [].
Proof.
  intros [Hrows _] Hget Hnil. apply dict_get_in in Hget.
  pose proof (Hrows _ _ Hget) as Hin. rewrite Hnil in Hin. destruct Hin.
Qed.

Section MaskRows.

Context {AP : Astropy} {FS : FileSystem}.

(** X7: when the legacy ROOT loader returns, there is one mask for the whole
    dictionary built from the file: it keeps row [i] exactly when every
    column of the dictionary (those that do not reach the sample included)
    is finite in that row; each of the nine columns of the sample is
    populated, and is the column of its key cut down to the mask, in the
    unit of the loader. *)
Theorem magic_load_events_keeps_finite_rows
  (file_name : string) (cuts : option string)
  (out : list string) (es : EventSample.t) :
  MagicRootEventFile.load_events file_name cuts = (out, Ok es) ->
  exists input_file ed m,
    uproot_open file_name = Ok input_file /\
    match dict_get input_file "Events" with
    | Some tree => MagicRootEventFile.read_tree tree cuts = Ok ed
    | None => ed = magic_empty_columns
    end /\
    (forall i, nth i m false = true <->
               i < length m /\ Spec.finite_row ed i) /\
    Forall (cut MagicRootEventFile.data_units m ed) (named_columns es) /\
    Forall (fun column => snd column <> None) (named_columns es).
Proof.
  intros H.
  destruct (magic_load_events_steps _ _ _ _ H)
    as [input_file [ed [rows [m [ed' [Hopen [Hed [Hrows [Hprod [Hmask
         [[H1 [H2 [H3 [H4 [H5 [H6 [H7 H8]]]]]]] [H9 _]]]]]]]]]]]].
  exists input_file, ed, m.
  split; [exact Hopen |].
  split.
  { destruct (dict_get input_file "Events"); apply Hed. }
  pose proof (magic_finite_rows_spec _ _ Hrows) as Hspec.
  split.
  { intros i. apply (mask_keeps_finite_rows ed rows); try assumption.
    destruct (cut_of_attribute_magic _ _ _ _ _ Hmask H8) as [Hcut Hne].
    unfold cut in Hcut. simpl in Hcut.
    destruct (EventSample.mjd es) as [q |]; [| contradiction Hne; reflexivity].
    destruct Hcut as [a [Ha _]].
    exact (rows_of_nonempty _ _ _ _ Hspec Ha). }
  unfold named_columns.
  split; repeat constructor;
    try (eapply cut_of_attribute_magic; eassumption).
Qed.

(** X9: on a file without [Events] tree the legacy ROOT loader prints its
    warning and returns the sample whose columns all have length zero, with
    no effective observation time; and the [RunSummary] of such a file, when
    its name carries an obs id, is built without an exception and unset. *)
Theorem magic_load_events_without_tree
  (file_name : string) (cuts : option string) (input_file : dict DataFrame) :
  uproot_open file_name = Ok input_file ->
  dict_get input_file "Events" = None ->
  MagicRootEventFile.load_events file_name cuts
  = ([magic_corrupted_message file_name], Ok magic_empty_sample) /\
  (forall id,
     MagicRootEventFile.is_compatible file_name = true ->
     MagicRootEventFile.get_obs_id file_name = Ok id ->
     RunSummary.init file_name
     = ([magic_corrupted_message file_name], Ok RunSummary.unset)).
Proof.
  intros Hopen Hmissing.
  assert (Hload : forall c, MagicRootEventFile.load_events file_name c
            = ([magic_corrupted_message file_name], Ok magic_empty_sample)).
  { intros c. unfold MagicRootEventFile.load_events.
    rewrite Hopen. simpl. rewrite Hmissing. reflexivity. }
  split; [apply Hload |].
  intros id Hroot Hid.
  unfold RunSummary.init, RunSummary.open_events. rewrite Hroot.
  unfold MagicRootEventFile.init. rewrite Hid. simpl.
  rewrite Hload. reflexivity.
Qed.

End MaskRows.

(** ** The renaming loop and the FITS DL3 loader *)

Lemma rename_present_app (m1 m2 : dict string) (data : dict numpy.ndarray) :
  forall ed, rename_present (m1 ++ m2) data ed
             = rename_present m2 data (rename_present m1 data ed).
Proof.
  induction m1 as [| [key name] m1 IH]; intros ed; simpl.
  - reflexivity.
  - apply IH.
Qed.

Lemma rename_present_other (mapping : dict string) (data : dict numpy.ndarray)
  (name : string) :
  forallb (fun entry => negb (String.eqb (snd entry) name)) mapping = true ->
  forall ed, dict_get (rename_present mapping data ed) name = dict_get ed name.
Proof.
  induction mapping as [| [key n] mapping IH]; intros H ed; simpl in *.
  - reflexivity.
  - apply andb_prop in H. destruct H as [Hn H]. rewrite (IH H).
    destruct (dict_get data key); [| reflexivity].
    apply dict_get_set_other. destruct (String.eqb n name); [discriminate Hn | reflexivity].
Qed.

(** The column [name] after the renaming loop, when [key] is the one key
    mapped to it. *)
Lemma rename_present_get (m1 m2 : dict string) (key name : string)
  (data : dict numpy.ndarray) (ed : dict pyvalue) :
  forallb (fun entry => negb (String.eqb (snd entry) name)) m2 = true ->
  dict_get (rename_present (m1 ++ (key, name) :: m2) data ed) name
  = match dict_get data key with
    | Some a => Some (Array a)
    | None => dict_get (rename_present m1 data ed) name
    end.
Proof.
  intros H2. rewrite rename_present_app. simpl.
  rewrite (rename_present_other _ _ _ H2).
  destruct (dict_get data key); [apply dict_get_set_same | reflexivity].
Qed.

Lemma dl3_apply_mask_get (m : list bool) (ed ed' : dict pyvalue) :
  LstDl3EventFile.apply_mask m ed = Ok ed' ->
  forall k v, dict_get ed' k = Some v ->
    (v = PyNone /\ dict_get ed k = Some PyNone) \/
    exists a, dict_get ed k = Some (Array a) /\
              length a = length m /\
              v = match dict_get LstDl3EventFile.data_units k with
                  | Some x => Quant (quantity.times a x)
                  | None => Array (numpy.select a m)
                  end.
Proof.
  revert ed'. induction ed as [| [k0 v0] ed IH]; intros ed' H k v Hget;
    cbn [LstDl3EventFile.apply_mask] in H.
  - injection H as <-. discriminate Hget.
  - destruct v0 as [| a0 | q0]; cbn [as_array bind] in H; try discriminate H.
    + step H rest' Hrest. injection H as <-.
      cbn [dict_get] in Hget |- *.
      destruct (String.eqb k0 k) eqn:E.
      * injection Hget as <-. left. split; reflexivity.
      * exact (IH _ Hrest _ _ Hget).
    + remember (dict_get LstDl3EventFile.data_units k0) as ux eqn:Hx in *.
      step H masked Hmask. step H rest' Hrest. injection H as <-.
      apply getitem_mask_ok in Hmask. destruct Hmask as [Hlen ->].
      cbn [dict_get] in Hget |- *.
      destruct (String.eqb k0 k) eqn:E.
      * apply String.eqb_eq in E. subst k0. injection Hget as <-.
        right. exists a0. rewrite <- Hx. repeat split. exact Hlen.
      * exact (IH _ Hrest _ _ Hget).
Qed.

Lemma whole_of_attribute_dl3 (m : list bool) (ed ed' : dict pyvalue)
  (name : string) (c : option Quantity) :
  arrays_only ed ->
  LstDl3EventFile.apply_mask m ed = Ok ed' ->
  attribute ed' name = Ok c ->
  whole LstDl3EventFile.data_units m ed (name, c).
Proof.
  intros Harr Hmask Hc. apply attribute_get in Hc.
  destruct (dl3_apply_mask_get _ _ _ Hmask _ _ Hc)
    as [[_ Hnone] | [a [Ha [Hlen E]]]].
  - apply dict_get_in in Hnone. destruct (Harr _ _ Hnone) as [a Ea].
    discriminate Ea.
  - unfold whole. simpl.
    destruct (dict_get LstDl3EventFile.data_units name) as [x |] eqn:Hx;
      destruct c as [q |]; try discriminate E.
    injection E as ->. exists (quantity.times a x), a. repeat split; assumption.
Qed.

Section DL3Steps.

Context {AP : Astropy} {FS : FileSystem}.

(** What the [try] of the FITS DL3 loader leaves when it has bound
    [event_data]: the header of the [EVENTS] extension, a dictionary of
    arrays, and under [mjd] (once the body is past the times) the converted
    [TIME] column. *)
Lemma dl3_read_events_inv (input_file : dict HDU)
  (vars : LstDl3EventFile.locals) (status : result Datatypes.unit)
  (ed : dict pyvalue) :
  LstDl3EventFile.read_events input_file = (vars, status) ->
  LstDl3EventFile.event_data vars = Some ed ->
  exists hdu,
    dict_get input_file "EVENTS" = Some hdu /\
    LstDl3EventFile.evt_head vars = Some (header hdu) /\
    arrays_only ed /\
    (forall v, dict_get ed "mjd" = Some v ->
       exists time,
         dict_get (data hdu) "TIME" = Some time /\
         v = Array (map LstDl3EventFile.event_mjd time)).
Proof.
  unfold LstDl3EventFile.read_events, getitem. intros H Hed.
  destruct (dict_get input_file "EVENTS") as [hdu |];
    [| injection H as <- _; discriminate Hed].
  exists hdu. split; [reflexivity |].
  set (ed0 := rename_present LstDl3EventFile.data_names_mapping (data hdu) [])
    in *.
  assert (A0 : arrays_only ed0).
  { apply rename_present_arrays, arrays_only_nil. }
  assert (G0 : dict_get ed0 "mjd"
               = match dict_get (data hdu) "TIME" with
                 | Some a => Some (Array a)
                 | None => None
                 end).
  { unfold ed0.
    change LstDl3EventFile.data_names_mapping
      with ([ ("EVENT_ID", "daq_event_number"); ("RA", "event_ra");
              ("DEC", "event_dec"); ("GAMMANESS", "gammaness");
              ("ENERGY", "event_energy") ]
            ++ ("TIME", "mjd")
            :: [ ("AZ_PNT", "pointing_az"); ("ZD_PNT", "pointing_zd");
                 ("RA_PNT", "pointing_ra"); ("DEC_PNT", "pointing_dec") ]).
    rewrite rename_present_get by reflexivity.
    rewrite rename_present_other by reflexivity. reflexivity. }
  destruct (dict_get ed0 "mjd") as [v0 |] eqn:Hv0.
  2:{ simpl in H. injection H as <- _. simpl in Hed. injection Hed as <-.
      split; [reflexivity |]. split; [exact A0 |].
      intros v Hv. rewrite Hv0 in Hv. discriminate Hv. }
  destruct (dict_get (data hdu) "TIME") as [time |]; [| discriminate G0].
  injection G0 as ->. cbn [bind as_array] in H.
  set (mjd := map LstDl3EventFile.event_mjd time) in *.
  set (ed1 := dict_set ed0 "mjd" (Array mjd)) in *.
  assert (A1 : arrays_only ed1) by (apply dict_set_arrays, A0).
  assert (G1 : dict_get ed1 "mjd" = Some (Array mjd))
    by apply dict_get_set_same.
  destruct (dict_get (header hdu) "RA_PNT") as [ra_pnt |].
  2:{ simpl in H. injection H as <- _. simpl in Hed. injection Hed as <-.
      split; [reflexivity |]. split; [exact A1 |].
      intros v Hv. rewrite G1 in Hv. injection Hv as <-.
      exists time. split; reflexivity. }
  destruct (dict_get (header hdu) "DEC_PNT") as [dec_pnt |].
  2:{ simpl in H. injection H as <- _. simpl in Hed. injection Hed as <-.
      split; [reflexivity |]. split; [exact A1 |].
      intros v Hv. rewrite G1 in Hv. injection Hv as <-.
      exists time. split; reflexivity. }
  cbn [bind] in H. injection H as <- _. simpl in Hed. injection Hed as <-.
  split; [reflexivity |].
  split; [do 4 apply dict_set_arrays; exact A1 |].
  intros v Hv. rewrite !dict_get_set_other in Hv by reflexivity.
  fold mjd in Hv. fold ed1 in Hv.
  rewrite G1 in Hv. injection Hv as <-.
  exists time. split; reflexivity.
Qed.

End DL3Steps.

Section DL3Loader.

Context {AP : Astropy} {FS : FileSystem}.

(** The steps that the FITS DL3 loader has taken when it returns. *)
Lemma dl3_load_events_steps
  (file_name : string) (cuts : option string)
  (out : list string) (es : EventSample.t) :
  LstDl3EventFile.load_events file_name cuts = (out, Ok es) ->
  exists input_file hdu vars status ed m ed' livetime,
    fits_open file_name = Ok input_file /\
    dict_get input_file "EVENTS" = Some hdu /\
    LstDl3EventFile.read_events input_file = (vars, status) /\
    LstDl3EventFile.event_data vars = Some ed /\
    arrays_only ed /\
    LstDl3EventFile.apply_mask m ed = Ok ed' /\
    Spec.attributes_of ed' es /\
    dict_get (header hdu) "LIVETIME" = Some livetime /\
    EventSample.delta_t es = None /\
    EventSample.eff_obs_time es = Some (mkScalar livetime u.s).
Proof.
  unfold LstDl3EventFile.load_events. intros H.
  apply io_bind_ok in H. destruct H as [o1 [input_file [o2 [Hopen [H _]]]]].
  apply lift_ok in Hopen. destruct Hopen as [Hopen _].
  apply io_bind_ok in H. destruct H as [o3 [u0 [o4 [_ [H _]]]]].
  apply io_bind_ok in H. destruct H as [o5 [vars [o6 [Hvars [H _]]]]].
  apply lift_ok in H. destruct H as [H _].
  step H ed Hed. step H rows Hrows. step H m Hprod. step H ed' Hmask.
  step H c1 H1. step H c2 H2. step H c3 H3. step H c4 H4. step H c5 H5.
  step H c6 H6. step H c7 H7. step H c8 H8.
  step H hdr Hhdr. step H livetime Hlive.
  unfold EventSample.init in H. injection H as <-.
  destruct (LstDl3EventFile.read_events input_file) as [vars0 status] eqn:Hread.
  assert (Hsame : vars = vars0).
  { destruct status as [[] | e].
    - injection Hvars as _ <-. reflexivity.
    - destruct e; try discriminate Hvars.
      simpl in Hvars. injection Hvars as _ <-. reflexivity. }
  subst vars0.
  assert (Hed' : LstDl3EventFile.event_data vars = Some ed).
  { unfold LstDl3EventFile.unbound in Hed.
    destruct (LstDl3EventFile.event_data vars); [| discriminate Hed].
    injection Hed as ->. reflexivity. }
  destruct (dl3_read_events_inv _ _ _ _ Hread Hed')
    as [hdu [Hhdu [Hhead [Harr _]]]].
  exists input_file, hdu, vars, status, ed, m, ed', livetime.
  split; [exact Hopen |]. split; [exact Hhdu |]. split; [exact Hread |].
  split; [exact Hed' |]. split; [exact Harr |]. split; [exact Hmask |].
  split.
  { unfold Spec.attributes_of. simpl. repeat split; assumption. }
  split.
  { rewrite Hhead in Hhdr. simpl in Hhdr. injection Hhdr as <-.
    unfold getitem in Hlive.
    destruct (dict_get (header hdu) "LIVETIME"); [| discriminate Hlive].
    injection Hlive as ->. reflexivity. }
  split; reflexivity.
Qed.

(** X13: when the FITS DL3 loader returns, the times of the sample are the
    whole [TIME] column of the [EVENTS] table, each moved by the LST epoch
    and turned into MJD, in days; the sample has no [delta_t]; its effective
    observation time is the [LIVETIME] of the header, in seconds, and is
    not computed from the events; and the cuts play no part. *)
Theorem dl3_load_events_times_and_livetime
  (file_name : string) (cuts : option string)
  (out : list string) (es : EventSample.t) :
  LstDl3EventFile.load_events file_name cuts = (out, Ok es) ->
  exists input_file hdu time livetime,
    fits_open file_name = Ok input_file /\
    dict_get input_file "EVENTS" = Some hdu /\
    dict_get (data hdu) "TIME" = Some time /\
    dict_get (header hdu) "LIVETIME" = Some livetime /\
    EventSample.mjd es
    = Some (mkQuantity (map LstDl3EventFile.event_mjd time) u.d) /\
    EventSample.delta_t es = None /\
    EventSample.eff_obs_time es = Some (mkScalar livetime u.s) /\
    LstDl3EventFile.load_events file_name None = (out, Ok es).
Proof.
  intros H.
  destruct (dl3_load_events_steps _ _ _ _ H)
    as (input_file & hdu & vars & status & ed & m & ed' & livetime
        & Hopen & Hhdu & Hread & Hed & Harr & Hmask
        & (_ & _ & _ & _ & _ & _ & _ & H8) & Hlive & Hdt & Heff).
  destruct (dl3_read_events_inv _ _ _ _ Hread Hed)
    as [hdu' [Hhdu' [_ [_ Hmjd]]]].
  rewrite Hhdu in Hhdu'. injection Hhdu' as <-.
  destruct (whole_of_attribute_dl3 _ _ _ _ _ Harr Hmask H8)
    as [q [a [Hq [Ha [_ [Hval Hunit]]]]]].
  simpl in Hq, Ha, Hunit.
  destruct (Hmjd _ Ha) as [time [Htime E]]. injection E as ->.
  exists input_file, hdu, time, livetime.
  repeat split; try assumption.
  rewrite Hq. destruct q as [v x]. simpl in *. injection Hunit as <-.
  rewrite Hval. reflexivity.
Qed.

End DL3Loader.

Section SummaryReturns.

Context {AP : Astropy} {FS : FileSystem}.

Lemma cut_summarisable (units : dict u.unit) (m : list bool)
  (ed : dict pyvalue) (es : EventSample.t) (mjd az zd : Quantity) :
  EventSample.mjd es = Some mjd ->
  EventSample.pointing_az es = Some az ->
  EventSample.pointing_zd es = Some zd ->
  Forall (cut units m ed) (pointing_columns es) ->
  (forall x, dict_get units "mjd" = Some x -> u.physical x = u.time) ->
  (forall x, dict_get units "pointing_az" = Some x -> u.physical x = u.angle) ->
  (forall x, dict_get units "pointing_zd" = Some x -> u.physical x = u.angle) ->
  summarisable es.
Proof.
  intros Hmjd Haz Hzd Hcut U1 U2 U3. unfold pointing_columns in Hcut.
  rewrite Hmjd, Haz, Hzd in Hcut.
  inversion Hcut as [| c1 l1 C1 Hcut1]; subst.
  inversion Hcut1 as [| c2 l2 C2 Hcut2]; subst.
  inversion Hcut2 as [| c3 l3 C3 _]; subst.
  destruct C1 as [a1 [_ [L1 [V1 D1]]]].
  destruct C2 as [a2 [_ [L2 [V2 D2]]]].
  destruct C3 as [a3 [_ [L3 [V3 D3]]]].
  simpl in *.
  exists mjd, az, zd. repeat split; auto.
  - rewrite V1, V3, !select_length_le by assumption. reflexivity.
  - rewrite V2, V3, !select_length_le by assumption. reflexivity.
Qed.

Lemma magic_loaded_summarisable
  (file_name : string) (cuts : option string)
  (out : list string) (es : EventSample.t) :
  MagicRootEventFile.load_events file_name cuts = (out, Ok es) ->
  summarisable es.
Proof.
  intros H.
  destruct (magic_load_events_steps _ _ _ _ H)
    as (input_file & ed & rows & m & ed' & _ & _ & _ & _ & Hmask
        & (_ & _ & _ & _ & _ & H6 & H7 & H8) & _).
  destruct (cut_of_attribute_magic _ _ _ _ _ Hmask H6) as [C6 N6].
  destruct (cut_of_attribute_magic _ _ _ _ _ Hmask H7) as [C7 N7].
  destruct (cut_of_attribute_magic _ _ _ _ _ Hmask H8) as [C8 N8].
  destruct (EventSample.pointing_az es) as [az |] eqn:Eaz;
    [| contradiction N6; reflexivity].
  destruct (EventSample.pointing_zd es) as [zd |] eqn:Ezd;
    [| contradiction N7; reflexivity].
  destruct (EventSample.mjd es) as [mjd |] eqn:Emjd;
    [| contradiction N8; reflexivity].
  apply (cut_summarisable MagicRootEventFile.data_units m ed es mjd az zd);
    try assumption.
  - unfold pointing_columns. rewrite Eaz, Ezd, Emjd.
    repeat constructor; assumption.
  - intros x E. injection E as <-. reflexivity.
  - intros x E. injection E as <-. reflexivity.
  - intros x E. injection E as <-. reflexivity.
Qed.

Lemma dl2_loaded_summarisable
  (file_name : string) (cuts : option string)
  (out : list string) (es : EventSample.t) :
  LstDl2EventFile.load_events file_name cuts = (out, Ok es) ->
  EventSample.pointing_az es <> None ->
  EventSample.pointing_zd es <> None ->
  summarisable es.
Proof.
  intros H N6 N7.
  destruct (dl2_load_events_steps _ _ _ _ H)
    as (ed & rows & m & ed' & _ & _ & _ & Hmask
        & (_ & _ & _ & _ & _ & H6 & H7 & H8) & _ & N8).
  pose proof (cut_of_attribute_dl2 _ _ _ _ _ Hmask H6) as C6.
  pose proof (cut_of_attribute_dl2 _ _ _ _ _ Hmask H7) as C7.
  pose proof (cut_of_attribute_dl2 _ _ _ _ _ Hmask H8) as C8.
  destruct (EventSample.pointing_az es) as [az |] eqn:Eaz;
    [| contradiction N6; reflexivity].
  destruct (EventSample.pointing_zd es) as [zd |] eqn:Ezd;
    [| contradiction N7; reflexivity].
  destruct (EventSample.mjd es) as [mjd |] eqn:Emjd;
    [| contradiction N8; reflexivity].
  apply (cut_summarisable LstDl2EventFile.data_units m ed es mjd az zd);
    try assumption.
  - unfold pointing_columns. rewrite Eaz, Ezd, Emjd.
    repeat constructor; assumption.
  - intros x E. injection E as <-. reflexivity.
  - intros x E. injection E as <-. reflexivity.
  - intros x E. injection E as <-. reflexivity.
Qed.

Lemma dl3_loaded_summarisable
  (file_name : string) (cuts : option string)
  (out : list string) (es : EventSample.t) :
  LstDl3EventFile.load_events file_name cuts = (out, Ok es) ->
  summarisable es.
Proof.
  intros H.
  destruct (dl3_load_events_steps _ _ _ _ H)
    as (input_file & hdu & vars & status & ed & m & ed' & livetime
        & _ & _ & _ & _ & Harr & Hmask
        & (_ & _ & _ & _ & _ & H6 & H7 & H8) & _).
  destruct (whole_of_attribute_dl3 _ _ _ _ _ Harr Hmask H6)
    as [az [a6 [E6 [_ [L6 [V6 U6]]]]]].
  destruct (whole_of_attribute_dl3 _ _ _ _ _ Harr Hmask H7)
    as [zd [a7 [E7 [_ [L7 [V7 U7]]]]]].
  destruct (whole_of_attribute_dl3 _ _ _ _ _ Harr Hmask H8)
    as [mjd [a8 [E8 [_ [L8 [V8 U8]]]]]].
  simpl in *.
  exists mjd, az, zd.
  injection U6 as U6. injection U7 as U7. injection U8 as U8.
  rewrite <- U6, <- U7, <- U8.
  repeat split; try assumption; try reflexivity; congruence.
Qed.

Lemma summarisable_outcome
  (name : string) (events : EventFile.t) (mjd : Quantity) :
  summarisable (EventFile.events events) ->
  EventFile.mjd events = Some mjd ->
  value mjd <> [] ->
  exists i_min i_max alt alt_min alt_max,
    numpy.argmin (value mjd) = Ok i_min /\
    numpy.argmax (value mjd) = Ok i_max /\
    EventFile.pointing_alt events = Ok alt /\
    nth_error (value alt) i_min = Some alt_min /\
    nth_error (value alt) i_max = Some alt_max /\
    ((SkyCoord.outside 90 alt_min || SkyCoord.outside 90 alt_max)%bool = true ->
     RunSummary.of_events name events = Raise ValueError) /\
    ((SkyCoord.outside 90 alt_min || SkyCoord.outside 90 alt_max)%bool = false ->
     exists pstart pstop,
       RunSummary.of_events name events
       = Ok (RunSummary.mk (Some (EventFile.obs_id events)) (Some name)
                           (Some pstart) (Some pstop))).
Proof.
  intros [m [az [zd [H1 [H2 [H3 [U1 [U2 [U3 [L1 L2]]]]]]]]]] Hmjd Hne.
  unfold EventFile.mjd in Hmjd. rewrite H1 in Hmjd.
  injection Hmjd as ->.
  exact (of_events_outcome name events mjd az zd H1 H2 H3 U1 U2 U3 L1 L2 Hne).
Qed.

Lemma init_events (load : io EventSample.t) (get : result Z)
  (file_name : string) (out : list string) (ef : EventFile.t) :
  (obs_id <~ lift get ;;
   events <~ load ;;
   io_ret (EventFile.mk file_name obs_id events)) = (out, Ok ef) ->
  load = (out, Ok (EventFile.events ef)).
Proof.
  intros H.
  apply io_bind_ok in H. destruct H as [o1 [id [o2 [Hid [H ->]]]]].
  apply lift_ok in Hid. destruct Hid as [_ ->].
  apply io_bind_ok in H. destruct H as [o3 [es [o4 [Hload [H ->]]]]].
  unfold io_ret in H. injection H as <- <-.
  simpl. rewrite app_nil_r. exact Hload.
Qed.

End SummaryReturns.

(** ** The HDF5 loader *)

Lemma drop_get_other (data : DataFrame) (name k : string) :
  String.eqb name k = false ->
  dict_get (LstDl2EventFile.drop data name) k = dict_get data k.
Proof.
  intros Hk. induction data as [| [k0 a] data IH]; simpl.
  - reflexivity.
  - destruct (String.eqb k0 name) eqn:E; simpl.
    + apply String.eqb_eq in E. subst k0. rewrite Hk. exact IH.
    + destruct (String.eqb k0 k); [reflexivity | exact IH].
Qed.

Section DL2Zenith.

Context {AP : Astropy} {FS : FileSystem}.

(** The [try] of the HDF5 loader puts the zenith distance computed from
    [alt_tel] under [pointing_zd], and nothing after the renaming loop
    touches it. *)
Lemma dl2_read_table_zenith (file_name : string) (cuts : option string)
  (ed : dict pyvalue) :
  LstDl2EventFile.read_table file_name cuts = Ok ed ->
  exists table rows alt_tel,
    read_hdf file_name LstDl2EventFile.table_key = Ok table /\
    match cuts with
    | Some c => query table c = Ok rows
    | None => rows = table
    end /\
    dict_get rows "alt_tel" = Some alt_tel /\
    dict_get ed "pointing_zd" = Some (Array (zenith alt_tel)).
Proof.
  unfold LstDl2EventFile.read_table. intros H.
  step H table Htable. step H rows Hrows. step H alt_tel Halt.
  exists table, rows, alt_tel.
  split; [exact Htable |].
  split.
  { destruct cuts; [exact Hrows | injection Hrows as ->; reflexivity]. }
  split.
  { unfold getitem in Halt. rewrite drop_get_other in Halt by reflexivity.
    destruct (dict_get rows "alt_tel"); [| discriminate Halt].
    injection Halt as ->. reflexivity. }
  fold (zenith alt_tel) in H.
  set (frame := dict_set (LstDl2EventFile.drop rows "zd_tel") "zd_tel"
                         (zenith alt_tel)) in *.
  set (ed0 := rename_present LstDl2EventFile.data_names_mapping frame
                             LstDl2EventFile.no_columns) in *.
  assert (G0 : dict_get ed0 "pointing_zd" = Some (Array (zenith alt_tel))).
  { unfold ed0.
    change LstDl2EventFile.data_names_mapping
      with ([ ("trigger_type", "trigger_pattern");
              ("event_id", "daq_event_number");
              ("reco_ra", "event_ra");
              ("reco_dec", "event_dec");
              ("gammaness", "gammaness");
              ("reco_energy", "event_energy");
              ("mjd", "mjd");
              ("delta_t", "delta_t");
              ("az_tel", "pointing_az") ]
            ++ ("zd_tel", "pointing_zd")
            :: [ ("ra_tel", "pointing_ra");
                 ("dec_tel", "pointing_dec");
                 ("mc_energy", "true_energy");
                 ("mc_alt", "true_zd");
                 ("mc_az", "true_az") ]).
    rewrite rename_present_get by reflexivity.
    unfold frame. rewrite dict_get_set_same. reflexivity. }
  destruct (negb (dict_mem frame "mc_energy")
            || dict_mem frame "mc_energy" && dict_mem frame "trigger_time")%bool.
  2:{ apply Ok_inj in H. subst ed. exact G0. }
  step H trigger_time Htrig. step H pointing_ra Hra. step H ed1 Hed1.
  step H event_ra Hera.
  assert (G1 : dict_get ed1 "pointing_zd" = Some (Array (zenith alt_tel))).
  { destruct (is_None pointing_ra).
    - step Hed1 a1 Ha1. step Hed1 a2 Ha2. step Hed1 coords Hc.
      apply Ok_inj in Hed1. subst ed1.
      rewrite !dict_get_set_other by reflexivity. exact G0.
    - apply Ok_inj in Hed1. subst ed1.
      rewrite dict_get_set_other by reflexivity. exact G0. }
  destruct (is_None event_ra).
  - step H a1 Ha1. step H a2 Ha2. step H coords Hc. apply Ok_inj in H. subst ed.
    rewrite !dict_get_set_other by reflexivity. exact G1.
  - apply Ok_inj in H. subst ed. exact G1.
Qed.

End DL2Zenith.

(** ** find_run_neighbours, whatever the runs *)

(** What two chained lazy filters let through passed both predicates, and
    passes them again. *)
Lemma tuple_of_two_filters_inv {A : Type} (p q : A -> result bool)
  (l : list A) :
  forall l',
    tuple (pyfilter q (pyfilter p (iter l))) = Ok l' ->
    (forall x, In x l' -> In x l /\ p x = Ok true /\ q x = Ok true) /\
    tuple (pyfilter q (pyfilter p (iter l'))) = Ok l'.
Proof.
  induction l as [| x l IH]; intros l' H; simpl in H.
  - injection H as <-. split; [intros x [] | reflexivity].
  - destruct (p x) as [[|] | e] eqn:Hp; simpl in H.
    + destruct (q x) as [[|] | e] eqn:Hq; simpl in H.
      * fold (iter l) in H. step H xs Hxs. injection H as <-.
        destruct (IH _ Hxs) as [Hall Hagain]. split.
        -- intros y [<- | Hy].
           ++ repeat split; try assumption. left. reflexivity.
           ++ destruct (Hall y Hy) as [Hin Hpq].
              split; [right; exact Hin | exact Hpq].
        -- simpl. rewrite Hp. simpl. rewrite Hq. simpl.
           fold (iter xs). rewrite Hagain. reflexivity.
      * destruct (IH _ H) as [Hall Hagain]. split; [| exact Hagain].
        intros y Hy. destruct (Hall y Hy) as [Hin Hpq].
        split; [right; exact Hin | exact Hpq].
      * discriminate H.
    + destruct (IH _ H) as [Hall Hagain]. split; [| exact Hagain].
      intros y Hy. destruct (Hall y Hy) as [Hin Hpq].
      split; [right; exact Hin | exact Hpq].
    + discriminate H.
Qed.

Section NeighbourResults.

Context {AP : Astropy}.

(** X20: whatever [find_run_neighbours] returns is made of candidates of
    the list, each passing both filters, no more than the list has; and
    searching among the neighbours returns them all again. *)
Theorem find_run_neighbours_idempotent
  (target : RunSummary.t) (run_list neighbours : list RunSummary.t)
  (time_delta pointing_delta : Scalar) :
  find_run_neighbours target run_list time_delta pointing_delta
  = Ok neighbours ->
  (forall c, In c neighbours ->
     In c run_list /\
     near_in_time target time_delta c = Ok true /\
     near_in_pointing target pointing_delta c = Ok true) /\
  length neighbours <= length run_list /\
  find_run_neighbours target neighbours time_delta pointing_delta
  = Ok neighbours.
Proof.
  unfold find_run_neighbours. intros H.
  destruct (tuple_of_two_filters_inv _ _ _ _ H) as [Hall Hagain].
  split; [exact Hall |]. split; [| exact Hagain].
  clear Hall Hagain. revert neighbours H.
  induction run_list as [| x l IH]; intros l' H; simpl in H.
  - injection H as <-. simpl. lia.
  - destruct (near_in_time target time_delta x) as [[|] | e]; simpl in H.
    + destruct (near_in_pointing target pointing_delta x) as [[|] | e];
        simpl in H.
      * fold (iter l) in H. step H xs Hxs. injection H as <-.
        specialize (IH _ Hxs). simpl. lia.
      * specialize (IH _ H). simpl. lia.
      * discriminate H.
    + specialize (IH _ H). simpl. lia.
    + discriminate H.
Qed.

End NeighbourResults.

Section NeighbourErrors.

Context {AP : Astropy}.

Lemma near_in_time_unbounded_candidate
  (target c : RunSummary.t) (time_delta : Scalar) :
  unbounded c -> near_in_time target time_delta c = Raise AttributeError.
Proof.
  intros [Hs _]. unfold near_in_time, RunSummary.mjd_start.
  rewrite Hs. reflexivity.
Qed.

Lemma near_in_time_unbounded_target
  (target c : RunSummary.t) (time_delta : Scalar) :
  unbounded target -> near_in_time target time_delta c = Raise AttributeError.
Proof.
  intros [_ He]. unfold near_in_time, RunSummary.mjd_start, RunSummary.mjd_stop.
  rewrite He. destruct (RunSummary.tel_pointing_start c); reflexivity.
Qed.

(** X21: among runs that have both bounds or none, as [RunSummary] leaves
    them, [find_run_neighbours] raises [AttributeError] as soon as one
    candidate has no bounds, and also when the target has none and there is a
    candidate at all. *)
Theorem find_run_neighbours_attribute_error
  (target : RunSummary.t) (run_list : list RunSummary.t)
  (time_delta pointing_delta : Scalar) :
  u.physical (sunit time_delta) = u.time ->
  u.physical (sunit pointing_delta) = u.angle ->
  settled target ->
  Forall settled run_list ->
  (unbounded target /\ run_list <> []) \/ Exists unbounded run_list ->
  find_run_neighbours target run_list time_delta pointing_delta
  = Raise AttributeError.
Proof.
  intros Htime Hangle Ht Hl Hcause. unfold find_run_neighbours.
  assert (Hfirst : unbounded target -> run_list <> [] ->
            tuple (pyfilter (near_in_pointing target pointing_delta)
                     (pyfilter (near_in_time target time_delta)
                               (iter run_list))) = Raise AttributeError).
  { intros Hu Hne. destruct run_list as [| c l]; [contradiction Hne; reflexivity |].
    simpl. rewrite (near_in_time_unbounded_target _ _ _ Hu). reflexivity. }
  destruct Ht as [Hb | Hu].
  2:{ apply Hfirst; [exact Hu |].
      destruct Hcause as [[_ Hne] | Hex]; [exact Hne |].
      intros E. rewrite E in Hex. inversion Hex. }
  destruct Hcause as [[Hu Hne] | Hex]; [exact (Hfirst Hu Hne) |].
  clear Hfirst. induction Hex as [c l Hc | c l Hex IH].
  - simpl. rewrite (near_in_time_unbounded_candidate _ _ _ Hc). reflexivity.
  - inversion Hl as [| c' l' Hc Hl']; subst. specialize (IH Hl').
    simpl. destruct Hc as [Hc | Hc].
    + destruct (near_in_time_decides target c time_delta Hb Hc Htime)
        as [b1 [H1 _]].
      destruct (near_in_pointing_decides target c pointing_delta Hb Hc Hangle)
        as [b2 [H2 _]].
      rewrite H1. destruct b1; simpl; [| exact IH].
      rewrite H2. destruct b2; simpl; [| exact IH].
      fold (iter l). rewrite IH. reflexivity.
    + rewrite (near_in_time_unbounded_candidate _ _ _ Hc). reflexivity.
Qed.

End NeighbourErrors.

(** ** RunSummary after the loader *)

Section Outcome.

Context {AP : Astropy} {FS : FileSystem}.

Lemma init_obs_id (load : io EventSample.t) (get : result Z)
  (file_name : string) (out : list string) (ef : EventFile.t) :
  (obs_id <~ lift get ;;
   events <~ load ;;
   io_ret (EventFile.mk file_name obs_id events)) = (out, Ok ef) ->
  get = Ok (EventFile.obs_id ef).
Proof.
  intros H.
  apply io_bind_ok in H. destruct H as [o1 [id [o2 [Hid [H ->]]]]].
  apply lift_ok in Hid. destruct Hid as [Hid ->].
  apply io_bind_ok in H. destruct H as [o3 [es [o4 [Hload [H ->]]]]].
  unfold io_ret in H. injection H as _ <-. exact Hid.
Qed.

Lemma open_events_obs_id (name : string) (out : list string)
  (events : EventFile.t) :
  RunSummary.open_events name = (out, Ok events) ->
  (MagicRootEventFile.is_compatible name = true /\
   MagicRootEventFile.get_obs_id name = Ok (EventFile.obs_id events)) \/
  (LstDl2EventFile.is_compatible name = true /\
   LstDl2EventFile.get_obs_id name = Ok (EventFile.obs_id events)) \/
  (LstDl3EventFile.is_compatible name = true /\
   LstDl3EventFile.get_obs_id name = Ok (EventFile.obs_id events)).
Proof.
  unfold RunSummary.open_events. intros H.
  destruct (MagicRootEventFile.is_compatible name).
  { left. split; [reflexivity | exact (init_obs_id _ _ _ _ _ H)]. }
  destruct (LstDl2EventFile.is_compatible name).
  { right. left. split; [reflexivity | exact (init_obs_id _ _ _ _ _ H)]. }
  destruct (LstDl3EventFile.is_compatible name).
  { right. right. split; [reflexivity | exact (init_obs_id _ _ _ _ _ H)]. }
  discriminate H.
Qed.

Lemma of_events_inv (name : string) (events : EventFile.t) (s : RunSummary.t) :
  RunSummary.of_events name events = Ok s ->
  s = RunSummary.unset \/
  exists pstart pstop,
    s = RunSummary.mk (Some (EventFile.obs_id events)) (Some name)
                      (Some pstart) (Some pstop).
Proof.
  unfold RunSummary.of_events. intros H. step H mjd Hmjd.
  destruct (negb (Nat.eqb (length (value mjd)) 0)).
  - right.
    step H i_min Hmin. step H i_max Hmax. step H days Hdays.
    step H az Haz. step H az_sel Haz_sel.
    step H alt Halt. step H alt_sel Halt_sel.
    step H coords Hcoords.
    destruct coords as [| pstart [| pstop [| c l]]]; try discriminate H.
    injection H as <-. exists pstart, pstop. reflexivity.
  - left. injection H as <-. reflexivity.
Qed.

(** X16: a summary that [RunSummary] returns has both pointings or none;
    with none it holds no attribute at all, and else it holds the file name
    it was given and the obs id that the loader accepting the name parsed
    from it. *)
Theorem run_summary_init_settled
  (name : string) (out : list string) (s : RunSummary.t) :
  RunSummary.init name = (out, Ok s) ->
  settled s /\
  (s = RunSummary.unset \/
   exists id pstart pstop,
     s = RunSummary.mk (Some id) (Some name) (Some pstart) (Some pstop) /\
     ((MagicRootEventFile.is_compatible name = true /\
       MagicRootEventFile.get_obs_id name = Ok id) \/
      (LstDl2EventFile.is_compatible name = true /\
       LstDl2EventFile.get_obs_id name = Ok id) \/
      (LstDl3EventFile.is_compatible name = true /\
       LstDl3EventFile.get_obs_id name = Ok id))).
Proof.
  unfold RunSummary.init. intros H.
  apply io_bind_ok in H. destruct H as [o1 [events [o2 [Hopen [H _]]]]].
  apply lift_ok in H. destruct H as [H _].
  destruct (of_events_inv _ _ _ H) as [-> | [pstart [pstop ->]]].
  - split; [right; split; reflexivity | left; reflexivity].
  - split; [left; split; discriminate |].
    right. exists (EventFile.obs_id events), pstart, pstop.
    split; [reflexivity | exact (open_events_obs_id _ _ _ Hopen)].
Qed.

Lemma of_events_without_azimuth
  (name : string) (events : EventFile.t) (mjd : Quantity) :
  EventFile.mjd events = Some mjd ->
  u.physical (unit mjd) = u.time ->
  value mjd <> [] ->
  EventSample.pointing_az (EventFile.events events) = None ->
  RunSummary.of_events name events = Raise AttributeError.
Proof.
  intros Hmjd Umjd Hne Haz.
  unfold RunSummary.of_events. rewrite Hmjd. simpl.
  destruct (Nat.eqb (length (value mjd)) 0) eqn:Elen; simpl.
  { apply Nat.eqb_eq, length_zero_iff_nil in Elen. contradiction. }
  destruct (argmin_bound _ Hne) as [i_min [Hmin Bmin]].
  destruct (argmax_bound _ Hne) as [i_max [Hmax Bmax]].
  rewrite Hmin, Hmax. simpl.
  destruct (take_two_ok mjd i_min i_max Bmin Bmax)
    as (t_min & t_max & _ & _ & Hsel).
  destruct (time_to_days _ Umjd) as [to_days Hdays].
  rewrite Hsel. cbn [bind]. unfold quantity.to_value. cbn [value unit].
  rewrite Hdays. cbn [bind].
  unfold EventFile.pointing_az. rewrite Haz. reflexivity.
Qed.

Lemma dl2_loaded_zenith
  (file_name : string) (cuts : option string)
  (out : list string) (es : EventSample.t) :
  LstDl2EventFile.load_events file_name cuts = (out, Ok es) ->
  EventSample.pointing_zd es <> None.
Proof.
  intros H.
  destruct (dl2_load_events_steps _ _ _ _ H)
    as (ed & rows & m & ed' & Hed & _ & _ & Hmask
        & (_ & _ & _ & _ & _ & _ & H7 & _) & _ & _).
  pose proof (cut_of_attribute_dl2 _ _ _ _ _ Hmask H7) as C7.
  intros E. rewrite E in C7. unfold cut in C7. simpl in C7.
  destruct Hed as [[Hed _] | [_ [-> _]]].
  - destruct (dl2_read_table_zenith _ _ _ Hed) as (t & r & a & _ & _ & _ & Hzd).
    rewrite Hzd in C7. discriminate C7.
  - discriminate C7.
Qed.

(** The sample of an event file that a loader returned has times in a unit
    of time, and is fit for [RunSummary] as soon as it has azimuths. *)
Lemma opened_summarisable (name : string) (out : list string)
  (events : EventFile.t) :
  RunSummary.open_events name = (out, Ok events) ->
  (exists mjd, EventFile.mjd events = Some mjd /\
               u.physical (unit mjd) = u.time) /\
  (EventSample.pointing_az (EventFile.events events) <> None ->
   summarisable (EventFile.events events)).
Proof.
  unfold RunSummary.open_events. intros Hopen.
  assert (Hmjd : summarisable (EventFile.events events) ->
            exists mjd, EventFile.mjd events = Some mjd /\
                        u.physical (unit mjd) = u.time).
  { intros (mjd & az & zd & H1 & _ & _ & U1 & _). exists mjd. split; assumption. }
  destruct (MagicRootEventFile.is_compatible name).
  { apply init_events in Hopen.
    pose proof (magic_loaded_summarisable _ _ _ _ Hopen) as Hs.
    split; [exact (Hmjd Hs) | intros _; exact Hs]. }
  destruct (LstDl2EventFile.is_compatible name).
  { apply init_events in Hopen. split.
    - destruct (dl2_load_events_steps _ _ _ _ Hopen)
        as (ed & rows & m & ed' & _ & _ & _ & Hmask
            & (_ & _ & _ & _ & _ & _ & _ & H8) & _ & N8).
      pose proof (cut_of_attribute_dl2 _ _ _ _ _ Hmask H8) as C8.
      unfold EventFile.mjd.
      destruct (EventSample.mjd (EventFile.events events)) as [mjd |];
        [| contradiction N8; reflexivity].
      exists mjd. split; [reflexivity |].
      destruct C8 as (a & _ & _ & _ & U). simpl in U.
      injection U as <-. reflexivity.
    - intros Naz.
      exact (dl2_loaded_summarisable _ _ _ _ Hopen Naz
               (dl2_loaded_zenith _ _ _ _ Hopen)). }
  destruct (LstDl3EventFile.is_compatible name).
  { apply init_events in Hopen.
    pose proof (dl3_loaded_summarisable _ _ _ _ Hopen) as Hs.
    split; [exact (Hmjd Hs) | intros _; exact Hs]. }
  discriminate Hopen.
Qed.

(** X17: once a loader has returned the event file, [RunSummary] fails in
    two cases only. The times are never [None]; without events the summary
    is unset; with events and no azimuth column (an HDF5 table that has
    [ra_tel] and no [az_tel]) it raises [AttributeError]; with events and an
    azimuth column it raises [ValueError] when the altitude of the earliest
    or of the latest event is below -90 or above 90 degrees, and else the
    summary is built, with both bounds. *)
Theorem run_summary_init_outcome
  (name : string) (out : list string) (events : EventFile.t) :
  RunSummary.open_events name = (out, Ok events) ->
  exists mjd,
    EventFile.mjd events = Some mjd /\
    (value mjd = [] -> RunSummary.init name = (out, Ok RunSummary.unset)) /\
    (value mjd <> [] ->
     EventSample.pointing_az (EventFile.events events) = None ->
     RunSummary.init name = (out, Raise AttributeError)) /\
    (value mjd <> [] ->
     EventSample.pointing_az (EventFile.events events) <> None ->
     exists i_min i_max alt alt_min alt_max,
       numpy.argmin (value mjd) = Ok i_min /\
       numpy.argmax (value mjd) = Ok i_max /\
       EventFile.pointing_alt events = Ok alt /\
       nth_error (value alt) i_min = Some alt_min /\
       nth_error (value alt) i_max = Some alt_max /\
       ((SkyCoord.outside 90 alt_min || SkyCoord.outside 90 alt_max)%bool
        = true ->
        RunSummary.init name = (out, Raise ValueError)) /\
       ((SkyCoord.outside 90 alt_min || SkyCoord.outside 90 alt_max)%bool
        = false ->
        exists summary,
          RunSummary.init name = (out, Ok summary) /\ bounded summary)).
Proof.
  intros Hopen.
  destruct (opened_summarisable _ _ _ Hopen) as [[mjd [Hmjd Umjd]] Hsum].
  exists mjd. split; [exact Hmjd |].
  unfold RunSummary.init. rewrite Hopen. simpl.
  split; [| split].
  - intros Hnil. unfold RunSummary.of_events. rewrite Hmjd. simpl.
    rewrite Hnil. simpl. rewrite app_nil_r. reflexivity.
  - intros Hne Haz.
    rewrite (of_events_without_azimuth name events mjd Hmjd Umjd Hne Haz).
    rewrite app_nil_r. reflexivity.
  - intros Hne Naz.
    destruct (summarisable_outcome name events mjd (Hsum Naz) Hmjd Hne)
      as (i_min & i_max & alt & alt_min & alt_max
          & Hmin & Hmax & Halt & Ha_min & Ha_max & Hbad & Hgood).
    exists i_min, i_max, alt, alt_min, alt_max.
    do 5 (split; [assumption |]).
    split; intros E.
    + rewrite (Hbad E), app_nil_r. reflexivity.
    + destruct (Hgood E) as (pstart & pstop & Hs).
      eexists. rewrite Hs, app_nil_r. split; [reflexivity |].
      split; discriminate.
Qed.

End Outcome.

Section ByName.

Context {AP : Astropy} {FS : FileSystem}.

(** X19: [RunSummary] rejects a file by its name alone, before anything is
    read or printed: with the unsupported-format [RuntimeError] when no
    loader accepts the name, and with the missing-identifier [RuntimeError]
    of the first loader that accepts it when its pattern matches nowhere in
    the name. *)
Theorem run_summary_rejects_by_name (name : string) :
  (MagicRootEventFile.is_compatible name = false ->
   LstDl2EventFile.is_compatible name = false ->
   LstDl3EventFile.is_compatible name = false ->
   RunSummary.init name
   = ([], Raise (RuntimeError ("Unsupported file format for '" ++ name ++ "'.")))) /\
  (MagicRootEventFile.is_compatible name = true ->
   ~ Spec.occurs MagicRootEventFile.obs_id_pattern (chars name) ->
   RunSummary.init name = ([], Raise (missing_obs_id name))) /\
  (MagicRootEventFile.is_compatible name = false ->
   LstDl2EventFile.is_compatible name = true ->
   ~ Spec.occurs LstDl2EventFile.obs_id_pattern (chars name) ->
   RunSummary.init name = ([], Raise (missing_obs_id name))) /\
  (MagicRootEventFile.is_compatible name = false ->
   LstDl2EventFile.is_compatible name = false ->
   LstDl3EventFile.is_compatible name = true ->
   ~ Spec.occurs LstDl3EventFile.obs_id_pattern (chars name) ->
   RunSummary.init name = ([], Raise (missing_obs_id name))).
Proof.
  unfold RunSummary.init, RunSummary.open_events.
  split; [| split; [| split]].
  - intros -> -> ->. reflexivity.
  - intros -> H. apply findall_nil_iff in H.
    unfold MagicRootEventFile.init, MagicRootEventFile.get_obs_id.
    rewrite H. reflexivity.
  - intros -> -> H. apply findall_nil_iff in H.
    unfold LstDl2EventFile.init, LstDl2EventFile.get_obs_id.
    rewrite H. reflexivity.
  - intros -> -> -> H. apply findall_nil_iff in H.
    unfold LstDl3EventFile.init, LstDl3EventFile.get_obs_id.
    rewrite H. reflexivity.
Qed.

End ByName.

(** ** The columns that the HDF5 and the FITS loader return *)

Section LoadedColumns.

Context {AP : Astropy} {FS : FileSystem}.

(** X11: every [KeyError] inside the [try] of the HDF5 loader ends as a
    file without table does: when the table lacks the column [alt_tel], or
    is one of real data ([mc_energy] is absent) without [trigger_time], the
    loader prints the same warning and returns the empty sample. *)
Theorem dl2_load_events_missing_column
  (file_name : string) (cuts : option string) (table rows : DataFrame) :
  read_hdf file_name LstDl2EventFile.table_key = Ok table ->
  match cuts with
  | Some c => query table c = Ok rows
  | None => rows = table
  end ->
  dict_get rows "alt_tel" = None \/
  (dict_get rows "mc_energy" = None /\ dict_get rows "trigger_time" = None) ->
  LstDl2EventFile.load_events file_name cuts
  = ([dl2_corrupted_message], Ok dl2_empty_sample).
Proof.
  intros Htable Hrows Hmissing.
  assert (Hraise : exists key, LstDl2EventFile.read_table file_name cuts
                               = Raise (KeyError key)).
  { unfold LstDl2EventFile.read_table. rewrite Htable. cbn [bind].
    assert (Hq : match cuts with
                 | Some c => query table c
                 | None => Ok table
                 end = Ok rows).
    { destruct cuts; [exact Hrows | rewrite Hrows; reflexivity]. }
    rewrite Hq. cbn [bind]. unfold getitem at 1.
    rewrite drop_get_other by reflexivity.
    destruct (dict_get rows "alt_tel") as [alt_tel |] eqn:Halt.
    2:{ eexists. reflexivity. }
    destruct Hmissing as [Hm | [Hmc Htrig]]; [discriminate Hm |].
    cbn [bind].
    set (frame := dict_set (LstDl2EventFile.drop rows "zd_tel") "zd_tel" _).
    assert (Gmc : dict_mem frame "mc_energy" = false).
    { unfold dict_mem, frame.
      rewrite dict_get_set_other, drop_get_other, Hmc by reflexivity.
      reflexivity. }
    assert (Gtrig : dict_get frame "trigger_time" = None).
    { unfold frame.
      rewrite dict_get_set_other, drop_get_other by reflexivity.
      exact Htrig. }
    rewrite Gmc. cbn [negb orb]. unfold getitem at 1. rewrite Gtrig.
    eexists. reflexivity. }
  destruct Hraise as [key Hraise].
  unfold LstDl2EventFile.load_events. rewrite Hraise. reflexivity.
Qed.

(** The mask of the HDF5 loader and what it was applied to. *)
Lemma dl2_load_events_mask
  (file_name : string) (cuts : option string)
  (out : list string) (es : EventSample.t) :
  LstDl2EventFile.load_events file_name cuts = (out, Ok es) ->
  exists ed m ed',
    (LstDl2EventFile.read_table file_name cuts = Ok ed \/
     (exists key, LstDl2EventFile.read_table file_name cuts
                  = Raise (KeyError key)) /\
     ed = empty_columns LstDl2EventFile.data_names_mapping
                        LstDl2EventFile.no_columns) /\
    (forall i, nth i m false = true <->
               i < length m /\ Spec.finite_row ed i) /\
    LstDl2EventFile.apply_mask m ed = Ok ed' /\
    Spec.attributes_of ed' es /\
    attribute ed' "delta_t" = Ok (EventSample.delta_t es) /\
    EventSample.mjd es <> None.
Proof.
  intros H.
  destruct (dl2_load_events_steps _ _ _ _ H)
    as (ed & rows & m & ed' & Hed & Hrows & Hprod & Hmask
        & Hattr & H9 & Hmjd).
  exists ed, m, ed'.
  split.
  { destruct Hed as [[Hed _] | [Hkey [Hed _]]]; [left | right; split];
      assumption. }
  split;
    [| split; [exact Hmask |];
       split; [exact Hattr |]; split; [exact H9 | exact Hmjd]].
  pose proof (finite_rows_spec _ _ Hrows) as Hspec.
  destruct Hattr as (_ & _ & _ & _ & _ & _ & _ & H8).
  intros i. apply (mask_keeps_finite_rows ed rows); try assumption.
  pose proof (cut_of_attribute_dl2 _ _ _ _ _ Hmask H8) as Hcut.
  unfold cut in Hcut. simpl in Hcut.
  destruct (EventSample.mjd es) as [q |]; [| contradiction Hmjd; reflexivity].
  destruct Hcut as [a [Ha _]].
  exact (rows_of_nonempty _ _ _ _ Hspec Ha).
Qed.

(** X8: likewise the HDF5 loader, over the populated columns of its
    dictionary; a column of the sample is [None] exactly where the
    dictionary holds [None], and the times are never [None]. *)
Theorem dl2_load_events_keeps_finite_rows
  (file_name : string) (cuts : option string)
  (out : list string) (es : EventSample.t) :
  LstDl2EventFile.load_events file_name cuts = (out, Ok es) ->
  exists ed m,
    (LstDl2EventFile.read_table file_name cuts = Ok ed \/
     (exists key, LstDl2EventFile.read_table file_name cuts
                  = Raise (KeyError key)) /\
     ed = empty_columns LstDl2EventFile.data_names_mapping
                        LstDl2EventFile.no_columns) /\
    (forall i, nth i m false = true <->
               i < length m /\ Spec.finite_row ed i) /\
    Forall (cut LstDl2EventFile.data_units m ed) (named_columns es) /\
    EventSample.mjd es <> None.
Proof.
  intros H.
  destruct (dl2_load_events_mask _ _ _ _ H)
    as (ed & m & ed' & Hed & Hrows & Hmask
        & (H1 & H2 & H3 & H4 & H5 & H6 & H7 & H8) & H9 & Hmjd).
  exists ed, m.
  split; [exact Hed |]. split; [exact Hrows |]. split; [| exact Hmjd].
  unfold named_columns.
  repeat constructor; eapply cut_of_attribute_dl2; eassumption.
Qed.

(** X12: the zenith distance that the HDF5 loader returns is computed from
    the altitude, [numpy.radians(90) - alt_tel], whatever column [zd_tel] the
    table has: it is that array cut down to the mask of the finite rows, in
    radians. *)
Theorem dl2_load_events_zenith_from_altitude
  (file_name : string) (cuts : option string)
  (out : list string) (es : EventSample.t) (ed : dict pyvalue) :
  LstDl2EventFile.load_events file_name cuts = (out, Ok es) ->
  LstDl2EventFile.read_table file_name cuts = Ok ed ->
  exists table rows alt_tel zd m,
    read_hdf file_name LstDl2EventFile.table_key = Ok table /\
    match cuts with
    | Some c => query table c = Ok rows
    | None => rows = table
    end /\
    dict_get rows "alt_tel" = Some alt_tel /\
    length m = length alt_tel /\
    (forall i, nth i m false = true <->
               i < length m /\ Spec.finite_row ed i) /\
    EventSample.pointing_zd es = Some zd /\
    unit zd = u.rad /\
    value zd = numpy.select (zenith alt_tel) m.
Proof.
  intros Hload Hread.
  destruct (dl2_read_table_zenith _ _ _ Hread)
    as (table & rows & alt_tel & Htable & Hrows & Halt & Hzd).
  destruct (dl2_load_events_mask _ _ _ _ Hload)
    as (ed0 & m & ed' & Hed & Hmask & Happly
        & (_ & _ & _ & _ & _ & _ & H7 & _) & _ & _).
  assert (ed0 = ed) as ->.
  { destruct Hed as [Hed | [[key Hkey] _]].
    - rewrite Hread in Hed. injection Hed as <-. reflexivity.
    - rewrite Hread in Hkey. discriminate Hkey. }
  pose proof (cut_of_attribute_dl2 _ _ _ _ _ Happly H7) as C7.
  unfold cut in C7. simpl in C7. rewrite Hzd in C7.
  destruct (EventSample.pointing_zd es) as [zd |]; [| discriminate C7].
  destruct C7 as (a & Ea & Hlen & Hval & Hunit).
  injection Ea as <-. injection Hunit as Hunit.
  exists table, rows, alt_tel, zd, m.
  split; [exact Htable |]. split; [exact Hrows |]. split; [exact Halt |].
  split; [rewrite <- Hlen; unfold zenith; apply length_map |].
  split; [exact Hmask |]. split; [reflexivity |].
  split; [symmetry; exact Hunit | exact Hval].
Qed.

(** X14: whatever the file, the eight columns of a sample returned by the
    FITS DL3 loader are populated, and each is a whole column of the
    dictionary built by the [try], in the unit of the loader: the loader
    removes no row. *)
Theorem dl3_load_events_removes_no_row
  (file_name : string) (cuts : option string)
  (out : list string) (es : EventSample.t) :
  LstDl3EventFile.load_events file_name cuts = (out, Ok es) ->
  exists input_file vars status ed m,
    fits_open file_name = Ok input_file /\
    LstDl3EventFile.read_events input_file = (vars, status) /\
    LstDl3EventFile.event_data vars = Some ed /\
    Forall (whole LstDl3EventFile.data_units m ed) (read_columns es).
Proof.
  intros H.
  destruct (dl3_load_events_steps _ _ _ _ H)
    as (input_file & hdu & vars & status & ed & m & ed' & livetime
        & Hopen & _ & Hread & Hed & Harr & Hmask
        & (H1 & H2 & H3 & H4 & H5 & H6 & H7 & H8) & _).
  exists input_file, vars, status, ed, m.
  split; [exact Hopen |]. split; [exact Hread |]. split; [exact Hed |].
  unfold read_columns.
  repeat constructor; eapply whole_of_attribute_dl3; eassumption.
Qed.

End LoadedColumns.

(** ** The table of a summary *)

Section SummaryTable.

Context {AP : Astropy} {FS : FileSystem}.

(** X18: the table of a summary exists exactly when the file had events:
    on the summary of a file without events [mjd_start], [mjd_stop],
    [obs_duration] and [to_qtable] raise [AttributeError]; on any other
    summary that [RunSummary] returns they return, the duration in seconds,
    and the row of the table carries the file name and the obs id. *)
Theorem to_qtable_needs_events
  (name : string) (out : list string) (summary : RunSummary.t) :
  RunSummary.init name = (out, Ok summary) ->
  (summary = RunSummary.unset /\
   RunSummary.mjd_start summary = Raise AttributeError /\
   RunSummary.mjd_stop summary = Raise AttributeError /\
   RunSummary.obs_duration summary = Raise AttributeError /\
   RunSummary.to_qtable summary = Raise AttributeError) \/
  (bounded summary /\
   exists duration table,
     RunSummary.obs_duration summary = Ok duration /\
     sunit duration = u.s /\
     RunSummary.to_qtable summary = Ok table /\
     QTable.file_name table = [Some name] /\
     QTable.obs_id table = [RunSummary.obs_id summary] /\
     QTable.duration table = [duration]).
Proof.
  unfold RunSummary.init. intros H.
  apply io_bind_ok in H. destruct H as [o1 [events [o2 [Hopen [H _]]]]].
  apply lift_ok in H. destruct H as [H _].
  destruct (of_events_inv _ _ _ H) as [-> | [pstart [pstop ->]]].
  - left. repeat split.
  - right. split; [split; discriminate |].
    unfold RunSummary.to_qtable, RunSummary.obs_duration,
      RunSummary.mjd_start, RunSummary.mjd_stop. simpl.
    eexists. eexists. repeat split.
Qed.

End SummaryTable.

(** ** __repr__ *)

Section ReprProperties.

Context {AP : Astropy} {FM : Formatter}.

(** X22: neither an event file without events nor its summary can be
    printed: [EventFile.__repr__] raises [ValueError] for the minimum of an
    empty altitude array and [RunSummary.__repr__] raises [AttributeError]
    for the start time, both before anything is printed. *)
Theorem repr_of_empty_file_raises
  (cls : string) (events : EventFile.t) (zd : Quantity)
  (name : string) (summary : RunSummary.t) :
  EventSample.pointing_zd (EventFile.events events) = Some zd ->
  u.physical (unit zd) = u.angle ->
  value zd = [] ->
  RunSummary.of_events name events = Ok summary ->
  (forall mjd, EventFile.mjd events = Some mjd -> value mjd = []) ->
  event_file_repr cls events = ([], Raise ValueError) /\
  run_summary_repr summary = ([], Raise AttributeError).
Proof.
  intros Hzd Uzd Hnil Hs Hmjd. split.
  - unfold event_file_repr, EventFile.pointing_alt, EventSample.pointing_alt.
    rewrite Hzd. unfold quantity.rsub, quantity.to_value.
    destruct (angle_to_deg _ Uzd) as [f [Hf _]]. cbn [sunit sval].
    rewrite Hf, Hnil. reflexivity.
  - unfold RunSummary.of_events in Hs. step Hs mjd Emjd.
    destruct (EventFile.mjd events) as [q |] eqn:E; [| discriminate Emjd].
    injection Emjd as <-. rewrite (Hmjd q eq_refl) in Hs. simpl in Hs.
    injection Hs as <-. reflexivity.
Qed.

End ReprProperties.

(** ** A file of one event *)

Lemma dict_set_has_array (d : dict pyvalue) (k name : string)
  (b : numpy.ndarray) :
  has_array d name \/ k = name -> has_array (dict_set d k (Array b)) name.
Proof.
  intros H. destruct (String.eqb k name) eqn:E.
  - apply String.eqb_eq in E. subst k. exists b. apply dict_get_set_same.
  - destruct H as [[a Ha] | ->]; [| rewrite String.eqb_refl in E; discriminate E].
    exists a. rewrite dict_get_set_other by exact E. exact Ha.
Qed.

Lemma rename_columns_has_array (mapping : dict string)
  (data : dict numpy.ndarray) (name : string) :
  forall ed ed',
    rename_columns mapping data ed = Ok ed' ->
    In name (map snd mapping) \/ has_array ed name ->
    has_array ed' name.
Proof.
  induction mapping as [| [key n] mapping IH]; intros ed ed' H Hname;
    simpl in H.
  - injection H as <-. destruct Hname as [[] | Hname]. exact Hname.
  - step H a Ha. apply (IH _ _ H).
    destruct Hname as [[<- | Hin] | Hed].
    + right. apply dict_set_has_array. right. reflexivity.
    + left. exact Hin.
    + right. apply dict_set_has_array. left. exact Hed.
Qed.

Lemma rename_mc_has_array (data : dict numpy.ndarray) (name : string) :
  forall ed ed',
    MagicRootEventFile.rename_mc data ed = Ok ed' ->
    has_array ed name -> has_array ed' name.
Proof.
  induction data as [| [key a] data IH]; intros ed ed' H Hname; simpl in H.
  - injection H as <-. exact Hname.
  - step H n Hn. apply (IH _ _ H). apply dict_set_has_array. left. exact Hname.
Qed.

Section OneEvent.

Context {FS : FileSystem}.

(** The dictionary read from a tree has the ten columns that the sample and
    the mask need. *)
Lemma read_tree_has_arrays (tree : DataFrame) (cuts : option string)
  (ed : dict pyvalue) (name : string) :
  MagicRootEventFile.read_tree tree cuts = Ok ed ->
  In name (map fst (named_columns magic_empty_sample)) ->
  has_array ed name.
Proof.
  unfold MagicRootEventFile.read_tree. intros H Hname.
  step H cols Hcols. step H ed0 Hed0. step H hadronness Hh.
  assert (Hmjd : forall d, has_array (dict_set d "mjd" (Array [])) "mjd").
  { intros d. apply dict_set_has_array. right. reflexivity. }
  assert (H0 : name <> "mjd" -> has_array ed0 name).
  { intros Hne. apply (rename_columns_has_array _ _ _ _ _ Hed0). left.
    simpl in Hname |- *.
    repeat (destruct Hname as [<- | Hname];
            [first [tauto | contradiction Hne; reflexivity] |]).
    destruct Hname. }
  destruct (String.eqb name "mjd") eqn:E.
  - apply String.eqb_eq in E. subst name.
    destruct (dict_mem tree "MMcEvt_1.").
    + step H mc Hmc. step H ed1 Hed1.
      step H zd Hzd. step H az Haz. step H az' Haz'.
      injection H as <-. apply dict_set_has_array. right. reflexivity.
    + step H tcols Htcols. step H m0 Hm0. step H ms Hms. step H ns Hns.
      step H fraction Hf. step H m1 Hm1. injection H as <-.
      apply dict_set_has_array. right. reflexivity.
  - assert (Hne : name <> "mjd").
    { intros ->. rewrite String.eqb_refl in E. discriminate E. }
    specialize (H0 Hne).
    assert (H1 : has_array (dict_set ed0 "gammaness"
                   (Array (map (fun x => (1 - x)%float) hadronness))) name).
    { apply dict_set_has_array. left. exact H0. }
    destruct (dict_mem tree "MMcEvt_1.").
    + step H mc Hmc. step H ed1 Hed1.
      pose proof (rename_mc_has_array _ _ _ _ Hed1 H1) as H2.
      step H zd Hzd. step H az Haz. step H az' Haz'.
      injection H as <-.
      do 4 (apply dict_set_has_array; left). exact H2.
    + step H tcols Htcols. step H m0 Hm0. step H ms Hms. step H ns Hns.
      step H fraction Hf. step H m1 Hm1. injection H as <-.
      apply dict_set_has_array. left. exact H1.
Qed.

End OneEvent.

(** The closing loop of the legacy loader succeeds on arrays as long as the
    mask, and leaves under each key its column cut down. *)
Lemma magic_apply_mask_total (m : list bool) (ed : dict pyvalue) :
  arrays_only ed ->
  (forall k a, In (k, Array a) ed -> length a = length m) ->
  exists ed',
    MagicRootEventFile.apply_mask m ed = Ok ed' /\
    forall k a, dict_get ed k = Some (Array a) ->
      dict_get ed' k
      = Some (match dict_get MagicRootEventFile.data_units k with
              | Some x => Quant (quantity.times (numpy.select a m) x)
              | None => Array (numpy.select a m)
              end).
Proof.
  induction ed as [| [k0 v0] ed IH]; intros Harr Hlen.
  - exists []. split; [reflexivity |]. intros k a H. discriminate H.
  - destruct (Harr k0 v0 (or_introl eq_refl)) as [a0 ->].
    destruct IH as [rest [Hrest Hget]].
    { intros k v Hin. apply (Harr k v). right. exact Hin. }
    { intros k a Hin. apply (Hlen k a). right. exact Hin. }
    cbn [MagicRootEventFile.apply_mask as_array bind].
    unfold numpy.getitem_mask.
    rewrite (Hlen k0 a0 (or_introl eq_refl)), Nat.eqb_refl.
    cbn [bind]. rewrite Hrest. cbn [bind].
    eexists. split; [reflexivity |].
    intros k a H. cbn [dict_get] in H |- *.
    destruct (String.eqb k0 k) eqn:E.
    + apply String.eqb_eq in E. subst k0. injection H as <-. reflexivity.
    + exact (Hget _ _ H).
Qed.

Lemma attribute_of_quantity (ed : dict pyvalue) (name : string) (q : Quantity) :
  dict_get ed name = Some (Quant q) -> attribute ed name = Ok (Some q).
Proof.
  intros H. unfold attribute, getitem. rewrite H. reflexivity.
Qed.

Lemma calc_eff_obs_time_without_difference
  (es : EventSample.t) (m dt : Quantity) (x : float) :
  EventSample.mjd es = Some m ->
  length (value m) <= 1 ->
  EventSample.delta_t es = Some dt ->
  u.physical (unit dt) = u.time ->
  In x (value dt) ->
  PrimFloat.ltb 0 x = true ->
  EventSample.calc_eff_obs_time es = Raise TypeError.
Proof.
  intros Hm Hlen Hdt Htime Hin Hpos.
  unfold EventSample.calc_eff_obs_time.
  rewrite Hm, Hdt. simpl.
  rewrite (no_time_difference _ Hlen). simpl.
  rewrite (gt_zero_seconds _ Htime). simpl.
  rewrite select_map_filter.
  fold (Spec.positive (value dt)).
  rewrite (some_positive _ _ Hin Hpos).
  destruct (amin_in (Spec.positive (value dt))) as [d [Hd _]].
  { intros E. pose proof (some_positive _ _ Hin Hpos) as F.
    rewrite E in F. discriminate F. }
  rewrite Hd. reflexivity.
Qed.

Section OneEventLoader.

Context {FS : FileSystem}.

(** X23: a legacy file in which one event at most is finite in every
    column, and that event has a positive time difference, cannot be loaded:
    the sample would have no difference of times, and the loader raises
    [TypeError]. *)
Theorem magic_load_events_single_event_raises
  (file_name : string) (cuts : option string) (input_file : dict DataFrame)
  (tree : DataFrame) (ed : dict pyvalue) (rows : list (list bool))
  (m : list bool) (dt : numpy.ndarray) (x : float) :
  uproot_open file_name = Ok input_file ->
  dict_get input_file "Events" = Some tree ->
  MagicRootEventFile.read_tree tree cuts = Ok ed ->
  MagicRootEventFile.finite_rows_all ed = Ok rows ->
  numpy.prod_axis0 rows = Ok m ->
  length (filter (fun b => b) m) <= 1 ->
  dict_get ed "delta_t" = Some (Array dt) ->
  In x (numpy.select dt m) ->
  PrimFloat.ltb 0 x = true ->
  MagicRootEventFile.load_events file_name cuts = ([], Raise TypeError).
Proof.
  intros Hopen Htree Hread Hrows Hprod Hone Hdt Hin Hpos.
  pose proof (read_tree_arrays _ _ _ Hread) as Harr.
  pose proof (magic_finite_rows_spec _ _ Hrows) as Hspec.
  assert (Hlens : forall k a, In (k, Array a) ed -> length a = length m).
  { intros k a Hka. destruct Hspec as [Hspec _].
    pose proof (Hspec _ _ Hka) as Hrow.
    destruct (prod_axis0_spec rows m Hprod) as [Hall _].
    { intros E. rewrite E in Hrow. destruct Hrow. }
    rewrite Forall_forall in Hall. specialize (Hall _ Hrow).
    rewrite length_map in Hall. exact Hall. }
  destruct (magic_apply_mask_total m ed Harr Hlens) as [ed' [Hmask Hget]].
  assert (Hattr : forall name,
            In name (map fst (named_columns magic_empty_sample)) ->
            exists a x0,
              dict_get ed name = Some (Array a) /\
              dict_get MagicRootEventFile.data_units name = Some x0 /\
              attribute ed' name
              = Ok (Some (quantity.times (numpy.select a m) x0))).
  { intros name Hname.
    destruct (read_tree_has_arrays _ _ _ _ Hread Hname) as [a Ha].
    pose proof (Hget _ _ Ha) as Hq.
    simpl in Hname.
    repeat (destruct Hname as [<- | Hname];
            [eexists; eexists; split; [exact Ha |];
             split; [reflexivity |];
             apply attribute_of_quantity; exact Hq |]).
    destruct Hname. }
  unfold MagicRootEventFile.load_events.
  rewrite Hopen. unfold lift, io_bind. rewrite Htree, Hread, Hrows.
  cbn [bind app]. rewrite Hprod. cbn [bind]. rewrite Hmask. cbn [bind].
  destruct (Hattr "event_ra") as (a1 & x1 & _ & _ & ->); [simpl; tauto |].
  destruct (Hattr "event_dec") as (a2 & x2 & _ & _ & ->); [simpl; tauto |].
  destruct (Hattr "event_energy") as (a3 & x3 & _ & _ & ->); [simpl; tauto |].
  destruct (Hattr "pointing_ra") as (a4 & x4 & _ & _ & ->); [simpl; tauto |].
  destruct (Hattr "pointing_dec") as (a5 & x5 & _ & _ & ->); [simpl; tauto |].
  destruct (Hattr "pointing_az") as (a6 & x6 & _ & _ & ->); [simpl; tauto |].
  destruct (Hattr "pointing_zd") as (a7 & x7 & _ & _ & ->); [simpl; tauto |].
  destruct (Hattr "mjd") as (a8 & x8 & H8 & _ & ->); [simpl; tauto |].
  destruct (Hattr "delta_t") as (a9 & x9 & H9 & U9 & ->); [simpl; tauto |].
  cbn [bind]. unfold EventSample.init.
  rewrite Hdt in H9. injection H9 as <-. injection U9 as <-.
  rewrite (calc_eff_obs_time_without_difference _
             (quantity.times (numpy.select a8 m) x8)
             (quantity.times (numpy.select dt m) u.s) x); try reflexivity;
    try assumption.
  simpl. rewrite select_length_le; [exact Hone |].
  apply Hlens with (k := "mjd"). apply dict_get_in. exact H8.
Qed.

End OneEventLoader.

(** ** A table of one event *)

Lemma dict_set_has_key (d : dict pyvalue) (k name : string) (v : pyvalue) :
  has_key d name -> has_key (dict_set d k v) name.
Proof.
  unfold has_key. intros H. destruct (String.eqb k name) eqn:E.
  - apply String.eqb_eq in E. subst k. rewrite dict_get_set_same. discriminate.
  - rewrite dict_get_set_other by exact E. exact H.
Qed.

Lemma rename_present_has_key (mapping : dict string)
  (data : dict numpy.ndarray) (name : string) :
  forall ed, has_key ed name -> has_key (rename_present mapping data ed) name.
Proof.
  induction mapping as [| [key n] mapping IH]; intros ed H; simpl.
  - exact H.
  - apply IH. destruct (dict_get data key); [apply dict_set_has_key |]; exact H.
Qed.

(** No entry of a dictionary whose finiteness rows can be taken is a
    quantity. *)
Lemma finite_rows_no_quantity (ed : dict pyvalue) (rows : list (list bool)) :
  finite_rows ed = Ok rows -> forall k q, ~ In (k, Quant q) ed.
Proof.
  revert rows. induction ed as [| [k0 v0] ed IH]; intros rows H k q Hin.
  - destruct Hin.
  - simpl in H. destruct v0 as [| a0 | q0]; simpl in H.
    + destruct Hin as [E | Hin]; [discriminate E | exact (IH _ H _ _ Hin)].
    + step H rows' Hrows'. destruct Hin as [E | Hin];
        [discriminate E | exact (IH _ Hrows' _ _ Hin)].
    + discriminate H.
Qed.

(** The closing loop of the HDF5 loader succeeds on a dictionary without
    quantities whose arrays are as long as the mask: it leaves [None] where
    it stands and each array cut down. *)
Lemma dl2_apply_mask_total (m : list bool) (ed : dict pyvalue) :
  (forall k q, ~ In (k, Quant q) ed) ->
  (forall k a, In (k, Array a) ed -> length a = length m) ->
  exists ed',
    LstDl2EventFile.apply_mask m ed = Ok ed' /\
    (forall k, dict_get ed k = Some PyNone -> dict_get ed' k = Some PyNone) /\
    forall k a, dict_get ed k = Some (Array a) ->
      dict_get ed' k
      = Some (match dict_get LstDl2EventFile.data_units k with
              | Some x => Quant (quantity.times (numpy.select a m) x)
              | None => Array (numpy.select a m)
              end).
Proof.
  induction ed as [| [k0 v0] ed IH]; intros Hnq Hlen.
  - exists []. split; [reflexivity |].
    split; [intros k H | intros k a H]; discriminate H.
  - destruct IH as [rest [Hrest [Hnone Hget]]].
    { intros k q Hin. apply (Hnq k q). right. exact Hin. }
    { intros k a Hin. apply (Hlen k a). right. exact Hin. }
    destruct v0 as [| a0 | q0].
    + cbn [LstDl2EventFile.apply_mask]. rewrite Hrest. cbn [bind].
      eexists. split; [reflexivity |].
      split; [intros k H | intros k a H]; cbn [dict_get] in H |- *;
        destruct (String.eqb k0 k) eqn:E.
      * reflexivity.
      * exact (Hnone _ H).
      * discriminate H.
      * exact (Hget _ _ H).
    + cbn [LstDl2EventFile.apply_mask as_array bind].
      unfold numpy.getitem_mask.
      rewrite (Hlen k0 a0 (or_introl eq_refl)), Nat.eqb_refl.
      cbn [bind]. rewrite Hrest. cbn [bind].
      eexists. split; [reflexivity |].
      split; [intros k H | intros k a H]; cbn [dict_get] in H |- *;
        destruct (String.eqb k0 k) eqn:E.
      * discriminate H.
      * exact (Hnone _ H).
      * apply String.eqb_eq in E. subst k0. injection H as <-. reflexivity.
      * exact (Hget _ _ H).
    + exfalso. apply (Hnq k0 q0). left. reflexivity.
Qed.

Section OneEventTable.

Context {AP : Astropy} {FS : FileSystem}.

Lemma read_table_has_keys (file_name : string) (cuts : option string)
  (ed : dict pyvalue) (name : string) :
  LstDl2EventFile.read_table file_name cuts = Ok ed ->
  In name (map fst (named_columns dl2_empty_sample)) ->
  has_key ed name.
Proof.
  unfold LstDl2EventFile.read_table. intros H Hname.
  step H table Htable. step H rows Hrows. step H alt_tel Halt.
  set (frame := dict_set (LstDl2EventFile.drop rows "zd_tel") "zd_tel" _) in *.
  set (ed0 := rename_present LstDl2EventFile.data_names_mapping frame
                             LstDl2EventFile.no_columns) in *.
  assert (K0 : has_key ed0 name).
  { apply rename_present_has_key. simpl in Hname.
    repeat (destruct Hname as [<- | Hname]; [vm_compute; discriminate |]).
    destruct Hname. }
  destruct (negb (dict_mem frame "mc_energy")
            || dict_mem frame "mc_energy" && dict_mem frame "trigger_time")%bool.
  2:{ apply Ok_inj in H. subst ed. exact K0. }
  step H trigger_time Htrig. step H pointing_ra Hra. step H ed1 Hed1.
  step H event_ra Hera.
  assert (K1 : has_key ed1 name).
  { destruct (is_None pointing_ra).
    - step Hed1 a1 Ha1. step Hed1 a2 Ha2. step Hed1 coords Hc.
      apply Ok_inj in Hed1. subst ed1. do 3 apply dict_set_has_key. exact K0.
    - apply Ok_inj in Hed1. subst ed1. apply dict_set_has_key. exact K0. }
  destruct (is_None event_ra).
  - step H a1 Ha1. step H a2 Ha2. step H coords Hc. apply Ok_inj in H. subst ed.
    do 2 apply dict_set_has_key. exact K1.
  - apply Ok_inj in H. subst ed. exact K1.
Qed.

(** X24: likewise an HDF5 table: when one event at most is finite in every
    populated column, and that event has a positive [delta_t], the loader
    raises [TypeError]. *)
Theorem dl2_load_events_single_event_raises
  (file_name : string) (cuts : option string) (ed : dict pyvalue)
  (rows : list (list bool)) (m : list bool)
  (times dt : numpy.ndarray) (x : float) :
  LstDl2EventFile.read_table file_name cuts = Ok ed ->
  finite_rows ed = Ok rows ->
  numpy.prod_axis0 rows = Ok m ->
  length (filter (fun b => b) m) <= 1 ->
  dict_get ed "mjd" = Some (Array times) ->
  dict_get ed "delta_t" = Some (Array dt) ->
  In x (numpy.select dt m) ->
  PrimFloat.ltb 0 x = true ->
  LstDl2EventFile.load_events file_name cuts = ([], Raise TypeError).
Proof.
  intros Hread Hrows Hprod Hone Hmjd Hdt Hin Hpos.
  pose proof (finite_rows_spec _ _ Hrows) as Hspec.
  assert (Hlens : forall k a, In (k, Array a) ed -> length a = length m).
  { intros k a Hka. destruct Hspec as [Hspec _].
    pose proof (Hspec _ _ Hka) as Hrow.
    destruct (prod_axis0_spec rows m Hprod) as [Hall _].
    { intros E. rewrite E in Hrow. destruct Hrow. }
    rewrite Forall_forall in Hall. specialize (Hall _ Hrow).
    rewrite length_map in Hall. exact Hall. }
  destruct (dl2_apply_mask_total m ed (finite_rows_no_quantity _ _ Hrows) Hlens)
    as [ed' [Hmask [Hnone Hget]]].
  assert (Hattr : forall name,
            In name (map fst (named_columns dl2_empty_sample)) ->
            exists c, attribute ed' name = Ok c).
  { intros name Hname.
    pose proof (read_table_has_keys _ _ _ _ Hread Hname) as Hkey.
    unfold has_key in Hkey.
    destruct (dict_get ed name) as [[| a | q] |] eqn:E;
      [| | | contradiction Hkey; reflexivity].
    - exists None. unfold attribute, getitem. rewrite (Hnone _ E). reflexivity.
    - pose proof (Hget _ _ E) as Hq. simpl in Hname.
      repeat (destruct Hname as [<- | Hname];
              [eexists; apply attribute_of_quantity; exact Hq |]).
      destruct Hname.
    - exfalso. apply dict_get_in in E.
      exact (finite_rows_no_quantity _ _ Hrows _ _ E). }
  unfold LstDl2EventFile.load_events.
  rewrite Hread. unfold lift, io_bind, io_ret. rewrite Hrows.
  cbn [bind app]. rewrite Hprod. cbn [bind]. rewrite Hmask. cbn [bind].
  destruct (Hattr "event_ra") as [c1 ->]; [simpl; tauto |].
  destruct (Hattr "event_dec") as [c2 ->]; [simpl; tauto |].
  destruct (Hattr "event_energy") as [c3 ->]; [simpl; tauto |].
  destruct (Hattr "pointing_ra") as [c4 ->]; [simpl; tauto |].
  destruct (Hattr "pointing_dec") as [c5 ->]; [simpl; tauto |].
  destruct (Hattr "pointing_az") as [c6 ->]; [simpl; tauto |].
  destruct (Hattr "pointing_zd") as [c7 ->]; [simpl; tauto |].
  rewrite (attribute_of_quantity _ _ _ (Hget _ _ Hmjd)).
  rewrite (attribute_of_quantity _ _ _ (Hget _ _ Hdt)).
  cbn [bind]. unfold EventSample.init.
  rewrite (calc_eff_obs_time_without_difference _
             (quantity.times (numpy.select times m) u.d)
             (quantity.times (numpy.select dt m) u.s) x); try reflexivity;
    try assumption.
  simpl. rewrite select_length_le; [exact Hone |].
  apply Hlens with (k := "mjd"). apply dict_get_in. exact Hmjd.
Qed.

End OneEventTable.

(** ** File names of the LST pipeline *)

Lemma split_whole (sep : ascii) (b : list ascii) :
  existsb (Ascii.eqb sep) b = false -> split sep b = [b].
Proof.
  induction b as [| c b IH]; cbn [split existsb]; [reflexivity |].
  intros H. apply orb_false_elim in H. destruct H as [Hc Hb].
  rewrite Ascii.eqb_sym, Hc, (IH Hb). reflexivity.
Qed.

Lemma split_nonempty (sep : ascii) (l : list ascii) : split sep l <> [].
Proof.
  destruct l as [| c l]; cbn [split]; [discriminate |].
  destruct (Ascii.eqb c sep); [discriminate |].
  destruct (split sep l); discriminate.
Qed.

Lemma split_app (sep : ascii) (d b : list ascii) :
  split sep (d ++ sep :: b) = split sep d ++ split sep b.
Proof.
  induction d as [| c d IH]; cbn [app split].
  - rewrite Ascii.eqb_refl. reflexivity.
  - destruct (Ascii.eqb c sep); [rewrite IH; reflexivity |].
    rewrite IH. pose proof (split_nonempty sep d) as Hne.
    destruct (split sep d) as [| w ws]; [contradiction Hne; reflexivity |].
    reflexivity.
Qed.

Lemma digits_have_no (x : ascii) (digits : list ascii) :
  is_digit x = false ->
  forallb is_digit digits = true ->
  existsb (Ascii.eqb x) digits = false.
Proof.
  intros Hx. induction digits as [| c l IH]; cbn [forallb existsb];
    [reflexivity |].
  intros H. apply andb_prop in H. destruct H as [Hc Hl].
  rewrite (IH Hl), orb_false_r.
  destruct (Ascii.eqb x c) eqn:E; [| reflexivity].
  apply Ascii.eqb_eq in E. subst c. rewrite Hx in Hc. discriminate Hc.
Qed.

Lemma chars_str (l : list ascii) : chars (str l) = l.
Proof. apply list_ascii_of_string_of_list_ascii. Qed.

Section CanonicalName.

Variables dir digits : list ascii.

Hypothesis dir_ends : dir = [] \/ exists d, dir = d ++ ["/"%char].
Hypothesis digits_ok : forallb is_digit digits = true.
Hypothesis digits_some : digits <> [].

Lemma dl3_base_no_sep :
  existsb (Ascii.eqb "/") (dl3_base_name digits) = false.
Proof.
  unfold dl3_base_name. rewrite !existsb_app.
  rewrite (digits_have_no "/" digits eq_refl digits_ok). reflexivity.
Qed.

Lemma dl3_name_base :
  pathlib.name (dir ++ dl3_base_name digits) = dl3_base_name digits.
Proof.
  unfold pathlib.name.
  assert (Hkeep : forall l,
            last (filter (fun c => negb (match c with
                                         | [] => true
                                         | [x] => Ascii.eqb x "."
                                         | _ => false
                                         end)) (l ++ [dl3_base_name digits])) []
          = dl3_base_name digits).
  { intros l. rewrite filter_app. cbn [filter].
    replace (negb _) with true by reflexivity.
    apply last_last. }
  destruct dir_ends as [-> | [d ->]].
  - cbn [app]. rewrite (split_whole _ _ dl3_base_no_sep). apply (Hkeep []).
  - rewrite <- app_assoc. cbn [app]. rewrite split_app.
    rewrite (split_whole _ _ dl3_base_no_sep). apply Hkeep.
Qed.

Lemma dl3_base_suffixes :
  pathlib.suffixes (dir ++ dl3_base_name digits)
  = [ "."%char :: chars "Run" ++ digits; chars ".fits"; chars ".gz" ].
Proof.
  unfold pathlib.suffixes. rewrite dl3_name_base.
  assert (Hlast : last (dl3_base_name digits) "a"%char = "z"%char).
  { unfold dl3_base_name.
    change (chars ".fits.gz") with (chars ".fits.g" ++ ["z"%char]).
    rewrite !app_assoc. apply last_last. }
  rewrite Hlast. change (Ascii.eqb "z" ".") with false. cbv iota.
  assert (Hstrip : lstrip "." (dl3_base_name digits) = dl3_base_name digits)
    by reflexivity.
  rewrite Hstrip. unfold dl3_base_name.
  change (chars "dl3_LST-1.Run" ++ digits ++ chars ".fits.gz")
    with (chars "dl3_LST-1"
          ++ "."%char :: (chars "Run" ++ digits) ++ "."%char :: chars "fits.gz").
  rewrite split_app.
  replace (split "." (chars "dl3_LST-1")) with [chars "dl3_LST-1"]
    by reflexivity.
  rewrite split_app.
  rewrite (split_whole "." (chars "Run" ++ digits)).
  - reflexivity.
  - rewrite existsb_app.
    rewrite (digits_have_no "." digits eq_refl digits_ok). reflexivity.
Qed.

Lemma dl3_base_extension :
  os_path.splitext_ext (dir ++ dl3_base_name digits) = chars ".gz".
Proof.
  unfold os_path.splitext_ext.
  assert (Hbase : os_path.after_last_sep (dir ++ dl3_base_name digits)
                  = dl3_base_name digits).
  { destruct dir_ends as [-> | [d ->]].
    - apply after_last_sep_whole, dl3_base_no_sep.
    - rewrite <- app_assoc. apply after_last_sep_complete, dl3_base_no_sep. }
  rewrite Hbase. unfold dl3_base_name.
  change (chars "dl3_LST-1.Run" ++ digits ++ chars ".fits.gz")
    with (chars "dl3_LST-1.Run" ++ digits ++ chars ".fits"
          ++ "."%char :: chars "gz").
  rewrite !app_assoc.
  rewrite (cut_last_dot_complete _ (chars "gz") eq_refl).
  reflexivity.
Qed.

Lemma dl3_base_occurs :
  Spec.occurs LstDl3EventFile.obs_id_pattern (dir ++ dl3_base_name digits).
Proof.
  exists dir, (dl3_base_name digits), [], digits.
  split; [rewrite app_nil_r; reflexivity |].
  unfold dl3_base_name.
  exists [], (chars "dl3_LST-1.Run" ++ digits ++ chars ".fits.gz").
  split; [reflexivity |]. split; [split; [reflexivity | exact I] |].
  cbn [LstDl3EventFile.obs_id_pattern app re.lits map chars
       list_ascii_of_string re.group re.lit].
  repeat (match goal with
          | |- Spec.captures (_ :: _) _ (?c :: ?w) _ =>
              exists [c], w; split; [reflexivity |];
              split; [split; reflexivity |]; cbn [re.group re.lit]
          end).
  exists digits, (chars ".fits.gz").
  split; [reflexivity |].
  split; [split; [exact digits_ok | exact digits_some] |].
  cbn [re.group chars list_ascii_of_string].
  repeat (match goal with
          | |- Spec.captures (_ :: _) _ (?c :: ?w) _ =>
              exists [c], w; split; [reflexivity |];
              split; [split; reflexivity |]; cbn [re.group re.lit]
          end).
  split; reflexivity.
Qed.

End CanonicalName.

Section CanonicalDispatch.

Context {AP : Astropy} {FS : FileSystem}.

(** X25: a file named as the LST pipeline names the DL3 file of a run,
    [dl3_LST-1.Run<digits>.fits.gz] in any directory, is refused by the
    ROOT and the HDF5 class (its extension is [.gz]), accepted by the
    FITS class (one of its suffixes is [.fits]), has an observation
    identifier, and is therefore opened by [RunSummary] with the FITS
    loader. *)
Theorem dl3_file_name_reaches_fits_loader (dir digits : list ascii) :
  dir = [] \/ (exists d, dir = d ++ ["/"%char]) ->
  forallb is_digit digits = true ->
  digits <> [] ->
  MagicRootEventFile.is_compatible (dl3_file_name dir digits) = false /\
  LstDl2EventFile.is_compatible (dl3_file_name dir digits) = false /\
  LstDl3EventFile.is_compatible (dl3_file_name dir digits) = true /\
  (exists n, LstDl3EventFile.get_obs_id (dl3_file_name dir digits) = Ok n /\
             (0 <= n)%Z) /\
  RunSummary.open_events (dl3_file_name dir digits)
  = LstDl3EventFile.init (dl3_file_name dir digits) None.
Proof.
  intros Hdir Hdigits Hsome.
  assert (Hroot : MagicRootEventFile.is_compatible (dl3_file_name dir digits)
                  = false).
  { unfold MagicRootEventFile.is_compatible, dl3_file_name.
    rewrite chars_str, (dl3_base_extension dir digits Hdir Hdigits).
    reflexivity. }
  assert (Hh5 : LstDl2EventFile.is_compatible (dl3_file_name dir digits)
                = false).
  { unfold LstDl2EventFile.is_compatible, dl3_file_name.
    rewrite chars_str, (dl3_base_extension dir digits Hdir Hdigits).
    reflexivity. }
  assert (Hfits : LstDl3EventFile.is_compatible (dl3_file_name dir digits)
                  = true).
  { unfold LstDl3EventFile.is_compatible, dl3_file_name.
    rewrite chars_str, (dl3_base_suffixes dir digits Hdir Hdigits).
    cbn [existsb]. replace (String.eqb (str (chars ".fits")) ".fits")
      with true by reflexivity.
    rewrite orb_true_r. reflexivity. }
  split; [exact Hroot |]. split; [exact Hh5 |]. split; [exact Hfits |].
  split.
  - destruct (get_obs_id_by_pattern LstDl3EventFile.obs_id_pattern
                LstDl3EventFile.get_obs_id (fun _ => eq_refl) dl3_group_text
                (dl3_file_name dir digits)) as [_ [_ Hfound]].
    destruct Hfound as (pre & w & post & g & n & _ & _ & _ & _ & _ & Hn & Hok).
    { unfold dl3_file_name. rewrite chars_str.
      exact (dl3_base_occurs dir digits Hdigits Hsome). }
    exists n. split; assumption.
  - unfold RunSummary.open_events. rewrite Hroot, Hh5, Hfits. reflexivity.
Qed.

End CanonicalDispatch.

(** ** The further properties in the toy worlds *)

(** X6 on a legacy file name in capital letters. *)
Lemma is_compatible_by_extension_witness :
  has_extension ".root" "/data/20210101_12345_S_SOURCE-W0.40+035.ROOT".
Proof.
  apply (proj1 (is_compatible_by_extension
                  "/data/20210101_12345_S_SOURCE-W0.40+035.ROOT")).
  reflexivity.
Defined.

(** X7 and X8 on the two files of three events. *)
Lemma magic_load_events_keeps_finite_rows_witness :
  exists out es,
    @MagicRootEventFile.load_events Demo.files Demo.magic_name3 None
    = (out, Ok es) /\
    exists input_file ed m,
      @uproot_open Demo.files Demo.magic_name3 = Ok input_file /\
      match dict_get input_file "Events" with
      | Some tree => @MagicRootEventFile.read_tree Demo.files tree None = Ok ed
      | None => ed = magic_empty_columns
      end /\
      (forall i, nth i m false = true <->
                 i < length m /\ Spec.finite_row ed i) /\
      Forall (cut MagicRootEventFile.data_units m ed) (named_columns es) /\
      Forall (fun column => snd column <> None) (named_columns es).
Proof.
  eexists. eexists. split; [vm_compute; reflexivity |].
  apply (@magic_load_events_keeps_finite_rows Demo.files Demo.magic_name3
                                              None []).
  vm_compute. reflexivity.
Defined.

Lemma dl2_load_events_keeps_finite_rows_witness :
  exists out es,
    @LstDl2EventFile.load_events Demo.astropy Demo.files Demo.dl2_name3 None
    = (out, Ok es) /\
    exists ed m,
      (@LstDl2EventFile.read_table Demo.astropy Demo.files Demo.dl2_name3 None
       = Ok ed \/
       (exists key,
          @LstDl2EventFile.read_table Demo.astropy Demo.files
                                      Demo.dl2_name3 None
          = Raise (KeyError key)) /\
       ed = empty_columns LstDl2EventFile.data_names_mapping
                          LstDl2EventFile.no_columns) /\
      (forall i, nth i m false = true <->
                 i < length m /\ Spec.finite_row ed i) /\
      Forall (cut LstDl2EventFile.data_units m ed) (named_columns es) /\
      EventSample.mjd es <> None.
Proof.
  eexists. eexists. split; [vm_compute; reflexivity |].
  apply (@dl2_load_events_keeps_finite_rows Demo.astropy Demo.files
                                            Demo.dl2_name3 None []).
  vm_compute. reflexivity.
Defined.

(** X9 on the legacy file without event tree. *)
Lemma magic_load_events_without_tree_witness :
  @MagicRootEventFile.load_events Faulty.files Faulty.treeless_name None
  = ([magic_corrupted_message Faulty.treeless_name], Ok magic_empty_sample) /\
  (forall id,
     MagicRootEventFile.is_compatible Faulty.treeless_name = true ->
     MagicRootEventFile.get_obs_id Faulty.treeless_name = Ok id ->
     @RunSummary.init Demo.astropy Faulty.files Faulty.treeless_name
     = ([magic_corrupted_message Faulty.treeless_name],
        Ok RunSummary.unset)).
Proof.
  apply (@magic_load_events_without_tree Demo.astropy Faulty.files
           Faulty.treeless_name None []).
  - reflexivity.
  - reflexivity.
Defined.

(** X10 on the legacy file of one simulated event. *)
Lemma magic_load_events_rejects_simulated_events_witness :
  @MagicRootEventFile.load_events Faulty.files Faulty.simulated_name None
  = ([], Raise ValueError).
Proof.
  eapply (@magic_load_events_rejects_simulated_events
            Faulty.files Faulty.simulated_name None
            [("Events", Faulty.simulated_tree)] Faulty.simulated_tree
            _ "event_energy" [150]%float).
  - reflexivity.
  - reflexivity.
  - reflexivity.
  - vm_compute. reflexivity.
  - do 4 right. left. reflexivity.
  - discriminate.
Defined.

(** X11 on the table without [alt_tel]. *)
Lemma dl2_load_events_missing_column_witness :
  @LstDl2EventFile.load_events Demo.astropy Faulty.files
                               Faulty.no_altitude_name None
  = ([dl2_corrupted_message], Ok dl2_empty_sample).
Proof.
  apply (@dl2_load_events_missing_column Demo.astropy Faulty.files
           Faulty.no_altitude_name None
           Faulty.no_altitude_table Faulty.no_altitude_table).
  - reflexivity.
  - reflexivity.
  - left. reflexivity.
Defined.

(** X12 on the HDF5 table of three events. *)
Lemma dl2_load_events_zenith_from_altitude_witness :
  exists out es ed,
    @LstDl2EventFile.load_events Demo.astropy Demo.files Demo.dl2_name3 None
    = (out, Ok es) /\
    @LstDl2EventFile.read_table Demo.astropy Demo.files Demo.dl2_name3 None
    = Ok ed /\
    exists table rows alt_tel zd m,
      @read_hdf Demo.files Demo.dl2_name3 LstDl2EventFile.table_key
      = Ok table /\
      rows = table /\
      dict_get rows "alt_tel" = Some alt_tel /\
      length m = length alt_tel /\
      (forall i, nth i m false = true <->
                 i < length m /\ Spec.finite_row ed i) /\
      EventSample.pointing_zd es = Some zd /\
      unit zd = u.rad /\
      value zd = numpy.select (zenith alt_tel) m.
Proof.
  eexists. eexists. eexists.
  split; [vm_compute; reflexivity |].
  split; [vm_compute; reflexivity |].
  apply (@dl2_load_events_zenith_from_altitude Demo.astropy Demo.files
           Demo.dl2_name3 None []).
  - vm_compute. reflexivity.
  - vm_compute. reflexivity.
Defined.

(** X13 and X14 on the FITS table of two events. *)
Lemma dl3_load_events_times_and_livetime_witness :
  exists out es,
    @LstDl3EventFile.load_events Demo.astropy Demo.files Demo.dl3_name None
    = (out, Ok es) /\
    exists input_file hdu time livetime,
      @fits_open Demo.files Demo.dl3_name = Ok input_file /\
      dict_get input_file "EVENTS" = Some hdu /\
      dict_get (data hdu) "TIME" = Some time /\
      dict_get (header hdu) "LIVETIME" = Some livetime /\
      EventSample.mjd es
      = Some (mkQuantity (map (@LstDl3EventFile.event_mjd Demo.astropy) time)
                         u.d) /\
      EventSample.delta_t es = None /\
      EventSample.eff_obs_time es = Some (mkScalar livetime u.s) /\
      @LstDl3EventFile.load_events Demo.astropy Demo.files Demo.dl3_name None
      = (out, Ok es).
Proof.
  eexists. eexists. split; [vm_compute; reflexivity |].
  apply (@dl3_load_events_times_and_livetime Demo.astropy Demo.files
           Demo.dl3_name None ["Reading file dl3_LST-1.Run00007.fits.gz"]).
  vm_compute. reflexivity.
Defined.

Lemma dl3_load_events_removes_no_row_witness :
  exists out es,
    @LstDl3EventFile.load_events Demo.astropy Demo.files Demo.dl3_name None
    = (out, Ok es) /\
    exists input_file vars status ed m,
      @fits_open Demo.files Demo.dl3_name = Ok input_file /\
      @LstDl3EventFile.read_events Demo.astropy input_file = (vars, status) /\
      LstDl3EventFile.event_data vars = Some ed /\
      Forall (whole LstDl3EventFile.data_units m ed) (read_columns es).
Proof.
  eexists. eexists. split; [vm_compute; reflexivity |].
  apply (@dl3_load_events_removes_no_row Demo.astropy Demo.files
           Demo.dl3_name None ["Reading file dl3_LST-1.Run00007.fits.gz"]).
  vm_compute. reflexivity.
Defined.

(** X15 on the legacy file of three events taken at the azimuth of -80
    degrees, which is kept as 280 degrees. *)
Lemma run_summary_bounds_are_extreme_events_witness :
  exists out events mjd (s : @RunSummary.t Demo.astropy),
    @RunSummary.open_events Demo.astropy Faulty.files Faulty.westward_name
    = (out, Ok events) /\
    EventFile.mjd events = Some mjd /\
    RunSummary.of_events Faulty.westward_name events = Ok s /\
    exists i_min i_max t_min t_max to_days az alt az_min az_max
           (pstart pstop : @SkyCoord.t Demo.astropy),
      first_minimum (value mjd) i_min /\
      first_maximum (value mjd) i_max /\
      nth_error (value mjd) i_min = Some t_min /\
      nth_error (value mjd) i_max = Some t_max /\
      u.converter (unit mjd) u.d = Ok to_days /\
      EventFile.pointing_az events = Ok az /\
      EventFile.pointing_alt events = Ok alt /\
      nth_error (value az) i_min = Some az_min /\
      nth_error (value az) i_max = Some az_max /\
      @Longitude Demo.astropy [az_min; az_max] u.deg
      = [SkyCoord.az pstart; SkyCoord.az pstop] /\
      nth_error (value alt) i_min = Some (SkyCoord.alt pstart) /\
      nth_error (value alt) i_max = Some (SkyCoord.alt pstop) /\
      SkyCoord.outside 90 (SkyCoord.alt pstart) = false /\
      SkyCoord.outside 90 (SkyCoord.alt pstop) = false /\
      SkyCoord.obstime pstart = @Time_mjd Demo.astropy (to_days t_min) /\
      SkyCoord.obstime pstop = @Time_mjd Demo.astropy (to_days t_max) /\
      s = RunSummary.mk (Some (EventFile.obs_id events))
                        (Some Faulty.westward_name)
                        (Some pstart) (Some pstop).
Proof.
  eexists. eexists. eexists. eexists.
  split; [vm_compute; reflexivity |].
  split; [vm_compute; reflexivity |].
  split; [vm_compute; reflexivity |].
  eapply (@run_summary_bounds_are_extreme_events Demo.astropy).
  - vm_compute. reflexivity.
  - discriminate.
  - repeat constructor.
  - vm_compute. reflexivity.
Defined.

(** The summary of that file: the azimuth of both bounds is 280 degrees. *)
Lemma run_summary_wraps_azimuth :
  exists t1 t2,
    @RunSummary.init Demo.astropy Faulty.files Faulty.westward_name
    = ([], Ok (RunSummary.mk (Some 12349%Z) (Some Faulty.westward_name)
             (Some (Demo.position 280 70 t1))
             (Some (Demo.position 280 70 t2)))).
Proof. eexists. eexists. vm_compute. reflexivity. Qed.

(** X16, X17 and X18 on the legacy file of three events, two of which the
    loader keeps. *)
Lemma run_summary_init_settled_witness :
  exists out (s : @RunSummary.t Demo.astropy),
    @RunSummary.init Demo.astropy Demo.files Demo.magic_name3 = (out, Ok s) /\
    settled s /\
    (s = RunSummary.unset \/
     exists id (pstart pstop : @SkyCoord.t Demo.astropy),
       s = RunSummary.mk (Some id) (Some Demo.magic_name3)
                         (Some pstart) (Some pstop) /\
       ((MagicRootEventFile.is_compatible Demo.magic_name3 = true /\
         MagicRootEventFile.get_obs_id Demo.magic_name3 = Ok id) \/
        (LstDl2EventFile.is_compatible Demo.magic_name3 = true /\
         LstDl2EventFile.get_obs_id Demo.magic_name3 = Ok id) \/
        (LstDl3EventFile.is_compatible Demo.magic_name3 = true /\
         LstDl3EventFile.get_obs_id Demo.magic_name3 = Ok id))).
Proof.
  eexists. eexists. split; [vm_compute; reflexivity |].
  apply (@run_summary_init_settled Demo.astropy Demo.files Demo.magic_name3 []).
  vm_compute. reflexivity.
Defined.

Lemma run_summary_init_outcome_witness :
  exists out events,
    @RunSummary.open_events Demo.astropy Demo.files Demo.magic_name3
    = (out, Ok events) /\
    exists mjd,
      EventFile.mjd events = Some mjd /\
      (value mjd = [] ->
       @RunSummary.init Demo.astropy Demo.files Demo.magic_name3
       = (out, Ok RunSummary.unset)) /\
      (value mjd <> [] ->
       EventSample.pointing_az (EventFile.events events) = None ->
       @RunSummary.init Demo.astropy Demo.files Demo.magic_name3
       = (out, Raise AttributeError)) /\
      (value mjd <> [] ->
       EventSample.pointing_az (EventFile.events events) <> None ->
       exists i_min i_max alt alt_min alt_max,
         numpy.argmin (value mjd) = Ok i_min /\
         numpy.argmax (value mjd) = Ok i_max /\
         EventFile.pointing_alt events = Ok alt /\
         nth_error (value alt) i_min = Some alt_min /\
         nth_error (value alt) i_max = Some alt_max /\
         ((SkyCoord.outside 90 alt_min || SkyCoord.outside 90 alt_max)%bool
          = true ->
          @RunSummary.init Demo.astropy Demo.files Demo.magic_name3
          = (out, Raise ValueError)) /\
         ((SkyCoord.outside 90 alt_min || SkyCoord.outside 90 alt_max)%bool
          = false ->
          exists summary,
            @RunSummary.init Demo.astropy Demo.files Demo.magic_name3
            = (out, Ok summary) /\ bounded summary)).
Proof.
  eexists. eexists. split; [vm_compute; reflexivity |].
  apply (@run_summary_init_outcome Demo.astropy Demo.files Demo.magic_name3).
  vm_compute. reflexivity.
Defined.

Lemma to_qtable_needs_events_witness :
  exists out (summary : @RunSummary.t Demo.astropy),
    @RunSummary.init Demo.astropy Demo.files Demo.magic_name3
    = (out, Ok summary) /\
    ((summary = RunSummary.unset /\
      RunSummary.mjd_start summary = Raise AttributeError /\
      RunSummary.mjd_stop summary = Raise AttributeError /\
      RunSummary.obs_duration summary = Raise AttributeError /\
      RunSummary.to_qtable summary = Raise AttributeError) \/
     (bounded summary /\
      exists duration table,
        RunSummary.obs_duration summary = Ok duration /\
        sunit duration = u.s /\
        RunSummary.to_qtable summary = Ok table /\
        QTable.file_name table = [Some Demo.magic_name3] /\
        QTable.obs_id table = [RunSummary.obs_id summary] /\
        QTable.duration table = [duration])).
Proof.
  eexists. eexists. split; [vm_compute; reflexivity |].
  apply (@to_qtable_needs_events Demo.astropy Demo.files Demo.magic_name3 []).
  vm_compute. reflexivity.
Defined.

(** X19 on a text file, and on an HDF5 file whose name carries no obs id. *)
Lemma run_summary_rejects_by_name_witness :
  @RunSummary.init Demo.astropy Demo.files "notes.txt"
  = ([], Raise (RuntimeError "Unsupported file format for 'notes.txt'.")) /\
  @RunSummary.init Demo.astropy Demo.files "corrupt.h5"
  = ([], Raise (missing_obs_id "corrupt.h5")).
Proof.
  split.
  - apply (proj1 (@run_summary_rejects_by_name Demo.astropy Demo.files
                    "notes.txt")); reflexivity.
  - apply (proj1 (proj2 (proj2 (@run_summary_rejects_by_name
                                  Demo.astropy Demo.files "corrupt.h5")))).
    + reflexivity.
    + reflexivity.
    + apply findall_nil_iff. reflexivity.
Defined.

(** X20 and X21 on the runs of the toy world. *)
Lemma find_run_neighbours_idempotent_witness :
  exists neighbours,
    find_run_neighbours Demo.target_run
      [Demo.following_run; Demo.elsewhere_run; Demo.later_run]
      (mkScalar 30 u.min) (mkScalar 1 u.deg)
    = Ok neighbours /\
    (forall c, In c neighbours ->
       In c [Demo.following_run; Demo.elsewhere_run; Demo.later_run] /\
       near_in_time Demo.target_run (mkScalar 30 u.min) c = Ok true /\
       near_in_pointing Demo.target_run (mkScalar 1 u.deg) c = Ok true) /\
    length neighbours <= 3 /\
    find_run_neighbours Demo.target_run neighbours
                        (mkScalar 30 u.min) (mkScalar 1 u.deg)
    = Ok neighbours.
Proof.
  eexists. split; [vm_compute; reflexivity |].
  apply (@find_run_neighbours_idempotent Demo.astropy Demo.target_run
           [Demo.following_run; Demo.elsewhere_run; Demo.later_run]).
  vm_compute. reflexivity.
Defined.

Lemma find_run_neighbours_attribute_error_witness :
  find_run_neighbours Demo.target_run [Demo.following_run; RunSummary.unset]
                      (mkScalar 30 u.min) (mkScalar 1 u.deg)
  = Raise AttributeError.
Proof.
  apply (@find_run_neighbours_attribute_error Demo.astropy).
  - reflexivity.
  - reflexivity.
  - left. split; discriminate.
  - constructor; [left; split; discriminate |].
    constructor; [right; split; reflexivity | constructor].
  - right. apply Exists_cons_tl. apply Exists_cons_hd. split; reflexivity.
Defined.

(** The failures of X17 arise. The HDF5 table of [Faulty.no_azimuth_name]
    is loaded, and its summary raises [AttributeError]. *)
Lemma run_summary_without_azimuth_raises :
  (exists events,
     @RunSummary.open_events Demo.astropy Faulty.files Faulty.no_azimuth_name
     = ([], Ok events) /\
     EventSample.pointing_az (EventFile.events events) = None) /\
  @RunSummary.init Demo.astropy Faulty.files Faulty.no_azimuth_name
  = ([], Raise AttributeError).
Proof.
  split; [eexists; split; vm_compute; reflexivity | vm_compute; reflexivity].
Qed.

(** The legacy file of [Faulty.overhead_name] is loaded with its three
    events; the first of them, the earliest, has a zenith distance of -0.5
    degrees, an altitude of 90.5 degrees, and the summary raises
    [ValueError]. *)
Lemma run_summary_beyond_zenith_raises :
  (exists events zd,
     @RunSummary.open_events Demo.astropy Faulty.files Faulty.overhead_name
     = ([], Ok events) /\
     EventSample.pointing_zd (EventFile.events events) = Some zd /\
     value zd = [-0.5; 20; 20]%float) /\
  @RunSummary.init Demo.astropy Faulty.files Faulty.overhead_name
  = ([], Raise ValueError).
Proof.
  split; [eexists; eexists; split; [| split]; vm_compute; reflexivity
         | vm_compute; reflexivity].
Qed.

(** X22 on the event file of the HDF5 table that is missing. *)
Lemma repr_of_empty_file_raises_witness :
  @event_file_repr Faulty.formatter "LstDl2EventFile"
                   (EventFile.mk Demo.dl2_name 42%Z dl2_empty_sample)
  = ([], Raise ValueError) /\
  @run_summary_repr Demo.astropy Faulty.formatter RunSummary.unset
  = ([], Raise AttributeError).
Proof.
  apply (@repr_of_empty_file_raises Demo.astropy Faulty.formatter
           "LstDl2EventFile"
           (EventFile.mk Demo.dl2_name 42%Z dl2_empty_sample)
           (mkQuantity [] u.rad) Demo.dl2_name RunSummary.unset).
  - reflexivity.
  - reflexivity.
  - reflexivity.
  - reflexivity.
  - intros mjd H. injection H as <-. reflexivity.
Defined.

(** X23 on the legacy file of one event. *)
Lemma magic_load_events_single_event_raises_witness :
  @MagicRootEventFile.load_events Demo.files Demo.magic_name None
  = ([], Raise TypeError).
Proof.
  eapply (@magic_load_events_single_event_raises
            Demo.files Demo.magic_name None
            [("Events", Demo.one_event_tree)] Demo.one_event_tree
            _ _ _ [0.002]%float 0.002%float).
  - reflexivity.
  - reflexivity.
  - vm_compute. reflexivity.
  - vm_compute. reflexivity.
  - vm_compute. reflexivity.
  - simpl. lia.
  - reflexivity.
  - left. reflexivity.
  - reflexivity.
Defined.

(** X24 on the HDF5 table of one event. *)
Lemma dl2_load_events_single_event_raises_witness :
  @LstDl2EventFile.load_events Demo.astropy Faulty.files
                               Faulty.single_event_name None
  = ([], Raise TypeError).
Proof.
  eapply (@dl2_load_events_single_event_raises
            Demo.astropy Faulty.files Faulty.single_event_name None
            _ _ _ _ [0.001]%float 0.001%float).
  - vm_compute. reflexivity.
  - vm_compute. reflexivity.
  - vm_compute. reflexivity.
  - simpl. lia.
  - vm_compute. reflexivity.
  - reflexivity.
  - left. reflexivity.
  - reflexivity.
Defined.

(** A DL3 file of the toy world by its full path. *)
Lemma dl3_file_name_reaches_fits_loader_witness :
  MagicRootEventFile.is_compatible "/data/dl3_LST-1.Run02967.fits.gz" = false /\
  LstDl2EventFile.is_compatible "/data/dl3_LST-1.Run02967.fits.gz" = false /\
  LstDl3EventFile.is_compatible "/data/dl3_LST-1.Run02967.fits.gz" = true /\
  (exists n,
     LstDl3EventFile.get_obs_id "/data/dl3_LST-1.Run02967.fits.gz" = Ok n /\
     (0 <= n)%Z) /\
  @RunSummary.open_events Demo.astropy Demo.files
                          "/data/dl3_LST-1.Run02967.fits.gz"
  = @LstDl3EventFile.init Demo.astropy Demo.files
                          "/data/dl3_LST-1.Run02967.fits.gz" None.
Proof.
  apply (@dl3_file_name_reaches_fits_loader Demo.astropy Demo.files
           (chars "/data/") (chars "02967")).
  - right. exists (chars "/data"). reflexivity.
  - reflexivity.
  - discriminate.
Defined.
